(** * Content-Creation-Agency: the computations of the agency's tools

    A shallow embedding of the code of

    - [trend_analyzer/tools/trend_analyzer.py]   (module [TrendAnalyzer])
    - [content_manager/tools/content_optimizer.py] (module [ContentOptimizer])
    - [youtube_analyzer/tools/sentiment_analyzer.py] (module [SentimentAnalyzer])
    - [youtube_analyzer/tools/channel_analyzer.py] (module [ChannelAnalyzer])
    - [youtube_analyzer/tools/competitor_analyzer.py] (module [CompetitorAnalyzer])
    - [trend_analyzer/tools/web_search.py]       (module [WebSearch])
    - [trend_analyzer/tools/keyword_extractor.py] (module [KeywordExtractor])
    - [content_manager/tools/script_editor.py]   (module [ScriptEditor])

    Conventions.

    - Python exceptions are values of [result]: a function that can raise
      returns [Raise e], and [x <- c ;; k] propagates the exception.  The
      one tool that catches its exceptions and stores their text has its
      own type of outcomes, which keeps that text.
    - numpy/pandas [float64] values are modelled by [npfloat]: a
      rational, or one of the IEEE special values [+inf], [-inf], [nan].
      A division by zero does not raise, it yields [inf] or [nan], and
      [nan] compares false with everything.  The statistics (means,
      deviations, the regression) are computed exactly, without rounding
      and without signed zero.  The rates that the code rounds to two
      decimals are computed with the rounding of binary64 at every
      operation ([float64]), because there the last bit of the float
      decides between two decimals; the range of the exponent is not
      modelled, these rates being quotients of 64-bit counts and clock
      readings.
    - a Python [dict] is an association list in insertion order.
    - a Python [str] is a [string] of ASCII characters, so that its length
      is its number of characters.
    - the services and libraries the tools call (Google Trends, the
      YouTube and search services, TextBlob, NLTK, spaCy, KeyBERT, the
      transformer pipeline, the regular-expression engine, the clock) are
      parameters of the functions that use them.
    - a record of a service's response has the keys the code reads; a
      key the code reads with [get] may be missing (an [option]), and a
      key that is present holds a value of the type the service
      documents. *)

From Stdlib Require Import ZArith QArith Qround Qreduction Qcanon Qabs Qminmax
  Qpower.
From Stdlib Require Import List String Ascii Bool Lia Lqa Znumtheory.
From Stdlib Require Import Permutation Sorted.
Import ListNotations.

Set Implicit Arguments.

(** ** Exceptions *)

Inductive exn : Type :=
| ValueError
| KeyError (key : string)
| ZeroDivisionError
| OpenAIError.

Inductive result (A : Type) : Type :=
| Ok (a : A)
| Raise (e : exn).

Arguments Ok {A} a.
Arguments Raise {A} e.

Definition bind {A B : Type} (c : result A) (k : A -> result B) : result B :=
  match c with
  | Ok a => k a
  | Raise e => Raise e
  end.

Notation "x <- c ;; k" := (bind c (fun x => k))
  (at level 61, c at next level, right associativity).

(** A function that may raise, applied to the elements from left to
    right. *)
Fixpoint map_result {A B : Type} (f : A -> result B) (l : list A)
  : result (list B) :=
  match l with
  | [] => Ok []
  | a :: l' =>
      b <- f a ;;
      bs <- map_result f l' ;;
      Ok (b :: bs)
  end.

(** ** Rationals: boolean tests and sums *)

Definition Qltb (a b : Q) : bool := negb (Qle_bool b a).

Definition sumQ (l : list Q) : Q := fold_right Qplus 0%Q l.

Definition lenQ {A : Type} (l : list A) : Q := inject_Z (Z.of_nat (List.length l)).

(** ** float64 values *)

Inductive npfloat : Type :=
| Fin (q : Q)
| PInf
| NInf
| NaN.

Definition npneg (x : npfloat) : npfloat :=
  match x with
  | Fin q => Fin (- q)
  | PInf => NInf
  | NInf => PInf
  | NaN => NaN
  end.

Definition npadd (x y : npfloat) : npfloat :=
  match x, y with
  | NaN, _ | _, NaN => NaN
  | Fin a, Fin b => Fin (a + b)
  | PInf, NInf | NInf, PInf => NaN
  | PInf, _ | _, PInf => PInf
  | NInf, _ | _, NInf => NInf
  end.

Definition npsub (x y : npfloat) : npfloat := npadd x (npneg y).

(** [inf * 0] is [nan]; otherwise the sign rule. *)
Definition inf_times (positive : bool) (a : Q) : npfloat :=
  if Qeq_bool a 0 then NaN
  else if Bool.eqb positive (Qltb 0 a) then PInf else NInf.

Definition npmul (x y : npfloat) : npfloat :=
  match x, y with
  | NaN, _ | _, NaN => NaN
  | Fin a, Fin b => Fin (a * b)
  | Fin a, PInf | PInf, Fin a => inf_times true a
  | Fin a, NInf | NInf, Fin a => inf_times false a
  | PInf, PInf | NInf, NInf => PInf
  | PInf, NInf | NInf, PInf => NInf
  end.

(** True division of numpy scalars and arrays: a zero divisor gives
    [nan] for [0/0] and a signed infinity otherwise (with a
    RuntimeWarning, not an exception). *)
Definition npdiv (x y : npfloat) : npfloat :=
  match x, y with
  | NaN, _ | _, NaN => NaN
  | Fin a, Fin b =>
      if Qeq_bool b 0 then
        if Qeq_bool a 0 then NaN else if Qltb 0 a then PInf else NInf
      else Fin (a / b)
  | Fin _, _ => Fin 0
  | _, PInf | _, NInf => NaN
  | PInf, Fin b => if Qle_bool 0 b then PInf else NInf
  | NInf, Fin b => if Qle_bool 0 b then NInf else PInf
  end.

(** [x > y] and [x < y]; false as soon as one side is [nan]. *)
Definition npgtb (x y : npfloat) : bool :=
  match x, y with
  | NaN, _ | _, NaN => false
  | Fin a, Fin b => Qltb b a
  | PInf, PInf => false
  | PInf, _ => true
  | _, NInf => match x with NInf => false | _ => true end
  | _, _ => false
  end.

Definition npltb (x y : npfloat) : bool := npgtb y x.

Definition npabs (x : npfloat) : npfloat :=
  match x with
  | Fin q => Fin (Qabs q)
  | PInf | NInf => PInf
  | NaN => NaN
  end.

Definition of_int (z : Z) : npfloat := Fin (inject_Z z).

(** Equality of float values up to the representation of the rational. *)
Definition npeq (x y : npfloat) : Prop :=
  match x, y with
  | Fin a, Fin b => (a == b)%Q
  | PInf, PInf | NInf, NInf | NaN, NaN => True
  | _, _ => False
  end.

(** [np.sqrt] on a non-negative rational: the root of [n/d] is
    [sqrt (n*d) / d], taken here with 52 fractional bits, rounded toward
    zero.  It is exact whenever the radicand is the square of a rational,
    which is the only case the theorems below depend on. *)
Definition Qsqrt (q : Q) : Q :=
  let r := Qred q in
  Z.sqrt (Qnum r * Zpos (Qden r) * 4 ^ 52) # (Qden r * 2 ^ 52).

Definition np_sqrt (x : npfloat) : npfloat :=
  match x with
  | Fin q => if Qltb q 0 then NaN else Fin (Qsqrt q)
  | PInf => PInf
  | NInf | NaN => NaN
  end.

(** 64-bit two's complement wrap-around of numpy [int64] arithmetic. *)
Definition wrap64 (z : Z) : Z :=
  ((z + 2 ^ 63) mod 2 ^ 64 - 2 ^ 63)%Z.

(** ** numpy reductions over an [int64] array *)

Definition to_floats (values : list Z) : list Q := map inject_Z values.

(** [np.mean]: sum over count; the empty array gives [nan]. *)
Definition np_mean (xs : list Q) : npfloat :=
  npdiv (Fin (sumQ xs)) (Fin (lenQ xs)).

Definition Qmean (xs : list Q) : Q := (sumQ xs / lenQ xs)%Q.

Fixpoint insert_sorted (z : Z) (l : list Z) : list Z :=
  match l with
  | [] => [z]
  | y :: l' => if (z <=? y)%Z then z :: l else y :: insert_sorted z l'
  end.

Definition sort_ints (l : list Z) : list Z := fold_right insert_sorted [] l.

(** [np.median]: the middle of the sorted array, or the mean of the two
    middle elements; [nan] on the empty array. *)
Definition np_median (values : list Z) : npfloat :=
  let s := sort_ints values in
  let n := List.length s in
  match n with
  | O => NaN
  | _ =>
      if Nat.odd n then of_int (nth (n / 2) s 0%Z)
      else Fin ((inject_Z (nth (n / 2 - 1) s 0%Z) + inject_Z (nth (n / 2) s 0%Z)) / 2)
  end.

(** [np.std] (ddof = 0): [sqrt (mean (abs (x - mean x) ** 2))]. *)
Definition np_var (xs : list Q) : npfloat :=
  match np_mean xs with
  | Fin m => np_mean (map (fun x => Qabs (x - m) * Qabs (x - m))%Q xs)
  | other => other
  end.

Definition np_std (xs : list Q) : npfloat := np_sqrt (np_var xs).

(** [np.min] and [np.max] raise [ValueError] on an empty array. *)
Definition np_min (values : list Z) : result npfloat :=
  match values with
  | [] => Raise ValueError
  | v :: rest => Ok (of_int (fold_left Z.min rest v))
  end.

Definition np_max (values : list Z) : result npfloat :=
  match values with
  | [] => Raise ValueError
  | v :: rest => Ok (of_int (fold_left Z.max rest v))
  end.

(** [np.arange(a, b)] as floats. *)
Definition arange (a n : nat) : list Q :=
  map (fun i => inject_Z (Z.of_nat i)) (seq a n).

(** ** Python dictionaries: association lists in insertion order *)

Fixpoint dict_get {V : Type} (k : string) (d : list (string * V)) : option V :=
  match d with
  | [] => None
  | (k', v) :: d' => if String.eqb k k' then Some v else dict_get k d'
  end.

(** [d[k] = v]: an existing key keeps its position. *)
Fixpoint dict_set {V : Type} (k : string) (v : V) (d : list (string * V))
  : list (string * V) :=
  match d with
  | [] => [(k, v)]
  | (k', v') :: d' =>
      if String.eqb k k' then (k, v) :: d' else (k', v') :: dict_set k v d'
  end.

Definition dict_keys {V : Type} (d : list (string * V)) : list string :=
  map fst d.

(** * trend_analyzer.py *)

Module TrendAnalyzer.

(** ** [scipy.stats.linregress]

    The library routine (SciPy 1.17): a sample without observations gives
    [nan] for every field, with a warning and no exception; [x] must not
    be constant (unless it has a single element); the moments are those
    of [np.cov(x, y, bias=1)]; when a variance vanishes the correlation
    is [nan] if the covariance is 0, as it then is, and [0.0] if not;
    otherwise it is the quotient, clipped to [-1, 1].  A single
    observation goes through the same computation: its variances are 0,
    and slope, intercept and correlation are all [nan].  The p-value and
    standard errors are not used by the callers and are left out. *)

Record LinregressResult : Type := {
  slope : npfloat;
  intercept : npfloat;
  rvalue : npfloat
}.

Definition np_cov (x y : list Q) : Q :=
  let xm := Qmean x in
  let ym := Qmean y in
  (sumQ (map (fun p => (fst p - xm) * (snd p - ym)) (combine x y)) / lenQ x)%Q.

Definition amax (x0 : Q) (xs : list Q) : Q := fold_left Qmax xs x0.
Definition amin (x0 : Q) (xs : list Q) : Q := fold_left Qmin xs x0.

Definition clip_r (r : npfloat) : npfloat :=
  if npgtb r (Fin 1) then Fin 1
  else if npltb r (Fin (-1)) then Fin (-1)
  else r.

Definition linregress (x y : list Q) : result LinregressResult :=
  match x, y with
  | [], _ | _, [] => Ok {| slope := NaN; intercept := NaN; rvalue := NaN |}
  | x0 :: xs, _ =>
      if Qeq_bool (amax x0 xs) (amin x0 xs) && (1 <? List.length x)%nat
      then Raise ValueError
      else
        let xmean := Qmean x in
        let ymean := Qmean y in
        let ssxm := np_cov x x in
        let ssxym := np_cov x y in
        let ssym := np_cov y y in
        let r :=
          if Qeq_bool ssxm 0 || Qeq_bool ssym 0
          then (if Qeq_bool ssxym 0 then NaN else Fin 0)
          else clip_r (npdiv (Fin ssxym) (np_sqrt (Fin (ssxm * ssym)))) in
        let slope := npdiv (Fin ssxym) (Fin ssxm) in
        let intercept := npsub (Fin ymean) (npmul slope (Fin xmean)) in
        Ok {| slope := slope; intercept := intercept; rvalue := r |}
  end.

(** ** The helpers of [TrendAnalyzer] *)

Definition _calculate_trend_direction (values : list Z) : result string :=
  let x := arange 0 (List.length values) in
  res <- linregress x (to_floats values) ;;
  if npltb (npabs (rvalue res)) (Fin (3 # 10)) then Ok "stable"%string
  else Ok (if npgtb (slope res) (Fin 0) then "increasing" else "decreasing")%string.

(** [values[-1]] and [values[0]] are [int64] scalars: the difference
    wraps, the division is numpy's true division. *)
Definition _calculate_momentum (values : list Z) : npfloat :=
  if (List.length values <? 2)%nat then Fin 0
  else
    let first := hd 0%Z values in
    let last := List.last values 0%Z in
    npmul (npdiv (of_int (wrap64 (last - first))) (of_int first)) (Fin 100).

Definition _predict_trend (values : list Z) : result (list npfloat) :=
  let x := arange 0 (List.length values) in
  res <- linregress x (to_floats values) ;;
  let future_x := arange (List.length values) 30 in
  Ok (map (fun fx => npadd (npmul (slope res) (Fin fx)) (intercept res)) future_x).

(** ** [run]: the statistics stored per keyword *)

Record TrendAnalysis : Type := {
  mean : npfloat;
  median : npfloat;
  std : npfloat;
  min : npfloat;
  max : npfloat;
  trend_direction : string;
  volatility : npfloat;
  momentum : npfloat
}.

(** The dictionary literal of lines 63-72, its entries evaluated in order. *)
Definition trend_analysis_of (trend_values : list Z) : result TrendAnalysis :=
  let xs := to_floats trend_values in
  let mean := np_mean xs in
  let median := np_median trend_values in
  let std := np_std xs in
  min <- np_min trend_values ;;
  max <- np_max trend_values ;;
  direction <- _calculate_trend_direction trend_values ;;
  let volatility := npdiv (np_std xs) (np_mean xs) in
  let momentum := _calculate_momentum trend_values in
  Ok {| mean := mean; median := median; std := std; min := min; max := max;
        trend_direction := direction; volatility := volatility;
        momentum := momentum |}.

(** The frame returned by [pytrends.interest_over_time()]: its columns in
    order, all of one length (the number of rows). *)
Definition DataFrame : Type := list (string * list Z).

(** [df.empty]: true when an axis has length 0. *)
Definition df_empty (df : DataFrame) : bool :=
  match df with
  | [] => true
  | (_, col) :: _ => (List.length col =? 0)%nat
  end.

(** A frame is rectangular: every column has [rows] entries. *)
Definition rectangular (df : DataFrame) (rows : nat) : Prop :=
  forall keyword col, In (keyword, col) df -> List.length col = rows.

(** The part of [results] computed by this file; the related topics,
    related queries and regional interest are copied from the service. *)
Record Results : Type := {
  trend_data : list (string * list Z);
  trend_analysis : list (string * TrendAnalysis);
  predictions : list (string * list npfloat)
}.

Definition empty_results : Results :=
  {| trend_data := []; trend_analysis := []; predictions := [] |}.

(** Lines 58-75, for one keyword of the batch. *)
Definition store_keyword (interest_df : DataFrame) (results : Results)
  (keyword : string) : result Results :=
  match dict_get keyword interest_df with
  | None => Ok results
  | Some trend_values =>
      analysis <- trend_analysis_of trend_values ;;
      forecast <- _predict_trend trend_values ;;
      Ok {| trend_data := dict_set keyword trend_values (trend_data results);
            trend_analysis := dict_set keyword analysis (trend_analysis results);
            predictions := dict_set keyword forecast (predictions results) |}
  end.

Fixpoint store_keywords (interest_df : DataFrame) (results : Results)
  (batch_keywords : list string) : result Results :=
  match batch_keywords with
  | [] => Ok results
  | keyword :: rest =>
      results' <- store_keyword interest_df results keyword ;;
      store_keywords interest_df results' rest
  end.

(** Lines 55-75: nothing is stored when the frame is empty. *)
Definition store_batch (interest_df : DataFrame) (results : Results)
  (batch_keywords : list string) : result Results :=
  if negb (df_empty interest_df)
  then store_keywords interest_df results batch_keywords
  else Ok results.

Section Run.

(** The service: the frame it returns for a batch of keywords. *)
Variable interest_over_time : list string -> DataFrame.

(** [keywords[i:i+5]] for [i] in [range(0, len(keywords), 5)]. *)
Definition batches (keywords : list string) : list (list string) :=
  map (fun k => firstn 5 (skipn (5 * k) keywords))
      (seq 0 ((List.length keywords + 4) / 5)).

Fixpoint run_batches (results : Results) (bs : list (list string))
  : result Results :=
  match bs with
  | [] => Ok results
  | batch_keywords :: rest =>
      results' <- store_batch (interest_over_time batch_keywords)
                              results batch_keywords ;;
      run_batches results' rest
  end.

Definition run (keywords : list string) : result Results :=
  run_batches empty_results (batches keywords).

End Run.

(** ** The fit on the index sequence

    What [linregress(np.arange(len(values)), values)] computes, named for
    the statements below. *)

Definition ssxm (values : list Z) : Q :=
  let x := arange 0 (List.length values) in np_cov x x.
Definition ssxym (values : list Z) : Q :=
  np_cov (arange 0 (List.length values)) (to_floats values).
Definition ssym (values : list Z) : Q :=
  let y := to_floats values in np_cov y y.

Definition fit_of (values : list Z) : LinregressResult :=
  let x := arange 0 (List.length values) in
  let y := to_floats values in
  {| slope := npdiv (Fin (ssxym values)) (Fin (ssxm values));
     intercept :=
       npsub (Fin (Qmean y))
             (npmul (npdiv (Fin (ssxym values)) (Fin (ssxm values)))
                    (Fin (Qmean x)));
     rvalue :=
       if Qeq_bool (ssxm values) 0 || Qeq_bool (ssym values) 0
       then (if Qeq_bool (ssxym values) 0 then NaN else Fin 0)
       else clip_r (npdiv (Fin (ssxym values))
                          (np_sqrt (Fin (ssxm values * ssym values)))) |}.

(** The classification of lines 106-108, applied to a fit. *)
Definition direction_of (res : LinregressResult) : string :=
  if npltb (npabs (rvalue res)) (Fin (3 # 10)) then "stable"
  else if npgtb (slope res) (Fin 0) then "increasing" else "decreasing".

(** The series [b, a + b, 2a + b, ...] of [n] samples. *)
Definition linear_series (a b : Z) (n : nat) : list Z :=
  map (fun k => (a * Z.of_nat k + b)%Z) (seq 0 n).

(** The indices [ks] and the samples of the line at [ks], as floats. *)
Definition index_floats (ks : list nat) : list Q :=
  map (fun i => inject_Z (Z.of_nat i)) ks.

Definition linear_floats (a b : Z) (ks : list nat) : list Q :=
  to_floats (map (fun k => (a * Z.of_nat k + b)%Z) ks).

(** ** Names for the statements *)

(** The three dictionaries of [results] hold the same keywords in the
    same order, and the analysis and the forecast stored for a keyword
    are those of its stored series. *)
Definition in_step (results : Results) : Prop :=
  dict_keys (trend_data results) = dict_keys (trend_analysis results) /\
  dict_keys (trend_data results) = dict_keys (predictions results) /\
  forall keyword trend_values,
    dict_get keyword (trend_data results) = Some trend_values ->
    (exists analysis,
        dict_get keyword (trend_analysis results) = Some analysis /\
        trend_analysis_of trend_values = Ok analysis) /\
    (exists forecast,
        dict_get keyword (predictions results) = Some forecast /\
        _predict_trend trend_values = Ok forecast).

(** The series [trend_values] is the column of [keyword] in the frame of
    one of the batches that hold it. *)
Definition column_of_a_batch (interest_over_time : list string -> DataFrame)
  (keywords : list string) (keyword : string) (trend_values : list Z) : Prop :=
  exists batch_keywords,
    In batch_keywords (batches keywords) /\
    In keyword batch_keywords /\
    df_empty (interest_over_time batch_keywords) = false /\
    dict_get keyword (interest_over_time batch_keywords) = Some trend_values.

(** What [run] keeps true of [results] from batch to batch. *)
Definition stored_ok (interest_over_time : list string -> DataFrame)
  (keywords : list string) (results : Results) : Prop :=
  in_step results /\
  forall keyword trend_values,
    dict_get keyword (trend_data results) = Some trend_values ->
    column_of_a_batch interest_over_time keywords keyword trend_values.

(** A service that answers with the same three samples for every
    keyword. *)
Definition steady_interest (batch_keywords : list string) : DataFrame :=
  map (fun keyword => (keyword, [40; 50; 60]%Z)) batch_keywords.

End TrendAnalyzer.

(** * Strings and counters shared by the text tools *)

Definition in_range (lo hi : nat) (c : ascii) : bool :=
  let n := nat_of_ascii c in ((lo <=? n) && (n <=? hi))%nat.

Definition is_upper (c : ascii) : bool := in_range 65 90 c.

(** [str.lower], on ASCII text. *)
Definition lower_char (c : ascii) : ascii :=
  if is_upper c then ascii_of_nat (nat_of_ascii c + 32) else c.

Fixpoint lower (s : string) : string :=
  match s with
  | EmptyString => EmptyString
  | String c s' => String (lower_char c) (lower s')
  end.

(** The class [\w] on ASCII text: letters, digits and the underscore. *)
Definition is_word_char (c : ascii) : bool :=
  in_range 48 57 c || in_range 65 90 c || in_range 97 122 c
  || (nat_of_ascii c =? 95)%nat.

Definition flush (cur : string) : list string :=
  match cur with
  | EmptyString => []
  | _ => [cur]
  end.

(** [re.findall(r'\w+', s)]: the maximal runs of word characters, in
    order; [cur] is the run being read. *)
Fixpoint findall_words (cur : string) (s : string) : list string :=
  match s with
  | EmptyString => flush cur
  | String c s' =>
      if is_word_char c then findall_words (cur ++ String c EmptyString) s'
      else flush cur ++ findall_words EmptyString s'
  end.

(** [collections.Counter]: the counts, keyed in first-seen order. *)
Fixpoint counter_add (w : string) (c : list (string * Z)) : list (string * Z) :=
  match c with
  | [] => [(w, 1%Z)]
  | (k, n) :: c' =>
      if String.eqb w k then (k, (n + 1)%Z) :: c' else (k, n) :: counter_add w c'
  end.

Definition Counter (ws : list string) : list (string * Z) :=
  fold_left (fun c w => counter_add w c) ws [].

(** [Counter.most_common(n)]: sorted by decreasing count, elements of
    equal count in first-seen order, cut to [n] entries. *)
Fixpoint insert_by_count (x : string * Z) (l : list (string * Z))
  : list (string * Z) :=
  match l with
  | [] => [x]
  | y :: l' =>
      if (snd y <? snd x)%Z then x :: l else y :: insert_by_count x l'
  end.

Definition sorted_by_count (c : list (string * Z)) : list (string * Z) :=
  fold_left (fun acc x => insert_by_count x acc) c [].

Definition most_common (n : nat) (c : list (string * Z)) : list (string * Z) :=
  firstn n (sorted_by_count c).

(** [a / b] on Python ints. *)
Definition py_truediv (a b : Z) : result Q :=
  if (b =? 0)%Z then Raise ZeroDivisionError
  else Ok (inject_Z a / inject_Z b)%Q.

(** The builtins [max(a, b)] and [min(a, b)] on numbers. *)
Definition py_max (a b : Q) : Q := if Qltb a b then b else a.
Definition py_min (a b : Q) : Q := if Qltb b a then b else a.

(** * content_optimizer.py *)

Module ContentOptimizer.

(** The [content] dictionary: each of its four keys may be missing. *)
Record Content : Type := {
  title : option string;
  description : option string;
  tags : option (list string);
  script : option string
}.

(** [content.get(key, "")]. *)
Definition get (field : option string) : string :=
  match field with
  | Some s => s
  | None => EmptyString
  end.

(** What the code reads of a [TextBlob]. *)
Record Blob : Type := {
  sentences : list string;
  words : list string
}.

(** ** [_count_syllables] *)

Definition is_vowel (c : ascii) : bool :=
  existsb (Ascii.eqb c) ["a"; "e"; "i"; "o"; "u"; "y"]%char.

(** The [for char in word] loop, on the pair [(count, prev_char_is_vowel)]. *)
Fixpoint syllable_loop (count : Z) (prev_char_is_vowel : bool) (word : string)
  : Z :=
  match word with
  | EmptyString => count
  | String char rest =>
      let is_vowel := is_vowel char in
      let count :=
        if is_vowel && negb prev_char_is_vowel then (count + 1)%Z else count in
      syllable_loop count is_vowel rest
  end.

Fixpoint endswith_e (word : string) : bool :=
  match word with
  | EmptyString => false
  | String c EmptyString => Ascii.eqb c "e"%char
  | String _ rest => endswith_e rest
  end.

Definition _count_syllables (word : string) : Z :=
  let word := lower word in
  let count := syllable_loop 0 false word in
  let count := if endswith_e word then (count - 1)%Z else count in
  if (count =? 0)%Z then 1%Z else count.

(** ** [_calculate_readability] *)

(** Line 227; both quotients are Python true divisions. *)
Definition flesch (words sentences syllables : Z) : result Q :=
  words_per_sentence <- py_truediv words sentences ;;
  syllables_per_word <- py_truediv syllables words ;;
  Ok ((206835 # 1000) - (1015 # 1000) * words_per_sentence
      - (846 # 10) * syllables_per_word)%Q.

Definition _calculate_readability (blob : Blob) : result Q :=
  let sentences := Z.of_nat (List.length (sentences blob)) in
  let words_count := Z.of_nat (List.length (words blob)) in
  let syllables := fold_right Z.add 0%Z (map _count_syllables (words blob)) in
  if (sentences =? 0)%Z || (words_count =? 0)%Z then Ok 0%Q
  else
    score <- flesch words_count sentences syllables ;;
    Ok (py_min (py_max score 0) 100).

(** ** [_optimize_seo] *)

Record SeoAnalysis : Type := {
  keyword_density : list (string * Q);
  readability_score : Q;
  seo_score : Z;
  improvement_areas : list string
}.

(** The dictionary comprehension of lines 132-135. *)
Fixpoint density_of (total_words : Z) (items : list (string * Z))
  : result (list (string * Q)) :=
  match items with
  | [] => Ok []
  | (word, count) :: rest =>
      ratio <- py_truediv count total_words ;;
      others <- density_of total_words rest ;;
      Ok ((word, (ratio * 100)%Q) :: others)
  end.

(** [max(d.values())] on a non-empty dictionary. *)
Definition max_value (first : Q) (rest : list (string * Q)) : Q :=
  fold_left (fun m kv => py_max m (snd kv)) rest first.

(** The four checks; each maps [(seo_score, improvements)] to its
    updated value. *)
Definition Score : Type := (Z * list string)%type.

Definition title_analysis (content : Content) (st : Score) : Score :=
  match title content with
  | Some t =>
      let title_length := String.length t in
      if (title_length <? 30)%nat
      then (fst st, snd st ++ ["Title is too short (< 30 characters)"%string])
      else if (60 <? title_length)%nat
      then (fst st, snd st ++ ["Title is too long (> 60 characters)"%string])
      else ((fst st + 25)%Z, snd st)
  | None => st
  end.

Definition description_analysis (content : Content) (st : Score) : Score :=
  match description content with
  | Some d =>
      let desc_length := String.length d in
      if (desc_length <? 100)%nat
      then (fst st,
            snd st ++ ["Description is too short (< 100 characters)"%string])
      else if (5000 <? desc_length)%nat
      then (fst st,
            snd st ++ ["Description is too long (> 5000 characters)"%string])
      else ((fst st + 25)%Z, snd st)
  | None => st
  end.

Definition tags_analysis (content : Content) (st : Score) : Score :=
  match tags content with
  | Some ts =>
      if (List.length ts <? 5)%nat
      then (fst st, snd st ++ ["Add more tags (minimum 5 recommended)"%string])
      else ((fst st + 25)%Z, snd st)
  | None => st
  end.

Definition keyword_usage_analysis (keyword_density : list (string * Q))
  (st : Score) : Score :=
  match keyword_density with
  | (_, d) :: rest =>
      let max_density := max_value d rest in
      if Qltb 5 max_density
      then (fst st, snd st ++ ["Keyword stuffing detected (density > 5%)"%string])
      else if Qltb max_density (1 # 2)
      then (fst st, snd st ++ ["Main keyword usage is too low (< 0.5%)"%string])
      else ((fst st + 25)%Z, snd st)
  | [] => st
  end.

Section WithTextBlob.

(** The sentence and word tokenizers of TextBlob. *)
Variable TextBlob : string -> Blob.

Definition all_text_of (content : Content) : string :=
  (get (title content) ++ " " ++ get (description content) ++ " "
   ++ get (script content))%string.

Definition _optimize_seo (content : Content) : result SeoAnalysis :=
  let all_text := all_text_of content in
  let words := findall_words EmptyString (lower all_text) in
  let word_freq := Counter words in
  let total_words := Z.of_nat (List.length words) in
  keyword_density <- density_of total_words (most_common 10 word_freq) ;;
  let blob := TextBlob all_text in
  readability <- _calculate_readability blob ;;
  let st := (0%Z, []) in
  let st := title_analysis content st in
  let st := description_analysis content st in
  let st := tags_analysis content st in
  let st := keyword_usage_analysis keyword_density st in
  Ok {| keyword_density := keyword_density;
        readability_score := readability;
        seo_score := fst st;
        improvement_areas := snd st |}.

(** ** [run] *)

Definition _optimize_title (title : string) (seo_results : SeoAnalysis)
  (competitor_data : list (string * string)) : string := title.

Definition _optimize_description (description : string)
  (seo_results : SeoAnalysis) : string := description.

Definition _optimize_tags (tags : list string) (seo_results : SeoAnalysis)
  (competitor_data : list (string * string)) : list string := tags.

Definition _optimize_script (script platform : string) : string := script.

Definition _predict_engagement (optimized_content : Content)
  (performance_data : list (string * string)) : list (string * string) := [].

Definition _generate_recommendations (seo_analysis : SeoAnalysis)
  (engagement_predictions : list (string * string))
  : list (string * string) := [].

Record Metadata : Type := {
  optimization_timestamp : string;
  platform_name : string;
  optimization_version : string
}.

Record RunResults : Type := {
  optimized_content : Content;
  seo_analysis : SeoAnalysis;
  engagement_predictions : list (string * string);
  recommendations : list (string * string);
  metadata : Metadata
}.

(** [openai.OpenAI(api_key=...)]: without a key the constructor reads
    the environment itself, and raises when it finds none. *)
Definition OpenAI (api_key : option string) : result unit :=
  match api_key with
  | Some _ => Ok tt
  | None => Raise OpenAIError
  end.

(** [OPENAI_API_KEY] is what [os.getenv("OPENAI_API_KEY")] returns ([None]
    when the variable is not set), and [now] what
    [datetime.now().isoformat()] returns at the call. *)
Definition run (OPENAI_API_KEY : option string) (now : string)
  (content : Content) (platform : string)
  (competitor_data performance_data : list (string * string))
  : result RunResults :=
  client <- OpenAI OPENAI_API_KEY ;;
  seo_results <- _optimize_seo content ;;
  let optimized :=
    {| title :=
         option_map (fun t => _optimize_title t seo_results competitor_data)
                    (title content);
       description :=
         option_map (fun d => _optimize_description d seo_results)
                    (description content);
       tags :=
         option_map (fun ts => _optimize_tags ts seo_results competitor_data)
                    (tags content);
       script :=
         option_map (fun s => _optimize_script s platform) (script content)
    |} in
  let predictions := _predict_engagement optimized performance_data in
  let recs := _generate_recommendations seo_results predictions in
  Ok {| optimized_content := optimized;
        seo_analysis := seo_results;
        engagement_predictions := predictions;
        recommendations := recs;
        metadata := {| optimization_timestamp := now;
                       platform_name := platform;
                       optimization_version := "1.0" |} |}.

End WithTextBlob.

(** ** The wording of the specification

    The syllable rule and the score, written from the specification's
    sentences, to be compared with the code above. *)

Definition starts_with_vowel (s : string) : bool :=
  match s with
  | EmptyString => false
  | String c _ => is_vowel c
  end.

(** The number of maximal runs of consecutive vowels: one for every
    vowel that is not followed by a vowel. *)
Fixpoint vowel_runs (s : string) : Z :=
  match s with
  | EmptyString => 0%Z
  | String c rest =>
      if is_vowel c && negb (starts_with_vowel rest)
      then (1 + vowel_runs rest)%Z
      else vowel_runs rest
  end.

(** Vowel runs, minus one if the word ends in "e", at least 1. *)
Definition syllables_spec (word : string) : Z :=
  let w := lower word in
  Z.max 1 (vowel_runs w - (if endswith_e w then 1 else 0)).

Definition flesch_reading_ease (words sentences syllables : Z) : Q :=
  (206835 # 1000) - (1015 # 1000) * (inject_Z words / inject_Z sentences)
  - (846 # 10) * (inject_Z syllables / inject_Z words).

Definition clamp (lo hi x : Q) : Q := Qmin hi (Qmax lo x).

(** What one of the four SEO checks does. *)
Inductive Outcome : Type :=
| Skipped
| Awarded
| Flagged (message : string).

Definition points (o : Outcome) : Z :=
  match o with
  | Awarded => 25%Z
  | _ => 0%Z
  end.

Definition messages (o : Outcome) : list string :=
  match o with
  | Flagged m => [m]
  | _ => []
  end.

Definition title_outcome (content : Content) : Outcome :=
  match title content with
  | None => Skipped
  | Some t =>
      if (String.length t <? 30)%nat
      then Flagged "Title is too short (< 30 characters)"
      else if (60 <? String.length t)%nat
      then Flagged "Title is too long (> 60 characters)"
      else Awarded
  end.

Definition description_outcome (content : Content) : Outcome :=
  match description content with
  | None => Skipped
  | Some d =>
      if (String.length d <? 100)%nat
      then Flagged "Description is too short (< 100 characters)"
      else if (5000 <? String.length d)%nat
      then Flagged "Description is too long (> 5000 characters)"
      else Awarded
  end.

Definition tags_outcome (content : Content) : Outcome :=
  match tags content with
  | None => Skipped
  | Some ts =>
      if (List.length ts <? 5)%nat
      then Flagged "Add more tags (minimum 5 recommended)"
      else Awarded
  end.

(** [m] is the largest value of the dictionary. *)
Definition is_max_density (m : Q) (keyword_density : list (string * Q)) : Prop :=
  (exists w d, In (w, d) keyword_density /\ (d == m)%Q) /\
  (forall w d, In (w, d) keyword_density -> (d <= m)%Q).

Definition keyword_outcome (keyword_density : list (string * Q)) : Outcome :=
  match keyword_density with
  | [] => Skipped
  | (_, d) :: rest =>
      let m := max_value d rest in
      if Qltb 5 m then Flagged "Keyword stuffing detected (density > 5%)"
      else if Qltb m (1 # 2) then Flagged "Main keyword usage is too low (< 0.5%)"
      else Awarded
  end.

(** The content whose title is twenty one-letter words: every word makes
    up exactly 5% of the text. *)
Definition twenty_words : Content :=
  {| title := Some "a b c d e f g h i j k l m n o p q r s t"%string;
     description := None; tags := None; script := None |}.

(** A value of the variable OPENAI_API_KEY. *)
Definition api_key : string := "key of the test".


(** A blob without sentences or words, for the examples that do not
    depend on the tokenizer. *)
Definition no_text (text : string) : Blob :=
  {| sentences := []; words := [] |}.

(** ** Names for further statements *)

(** 1 for a key of [content] that is present, 0 for a missing one. *)
Definition present {A : Type} (field : option A) : Z :=
  match field with
  | Some _ => 1%Z
  | None => 0%Z
  end.

(** 1 for a check that was passed. *)
Definition passed (o : Outcome) : Z :=
  match o with
  | Awarded => 1%Z
  | _ => 0%Z
  end.

End ContentOptimizer.

(** * pandas helpers shared by the two YouTube tools *)

(** [df[name]] on a frame built from a list of row dictionaries: the
    frame of an empty list has no columns, so the lookup raises. *)
Definition column {Row A : Type} (name : string) (field : Row -> A)
  (df : list Row) : result (list A) :=
  match df with
  | [] => Raise (KeyError name)
  | _ => Ok (map field df)
  end.

Definition is_nan (x : npfloat) : bool :=
  match x with
  | NaN => true
  | _ => false
  end.

(** [Series.mean()] with its default [skipna=True]: [nan] entries are
    dropped, infinities are not. *)
Definition pd_mean (xs : list npfloat) : npfloat :=
  let valid := filter (fun x => negb (is_nan x)) xs in
  npdiv (fold_left npadd valid (Fin 0)) (Fin (lenQ valid)).

(** Rounding to the nearest integer, ties to even. *)
Definition rint (q : Q) : Z :=
  let f := Qfloor q in
  let r := (q - inject_Z f)%Q in
  if Qltb r (1 # 2) then f
  else if Qltb (1 # 2) r then (f + 1)%Z
  else if Z.even f then f else (f + 1)%Z.

(** ** Rounding to [float64]

    A rounding to decimals looks at the last bit of the float it is given
    (109 / 800 * 100 is the float 13.625000000000002, which rounds to
    13.63 and not to 13.62), so the operations whose result is rounded
    to decimals are taken with the rounding of IEEE binary64. *)

(** The exponent of the binade of [q]: [2 ^ e <= |q| < 2 ^ (e + 1)]. *)
Definition ilog2 (q : Q) : Z :=
  let e := (Z.log2 (Z.abs (Qnum q)) - Z.log2 (Zpos (Qden q)))%Z in
  if Qle_bool (2 ^ e) (Qabs q) then e else (e - 1)%Z.

(** The float nearest to [q], ties to the even significand: [q] is
    rounded to a multiple of the last place of its binade, with 53
    significant bits. *)
Definition float64 (q : Q) : Q :=
  if Qeq_bool q 0 then 0%Q
  else
    let ulp := (2 ^ (ilog2 q - 52))%Q in
    (inject_Z (rint (q / ulp)) * ulp)%Q.

Definition f64 (x : npfloat) : npfloat :=
  match x with
  | Fin q => Fin (float64 q)
  | other => other
  end.

(** An [int64] column that enters a float operation. *)
Definition of_int64 (z : Z) : npfloat := f64 (of_int z).

(** Division and multiplication of [float64] values. *)
Definition fdiv (x y : npfloat) : npfloat := f64 (npdiv x y).
Definition fmul (x y : npfloat) : npfloat := f64 (npmul x y).

(** [np.rint]. *)
Definition np_rint (x : npfloat) : npfloat :=
  match x with
  | Fin q => of_int (rint q)
  | other => other
  end.

(** [Series.round(2)], as numpy computes it: [rint(x * 100) / 100]. *)
Definition round2 (x : npfloat) : npfloat :=
  fdiv (np_rint (fmul x (Fin 100))) (Fin 100).

(** [x] is [X] up to the relative error [e]. *)
Definition within (e x X : Q) : Prop :=
  exists d, (- e <= d <= e)%Q /\ (x == X * (1 + d))%Q.

(** [x] is the float of a number of hundredths [k / 100] that lies within
    0.005 of [X], up to the relative error [2 ^ -49] of the float
    operations that lead to it. *)
Definition rounded_to_2_decimals (x : npfloat) (X : Q) : Prop :=
  exists k : Z,
    x = Fin (float64 (inject_Z k / 100)) /\
    (Qabs (inject_Z k / 100 - X) <= (1 # 200) + Qabs X * (1 # 2 ^ 49))%Q.

(** * sentiment_analyzer.py *)

Module SentimentAnalyzer.

(** One entry of [comments_data] (the [is_reply] mark of replies is not
    read by the analysis). *)
Record Comment : Type := {
  text : string;
  likes : Z;
  published_at : string
}.

Record Sentiment : Type := {
  polarity : Q;
  subjectivity : Q;
  label : string;
  score : Q
}.

Record OverallSentiment : Type := {
  average_polarity : npfloat;
  average_subjectivity : npfloat;
  positive_percentage : npfloat;
  sentiment_distribution : list (string * Z)
}.

Record EngagementMetrics : Type := {
  total_comments : Z;
  total_likes : Z;
  avg_likes_per_comment : npfloat
}.

Record KeyThemes : Type := {
  top_topics : list (string * Z);
  topic_sentiment : list (string * Q)
}.

Record Results : Type := {
  overall_sentiment : OverallSentiment;
  engagement_metrics : EngagementMetrics;
  key_themes : KeyThemes;
  sentiment_trend : list (Z * npfloat)
}.

(** [tag.startswith(('NN', 'JJ'))]. *)
Definition is_noun_or_adjective (tag : string) : bool :=
  String.prefix "NN" tag || String.prefix "JJ" tag.

Definition join_words (ws : list string) : string := String.concat " " ws.

(** The [for word, tag in tagged] loop of lines 121-126, on the pair
    [(current_topic, topics)]. *)
Fixpoint topic_loop (tagged : list (string * string))
  (current_topic topics : list string) : list string * list string :=
  match tagged with
  | [] => (current_topic, topics)
  | (word, tag) :: rest =>
      if is_noun_or_adjective tag
      then topic_loop rest (current_topic ++ [word]) topics
      else
        match current_topic with
        | [] => topic_loop rest current_topic topics
        | _ => topic_loop rest [] (topics ++ [join_words current_topic])
        end
  end.

(** [groupby('date')['likes']]: the groups, keyed in increasing order. *)
Fixpoint group_insert (date : Z) (v : Z) (groups : list (Z * list Z))
  : list (Z * list Z) :=
  match groups with
  | [] => [(date, [v])]
  | (d, vs) :: rest =>
      if (date =? d)%Z then (d, vs ++ [v]) :: rest
      else if (date <? d)%Z then (date, [v]) :: groups
      else (d, vs) :: group_insert date v rest
  end.

Definition groupby_mean (rows : list (Z * Z)) : list (Z * npfloat) :=
  map (fun g => (fst g, np_mean (to_floats (snd g))))
      (fold_left (fun groups r => group_insert (fst r) (snd r) groups) rows []).

Section WithBackends.

(** TextBlob's lexicon scores of a text. *)
Variable blob_polarity : string -> Q.
Variable blob_subjectivity : string -> Q.
(** The transformer pipeline: label and confidence. *)
Variable sentiment_analyzer : string -> string * Q.
(** NLTK: sentence splitter, word tokenizer, part-of-speech tagger. *)
Variable sent_tokenize : string -> list string.
Variable word_tokenize : string -> list string.
Variable pos_tag : list string -> list (string * string).
(** [pd.to_datetime(s).date()], as a day number; it raises on a text
    that is not a timestamp. *)
Variable to_date : string -> result Z.
(** [re.compile(pat, re.IGNORECASE)], then [search(text) is not None];
    [Series.str.contains(pat, case=False)] goes through it because its
    [regex] argument defaults to [True]. *)
Variable re_compile_ignorecase : string -> result (string -> bool).

(** Lines 88-101. *)
Definition sentiment_of (text : string) : Sentiment :=
  let transformer_sentiment := sentiment_analyzer (substring 0 512 text) in
  {| polarity := blob_polarity text;
     subjectivity := blob_subjectivity text;
     label := fst transformer_sentiment;
     score := snd transformer_sentiment |}.

(** Lines 115-129, for one sentence. *)
Definition topics_of_sentence (topics : list string) (sentence : string)
  : list string :=
  let tokens := word_tokenize sentence in
  let tagged := pos_tag tokens in
  let '(current_topic, topics) := topic_loop tagged [] topics in
  match current_topic with
  | [] => topics
  | _ => topics ++ [join_words current_topic]
  end.

Definition extract_topics (all_sentences : list string) : list string :=
  fold_left topics_of_sentence all_sentences [].

(** [df[df['text'].str.contains(topic, case=False)]]. *)
Definition topic_comments_of (df : list Comment) (topic : string)
  : result (list Comment) :=
  _ <- column "text" text df ;;
  contains <- re_compile_ignorecase topic ;;
  Ok (filter (fun c => contains (text c)) df).

(** Lines 156-161. *)
Fixpoint topic_sentiment_loop (df : list Comment) (topics : list string)
  (acc : list (string * Q)) : result (list (string * Q)) :=
  match topics with
  | [] => Ok acc
  | topic :: rest =>
      topic_comments <- topic_comments_of df topic ;;
      match topic_comments with
      | [] => topic_sentiment_loop df rest acc
      | _ =>
          let topic_sentiments :=
            map (fun c => blob_polarity (text c)) topic_comments in
          let value := (sumQ topic_sentiments / lenQ topic_sentiments)%Q in
          topic_sentiment_loop df rest (dict_set topic value acc)
      end
  end.

(** Lines 84-163 of [run], from the fetched [comments_data]; every
    [df[...]] of the source is one [column]. *)
Definition run (comments_data : list Comment) : result Results :=
  let df := comments_data in
  texts <- column "text" text df ;;
  let sentiments := map sentiment_of texts in
  let sentiment_df := sentiments in
  texts <- column "text" text df ;;
  let all_sentences := flat_map sent_tokenize texts in
  let topics := extract_topics all_sentences in
  polarities <- column "polarity" polarity sentiment_df ;;
  subjectivities <- column "subjectivity" subjectivity sentiment_df ;;
  labels <- column "label" label sentiment_df ;;
  labels' <- column "label" label sentiment_df ;;
  let overall :=
    {| average_polarity := np_mean polarities;
       average_subjectivity := np_mean subjectivities;
       positive_percentage :=
         npmul (np_mean (map (fun l => if String.eqb l "POSITIVE"
                                       then 1%Q else 0%Q) labels))
               (Fin 100);
       sentiment_distribution := sorted_by_count (Counter labels') |} in
  all_likes <- column "likes" likes df ;;
  all_likes' <- column "likes" likes df ;;
  let engagement :=
    {| total_comments := Z.of_nat (List.length df);
       total_likes := wrap64 (fold_right Z.add 0%Z all_likes);
       avg_likes_per_comment := np_mean (to_floats all_likes') |} in
  let top := most_common 10 (Counter topics) in
  published <- column "published_at" published_at df ;;
  dates <- map_result to_date published ;;
  let trend := groupby_mean (combine dates (map likes df)) in
  attribution <- topic_sentiment_loop df (dict_keys top) [] ;;
  Ok {| overall_sentiment := overall;
        engagement_metrics := engagement;
        key_themes := {| top_topics := top; topic_sentiment := attribution |};
        sentiment_trend := trend |}.

End WithBackends.

(** ** Two regular-expression matchers

    [search_ci] is Python's case-insensitive [search] for a pattern whose
    only special character is the dot (which stands for any character but
    a newline); [contains_ci] is the plain case-insensitive substring
    test, i.e. [search_ci] with the dot taken literally. *)

Definition char_matches (dot_is_special : bool) (p c : ascii) : bool :=
  if dot_is_special && Ascii.eqb p "."%char
  then negb (Ascii.eqb c (ascii_of_nat 10))
  else Ascii.eqb (lower_char p) (lower_char c).

Fixpoint match_here (dot_is_special : bool) (pat text : string) : bool :=
  match pat, text with
  | EmptyString, _ => true
  | String _ _, EmptyString => false
  | String p pat', String c text' =>
      char_matches dot_is_special p c && match_here dot_is_special pat' text'
  end.

Fixpoint search_from (dot_is_special : bool) (pat text : string) : bool :=
  match_here dot_is_special pat text
  || match text with
     | EmptyString => false
     | String _ text' => search_from dot_is_special pat text'
     end.

Definition search_ci (pat text : string) : bool := search_from true pat text.
Definition contains_ci (phrase text : string) : bool :=
  search_from false phrase text.

(** A pattern without a dot is searched as a plain phrase. *)
Fixpoint dot_free (pat : string) : bool :=
  match pat with
  | EmptyString => true
  | String c rest => negb (Ascii.eqb c "."%char) && dot_free rest
  end.

(** The attribution of a topic by a matcher: the mean polarity of the
    comments it selects, and none when it selects no comment. *)
Definition attribution_of (blob_polarity : string -> Q)
  (matches : string -> string -> bool) (df : list Comment) (topic : string)
  : option Q :=
  match filter (fun c => matches topic (text c)) df with
  | [] => None
  | selected =>
      let ps := map (fun c => blob_polarity (text c)) selected in
      Some (sumQ ps / lenQ ps)%Q
  end.

(** ** Stand-ins for the language backends

    Simple backends, for the evaluation of [run] on given comments: one
    sentence per text, tokens split at spaces, a tagger that reads the tag
    of a token from a table (and answers NN for a token that is not in
    it), a classifier that always answers POSITIVE, one date for all
    comments, and the regular expressions of [search_ci]. *)

Fixpoint split_spaces (cur : string) (s : string) : list string :=
  match s with
  | EmptyString => flush cur
  | String c s' =>
      if Ascii.eqb c " "%char then flush cur ++ split_spaces EmptyString s'
      else split_spaces (cur ++ String c EmptyString) s'
  end.

Definition tag_from (table : list (string * string)) (tokens : list string)
  : list (string * string) :=
  map (fun w => (w, match dict_get w table with
                    | Some tag => tag
                    | None => "NN"%string
                    end))
      tokens.

Definition run_with (polarity : string -> Q) (tags : list (string * string))
  (comments_data : list Comment) : result Results :=
  run polarity (fun _ => 0%Q) (fun _ => ("POSITIVE"%string, 1%Q))
      (fun text => [text]) (split_spaces EmptyString) (tag_from tags)
      (fun _ => Ok 0%Z) (fun pat => Ok (search_ci pat))
      comments_data.

(** Two comments: only the first contains the phrase "youtube.com". *)
Definition comment_with_link : Comment :=
  {| text := "youtube.com is great"; likes := 2%Z;
     published_at := "2024-01-01T10:00:00Z" |}.
Definition comment_without_link : Comment :=
  {| text := "youtube com is terrible"; likes := 0%Z;
     published_at := "2024-01-01T11:00:00Z" |}.

(** The lexicon polarity of the two comments: "great" is 0.8,
    "terrible" is -1.0. *)
Definition polarity_of (text : string) : Q :=
  if String.eqb text "youtube.com is great" then (4 # 5)%Q
  else if String.eqb text "youtube com is terrible" then (- (1))%Q
  else 0%Q.

Definition link_tags : list (string * string) :=
  [("youtube.com", "NN"); ("youtube", "NN"); ("com", "NN"); ("is", "VBZ");
   ("great", "JJ"); ("terrible", "JJ")]%string.

(** ** Lines 44-82: fetching the comments

    The pages of [commentThreads().list(...)], as the code reads them. *)

(** The snippet of a comment resource. *)
Record Snippet : Type := {
  textDisplay : string;
  likeCount : Z;
  publishedAt : string
}.

(** An item of a page: its top-level comment and, when [item.get('replies')]
    is truthy, the list [item['replies']['comments']]. *)
Record Thread : Type := {
  topLevelComment : Snippet;
  replies : option (list Snippet)
}.

Record Page : Type := {
  items : list Thread;
  nextPageToken : option string
}.

(** What [run] returns: the text of line 59, or the [results] dictionary. *)
Inductive Output : Type :=
| ErrorText (message : string)
| Report (results : Results).

Definition comment_of (snippet : Snippet) : Comment :=
  {| text := textDisplay snippet;
     likes := likeCount snippet;
     published_at := publishedAt snippet |}.

(** Lines 62-78, for one item. *)
Definition comments_of_item (include_replies : bool) (item : Thread)
  : list Comment :=
  comment_of (topLevelComment item)
  :: match replies item with
     | Some rs => if include_replies then map comment_of rs else []
     | None => []
     end.

Definition comments_of_page (include_replies : bool) (response : Page)
  : list Comment :=
  flat_map (comments_of_item include_replies) (items response).

(** [not next_page_token]: the token is missing or the empty string. *)
Definition no_token (token : option string) : bool :=
  match token with
  | None => true
  | Some t => String.eqb t EmptyString
  end.

Section Fetch.

(** [request.execute()] for the page after [pageToken] with at most
    [maxResults] threads: the page, or the text [str(e)] of the exception
    it raises. *)
Variable execute : Z -> option string -> string + Page.

Variable max_comments : Z.
Variable include_replies : bool.

(** The [while] loop of lines 47-82.  Nothing in the source bounds the
    number of its iterations, so the model counts them down from [fuel]
    and answers [None] when they are used up; a [string] answer is the
    text returned on line 59. *)
Fixpoint fetch_loop (fuel : nat) (comments_data : list Comment)
  (next_page_token : option string) : option (string + list Comment) :=
  if (Z.of_nat (List.length comments_data) <? max_comments)%Z then
    match fuel with
    | O => None
    | S fuel' =>
        let maxResults :=
          Z.min 100 (max_comments - Z.of_nat (List.length comments_data)) in
        match execute maxResults next_page_token with
        | inl e => Some (inl ("Error fetching comments: " ++ e)%string)
        | inr response =>
            let comments_data :=
              (comments_data ++ comments_of_page include_replies response)%list in
            let next_page_token := nextPageToken response in
            if no_token next_page_token then Some (inr comments_data)
            else fetch_loop fuel' comments_data next_page_token
        end
    end
  else Some (inr comments_data).

Definition fetch_comments (fuel : nat) : option (string + list Comment) :=
  fetch_loop fuel [] None.

(** The whole of [run]: the fetch, then the analysis of lines 84-163. *)
Definition run_video
  (blob_polarity blob_subjectivity : string -> Q)
  (sentiment_analyzer : string -> string * Q)
  (sent_tokenize word_tokenize : string -> list string)
  (pos_tag : list string -> list (string * string))
  (to_date : string -> result Z)
  (re_compile_ignorecase : string -> result (string -> bool))
  (fuel : nat) : option (result Output) :=
  match fetch_comments fuel with
  | None => None
  | Some (inl message) => Some (Ok (ErrorText message))
  | Some (inr comments_data) =>
      Some (r <- run blob_polarity blob_subjectivity sentiment_analyzer
                     sent_tokenize word_tokenize pos_tag to_date
                     re_compile_ignorecase comments_data ;;
            Ok (Report r))
  end.

End Fetch.

(** ** Names for the statements *)

(** The words tagged as nouns or adjectives, in order. *)
Definition noun_adjective_words (tagged : list (string * string))
  : list string :=
  map fst (filter (fun wt => is_noun_or_adjective (snd wt)) tagged).

(** The likes of the comments of one day. *)
Definition likes_on (date : Z) (rows : list (Z * Z)) : list Z :=
  map snd (filter (fun r => (fst r =? date)%Z) rows).

(** The sum of the likes of the comments, as an integer. *)
Definition sum_of_likes (comments_data : list Comment) : Z :=
  fold_right Z.add 0%Z (map likes comments_data).

(** The labels the classifier gives to the comments. *)
Definition labels_of (sentiment_analyzer : string -> string * Q)
  (comments_data : list Comment) : list string :=
  map (fun c => fst (sentiment_analyzer (substring 0 512 (text c))))
      comments_data.

(** The days are in strictly increasing order. *)
Definition days_increase (trend : list (Z * npfloat)) : Prop :=
  forall i j a b,
    (i < j)%nat -> nth_error trend i = Some a -> nth_error trend j = Some b ->
    (fst a < fst b)%Z.

(** The rows grouped by [groupby]: the date and the likes of every
    comment, in the order of the comments. *)
Definition rows_of (dates : list Z) (comments_data : list Comment)
  : list (Z * Z) :=
  combine dates (map likes comments_data).

(** Every polarity the lexicon gives to a comment lies in [[lo, hi]]. *)
Definition polarities_within (blob_polarity : string -> Q) (lo hi : Q)
  (comments_data : list Comment) : Prop :=
  forall c, In c comments_data -> (lo <= blob_polarity (text c) <= hi)%Q.

(** A service with a single page: the first [maxResults] of [threads]. *)
Definition single_page (threads : list Thread) (maxResults : Z)
  (pageToken : option string) : string + Page :=
  inr {| items := firstn (Z.to_nat maxResults) threads;
         nextPageToken := None |}.

(** A thread with two replies, and one without. *)
Definition thread_with_replies : Thread :=
  {| topLevelComment :=
       {| textDisplay := "great video"; likeCount := 3%Z;
          publishedAt := "2024-01-01T10:00:00Z" |};
     replies :=
       Some [{| textDisplay := "agreed"; likeCount := 1%Z;
                publishedAt := "2024-01-01T11:00:00Z" |};
             {| textDisplay := "thanks"; likeCount := 0%Z;
                publishedAt := "2024-01-01T12:00:00Z" |}] |}.

Definition thread_without_replies : Thread :=
  {| topLevelComment :=
       {| textDisplay := "terrible sound"; likeCount := 0%Z;
          publishedAt := "2024-01-02T09:00:00Z" |};
     replies := None |}.

End SentimentAnalyzer.

(** * channel_analyzer.py *)

Module ChannelAnalyzer.

(** One entry of [video_stats] (the [top_comments] are carried along
    untouched and left out). *)
Record VideoStats : Type := {
  title : string;
  published_at : string;
  video_id : string;
  views : Z;
  likes : Z;
  comments : Z;
  duration : string
}.

(** A row of [df] once the two derived columns are added. *)
Record Row : Type := {
  video : VideoStats;
  engagement_rate : npfloat;
  avg_views_per_day : npfloat
}.

Record PerformanceMetrics : Type := {
  avg_views_per_video : npfloat;
  avg_engagement_rate : npfloat;
  best_performing_video : option Row;
  recent_videos : list Row
}.

(** Line 92, for one row: [int64] sum, float division, times 100,
    rounded to 2 decimals. *)
Definition engagement_rate_of (v : VideoStats) : npfloat :=
  round2 (fmul (fdiv (of_int64 (wrap64 (likes v + comments v)))
                     (of_int64 (views v)))
               (Fin 100)).

(** [Series.idxmax()] on an integer column with the default index: the
    position of the first occurrence of the maximum. *)
Fixpoint idxmax_from (best_i : nat) (best_v : Z) (i : nat) (vs : list Z) : nat :=
  match vs with
  | [] => best_i
  | v :: rest =>
      if (best_v <? v)%Z then idxmax_from i v (S i) rest
      else idxmax_from best_i best_v (S i) rest
  end.

Definition idxmax (vs : list Z) : result nat :=
  match vs with
  | [] => Raise ValueError
  | v :: rest => Ok (idxmax_from 0 v 1 rest)
  end.

Section WithClock.

(** [(datetime.now() - pd.to_datetime(published_at)).total_seconds()]:
    the age of a video at the time of the call; the conversion or the
    subtraction may raise. *)
Variable age_seconds : string -> result Q.

Definition avg_views_per_day_of (v : VideoStats) : result npfloat :=
  age <- age_seconds (published_at v) ;;
  Ok (round2 (fdiv (of_int64 (views v)) (fdiv (Fin age) (Fin 86400)))).

(** Lines 92-94: the two derived columns, row by row. *)
Fixpoint with_metrics (video_stats : list VideoStats) : result (list Row) :=
  match video_stats with
  | [] => Ok []
  | v :: rest =>
      per_day <- avg_views_per_day_of v ;;
      rows <- with_metrics rest ;;
      Ok ({| video := v;
             engagement_rate := engagement_rate_of v;
             avg_views_per_day := per_day |} :: rows)
  end.

(** Lines 90-109: the columns are added only to a non-empty frame, and
    every entry of [performance_metrics] has its own [df.empty] guard. *)
Definition performance_metrics (video_stats : list VideoStats)
  : result PerformanceMetrics :=
  df <- with_metrics video_stats ;;
  match df with
  | [] =>
      Ok {| avg_views_per_video := Fin 0;
            avg_engagement_rate := Fin 0;
            best_performing_video := None;
            recent_videos := [] |}
  | _ =>
      let all_views := map (fun r => views (video r)) df in
      i <- idxmax all_views ;;
      Ok {| avg_views_per_video := np_mean (to_floats all_views);
            avg_engagement_rate := pd_mean (map engagement_rate df);
            best_performing_video := nth_error df i;
            recent_videos := df |}
  end.

End WithClock.

(** ** Names for the statements *)

(** The exact value of [(likes + comments) / views * 100]. *)
Definition engagement_percentage (v : VideoStats) : Q :=
  inject_Z (wrap64 (likes v + comments v)) / inject_Z (views v) * 100.

(** The exact number of views per day of age. *)
Definition views_per_day (v : VideoStats) (age : Q) : Q :=
  inject_Z (views v) / (age / 86400).

(** A video whose statistics carry these three counters. *)
Definition video_of (views likes comments : Z) : VideoStats :=
  {| title := "video"; published_at := "2024-01-01T00:00:00";
     video_id := "id"; views := views; likes := likes; comments := comments;
     duration := "PT1M" |}.

(** A clock for which every video is one day old. *)
Definition one_day_old (published_at : string) : result Q := Ok 86400%Q.

(** The clock readings are defined on every record of the collection. *)
Definition ages_defined (age_seconds : string -> result Q)
  (video_stats : list VideoStats) : Prop :=
  forall v, In v video_stats ->
            exists age, age_seconds (published_at v) = Ok age.

End ChannelAnalyzer.

(** * Python strings and sets used by the remaining tools *)

(** [c.isspace()] on ASCII text: the controls 9-13 (tab, line feed,
    vertical tab, form feed, carriage return), the separators 28-31 and
    the space. *)
Definition is_space (c : ascii) : bool := in_range 9 13 c || in_range 28 32 c.

(** [s.split()]: the maximal runs of characters that are not whitespace,
    in order; [cur] is the run being read. *)
Fixpoint split_whitespace (cur : string) (s : string) : list string :=
  match s with
  | EmptyString => flush cur
  | String c s' =>
      if is_space c then flush cur ++ split_whitespace EmptyString s'
      else split_whitespace (cur ++ String c EmptyString) s'
  end.

Definition py_split (s : string) : list string :=
  split_whitespace EmptyString s.

(** [s.strip()]: without its leading and trailing whitespace. *)
Fixpoint lstrip (s : string) : string :=
  match s with
  | EmptyString => EmptyString
  | String c s' => if is_space c then lstrip s' else s
  end.

Fixpoint rstrip (s : string) : string :=
  match s with
  | EmptyString => EmptyString
  | String c s' =>
      match rstrip s' with
      | EmptyString => if is_space c then EmptyString else String c EmptyString
      | kept => String c kept
      end
  end.

Definition strip (s : string) : string := rstrip (lstrip s).

(** Every character of [s] satisfies [p]. *)
Fixpoint all_chars (p : ascii -> bool) (s : string) : bool :=
  match s with
  | EmptyString => true
  | String c s' => p c && all_chars p s'
  end.

(** The number of characters of [s] that satisfy [p]. *)
Fixpoint count_chars (p : ascii -> bool) (s : string) : nat :=
  match s with
  | EmptyString => O
  | String c s' => ((if p c then 1 else 0) + count_chars p s')%nat
  end.

(** A Python [set] of strings: its elements, each once.  The language
    does not fix the order in which a set is iterated; the list keeps the
    order of insertion, and the statements about a set speak of
    membership only. *)
Definition set_add (x : string) (s : list string) : list string :=
  if existsb (String.eqb x) s then s else s ++ [x].

Definition set_update (s : list string) (xs : list string) : list string :=
  fold_left (fun s x => set_add x s) xs s.

(** [c[k] += d] on a [Counter]: a missing key counts as 0 and is added
    at the end. *)
Fixpoint counter_plus (k : string) (d : Z) (c : list (string * Z))
  : list (string * Z) :=
  match c with
  | [] => [(k, d)]
  | (k', n) :: c' =>
      if String.eqb k k' then (k', (n + d)%Z) :: c'
      else (k', n) :: counter_plus k d c'
  end.

(** [int(x)] on a float: the fraction is dropped (rounding toward zero). *)
Definition py_int (q : Q) : Z := Z.quot (Qnum q) (Zpos (Qden q)).

(** The number of times [k] occurs in [l]. *)
Definition occurrences (k : string) (l : list string) : Z :=
  Z.of_nat (List.length (filter (String.eqb k) l)).

(** The sum of the counts of a counter. *)
Definition total_count (c : list (string * Z)) : Z :=
  fold_right Z.add 0%Z (map snd c).

(** The counts are in decreasing order (equal counts may follow each
    other). *)
Definition by_decreasing_count (c : list (string * Z)) : Prop :=
  forall i j x y, (i < j)%nat -> nth_error c i = Some x -> nth_error c j = Some y ->
                  (snd y <= snd x)%Z.

(** * web_search.py *)

Module WebSearch.

(** One entry of [response["results"]]; each of its keys may be missing. *)
Record SearchResult : Type := {
  title : option string;
  url : option string;
  published_date : option string;
  relevance_score : option Q;
  sentiment : option string;
  snippet : option string
}.

(** What the code reads of the service's response. *)
Record Response : Type := {
  answer : option string;
  results : option (list SearchResult)
}.

(** An entry of [top_sources]: [None] is Python's [None]. *)
Record Source : Type := {
  source_title : option string;
  source_url : option string;
  source_published_date : option string;
  source_relevance_score : option Q;
  source_sentiment : option string
}.

Record StructuredResults : Type := {
  summary : string;
  top_sources : list Source;
  trending_topics : list string;
  key_findings : list (option string)
}.

(** The set literal of line 68. *)
Definition excluded_words : list string := ["the"; "and"; "for"; "with"]%string.

(** The condition of the comprehension of lines 67-68. *)
Definition is_topic (topic : string) : bool :=
  (3 <? String.length topic)%nat
  && negb (existsb (String.eqb (lower topic)) excluded_words).

(** Lines 67-68. *)
Definition topics_of (title : string) : list string :=
  map strip (filter is_topic (py_split title)).

(** [result.get("relevance_score", 0) > 0.7]. *)
Definition is_key_finding (result : SearchResult) : bool :=
  match relevance_score result with
  | Some score => Qltb (7 # 10) score
  | None => Qltb (7 # 10) 0
  end.

(** The body of the loop of lines 55-73. *)
Definition add_result (include_sentiment : bool)
  (structured_results : StructuredResults) (result : SearchResult)
  : StructuredResults :=
  {| summary := summary structured_results;
     top_sources :=
       top_sources structured_results
       ++ [{| source_title := title result;
              source_url := url result;
              source_published_date := published_date result;
              source_relevance_score := relevance_score result;
              source_sentiment :=
                if include_sentiment then sentiment result else None |}];
     trending_topics :=
       match title result with
       | Some t => set_update (trending_topics structured_results) (topics_of t)
       | None => trending_topics structured_results
       end;
     key_findings :=
       if is_key_finding result
       then key_findings structured_results ++ [snippet result]
       else key_findings structured_results |}.

(** [response.get("results", [])]. *)
Definition results_of (response : Response) : list SearchResult :=
  match results response with
  | Some rs => rs
  | None => []
  end.

(** Lines 47-78 of [run], from the response of the service. *)
Definition run (include_sentiment : bool) (response : Response)
  : StructuredResults :=
  let structured_results :=
    {| summary := match answer response with Some a => a | None => EmptyString end;
       top_sources := [];
       trending_topics := [];
       key_findings := [] |} in
  fold_left (add_result include_sentiment) (results_of response)
            structured_results.

(** The titles of the results that have one. *)
Definition titles_of (response : Response) : list string :=
  flat_map (fun r => match title r with Some t => [t] | None => [] end)
           (results_of response).

(** A character that is not whitespace. *)
Definition is_not_space (c : ascii) : bool := negb (is_space c).

End WebSearch.

(** * script_editor.py *)

Module ScriptEditor.

(** [title.replace(' ', '_')]. *)
Fixpoint replace_spaces (title : string) : string :=
  match title with
  | EmptyString => EmptyString
  | String c rest =>
      String (if Ascii.eqb c " "%char then "_"%char else c) (replace_spaces rest)
  end.

Definition scripts_dir : string := "scripts".

(** Line 24; [timestamp] is [datetime.now().strftime("%Y%m%d_%H%M%S")]. *)
Definition filename (timestamp title : string) : string :=
  (scripts_dir ++ "/" ++ timestamp ++ "_" ++ replace_spaces title ++ ".md")%string.

(** Line 30: the text [run] returns once the file is written. *)
Definition saved_message (timestamp title : string) : string :=
  ("Script saved to " ++ filename timestamp title)%string.

Definition is_slash (c : ascii) : bool := Ascii.eqb c "/"%char.
Definition is_blank (c : ascii) : bool := Ascii.eqb c " "%char.

End ScriptEditor.

(** * keyword_extractor.py *)

Module KeywordExtractor.

(** [t.isalnum()] on ASCII text: at least one character, all of them
    letters or digits. *)
Definition is_alnum_char (c : ascii) : bool :=
  in_range 48 57 c || in_range 65 90 c || in_range 97 122 c.

Definition isalnum (t : string) : bool :=
  match t with
  | EmptyString => false
  | _ => all_chars is_alnum_char t
  end.

(** A node of the tree returned by [ne_chunk]: a tagged word, or a
    subtree that has a label. *)
Inductive Node : Type :=
| Leaf (word tag : string)
| Entity (label : string) (children : list (string * string)).

Record NamedEntity : Type := {
  entity_text : string;
  entity_type : string
}.

(** What the code reads of a spaCy document. *)
Record Doc : Type := {
  noun_chunks : list string;
  tokens : list (string * string)
}.

Record TopicKeyword : Type := {
  token_text : string;
  token_pos : string
}.

Record Results : Type := {
  keywords : list (string * Z);
  named_entities : list NamedEntity;
  key_phrases : list (string * Z);
  sentiment : Q * Q;
  topic_keywords : list TopicKeyword
}.

(** Lines 66-71. *)
Definition entities_of (entities : list Node) : list NamedEntity :=
  flat_map (fun entity =>
              match entity with
              | Leaf _ _ => []
              | Entity label children =>
                  [{| entity_text := String.concat " " (map fst children);
                      entity_type := label |}]
              end)
           entities.

(** Lines 98-100, after [Counter(nouns)]; the product [score * 10] is
    taken exactly. *)
Definition add_scores (all_keywords : list (string * Z))
  (keywords : list (string * Q)) : list (string * Z) :=
  fold_left (fun c ks => counter_plus (fst ks) (py_int (snd ks * 10)) c)
            keywords all_keywords.

Section WithModels.

(** NLTK: tokenizers, stop words, tagger, chunker. *)
Variable word_tokenize : string -> list string.
Variable sent_tokenize : string -> list string.
Variable stopwords_english : list string.
Variable pos_tag : list string -> list (string * string).
Variable ne_chunk : list (string * string) -> list Node.
(** KeyBERT: [extract_keywords(text, ..., top_n)], keywords with scores. *)
Variable extract_keywords : string -> Z -> list (string * Q).
(** spaCy and TextBlob. *)
Variable nlp : string -> Doc.
Variable blob_sentiment : string -> Q * Q.

Variable min_keyword_length : Z.
Variable max_keywords : Z.

(** The condition of the comprehension of lines 52-54. *)
Definition keeps (t : string) : bool :=
  isalnum t
  && negb (existsb (String.eqb t) stopwords_english)
  && (min_keyword_length <=? Z.of_nat (String.length t))%Z.

(** Lines 50-58. *)
Definition nouns_of (text : string) : list string :=
  let tokens := word_tokenize (lower text) in
  let tokens := filter keeps tokens in
  let tagged := pos_tag tokens in
  map fst (filter (fun wp => String.prefix "NN" (snd wp)) tagged).

(** [most_common(n)] for an integer [n]: nothing when [n <= 0]. *)
Definition top (n : Z) (c : list (string * Z)) : list (string * Z) :=
  most_common (Z.to_nat n) c.

Definition run (text : string) : Results :=
  let nouns := nouns_of text in
  let sentences := sent_tokenize text in
  let named :=
    flat_map (fun sentence =>
                entities_of (ne_chunk (pos_tag (word_tokenize sentence))))
             sentences in
  let keywords := extract_keywords text max_keywords in
  let doc := nlp text in
  let key_phrases := noun_chunks doc in
  let all_keywords := add_scores (Counter nouns) keywords in
  {| keywords := top max_keywords all_keywords;
     named_entities := named;
     key_phrases := top max_keywords (Counter key_phrases);
     sentiment := blob_sentiment text;
     topic_keywords :=
       map (fun token => {| token_text := fst token; token_pos := snd token |})
           (filter (fun token =>
                      existsb (String.eqb (snd token)) ["NOUN"; "PROPN"]%string
                      && (min_keyword_length
                          <=? Z.of_nat (String.length (fst token)))%Z)
                   (tokens doc)) |}.

End WithModels.


End KeywordExtractor.

(** * competitor_analyzer.py *)

Module CompetitorAnalyzer.

(** [run] catches every exception of a channel's analysis and stores its
    text, so an exception is described here by what [str(e)] returns. *)
Inductive Exception : Type :=
| NameError (name : string)
| Error (message : string).

Definition str (e : Exception) : string :=
  match e with
  | NameError name => ("name '" ++ name ++ "' is not defined")%string
  | Error message => message
  end.

Inductive outcome (A : Type) : Type :=
| Returns (a : A)
| Raises (e : Exception).

Arguments Returns {A} a.
Arguments Raises {A} e.

Definition and_then {A B : Type} (c : outcome A) (k : A -> outcome B)
  : outcome B :=
  match c with
  | Returns a => k a
  | Raises e => Raises e
  end.

Notation "x <-- c ;; k" := (and_then c (fun x => k))
  (at level 61, c at next level, right associativity).

Fixpoint map_outcome {A B : Type} (f : A -> outcome B) (l : list A)
  : outcome (list B) :=
  match l with
  | [] => Returns []
  | a :: l' =>
      b <-- f a ;;
      bs <-- map_outcome f l' ;;
      Returns (b :: bs)
  end.

(** The names the module binds: its imports (lines 1-9) and its class
    (line 13). *)
Definition module_names : list string :=
  ["BaseTool"; "Field"; "os"; "load_dotenv"; "build"; "pd"; "datetime";
   "timedelta"; "np"; "List"; "CompetitorAnalyzer"]%string.

(** Reading a global name that is not a builtin: a name the module does
    not bind raises [NameError]. *)
Definition global (name : string) : outcome unit :=
  if existsb (String.eqb name) module_names then Returns tt
  else Raises (NameError name).

(** An entry of [video_data]. *)
Record Video : Type := {
  title : string;
  description : string;
  published_at : string;
  views : Z;
  likes : Z;
  comments : Z;
  duration : string;
  tags : list string
}.

(** A row of [df] once the columns of lines 97-102 are set; a timestamp
    is its number of nanoseconds since the epoch. *)
Record Row : Type := {
  video : Video;
  published : Z;
  engagement_rate : npfloat;
  day_of_week : string;
  hour_of_day : Z
}.

(** What the code reads of the three kinds of resources. *)
Record ChannelData : Type := {
  channel_title : string;
  subscriberCount : option Z;
  viewCount : option Z;
  videoCount : option Z
}.

Record SearchItem : Type := {
  videoId : string;
  item_title : string;
  item_description : string;
  publishedAt : string
}.

Record VideoResource : Type := {
  video_viewCount : option Z;
  video_likeCount : option Z;
  video_commentCount : option Z;
  video_duration : string;
  video_tags : option (list string)
}.

Record Comparison : Type := {
  name : string;
  subscribers : Z;
  total_views : Z;
  total_videos : Z;
  avg_views_per_video : Z;
  avg_engagement_rate : npfloat
}.

Record ContentAnalysis : Type := {
  common_tags : list (string * Z);
  title_patterns : list (string * Z);
  description_patterns : list (string * Z)
}.

(** [results]; its "growth_metrics" entry is created empty on line 43
    and never written, and "errors" exists once an exception was caught. *)
Record Results (Top Patterns Metrics : Type) : Type := {
  channel_comparisons : list (string * Comparison);
  content_analysis : list (string * ContentAnalysis);
  top_performing_content : list (string * Top);
  upload_patterns : list (string * Patterns);
  engagement_metrics : list (string * Metrics);
  errors : option (list (string * string))
}.

(** ** The three helpers *)

Definition _analyze_tags (df : list Row) : outcome (list (string * Z)) :=
  let all_tags := flat_map (fun r => tags (video r)) df in
  _ <-- global "Counter" ;;
  let tag_counts := Counter all_tags in
  Returns (most_common 10 tag_counts).

Definition _analyze_titles (df : list Row) : outcome (list (string * Z)) :=
  let title_words := flat_map (fun r => py_split (lower (title (video r)))) df in
  _ <-- global "Counter" ;;
  let word_counts := Counter title_words in
  Returns (most_common 10 word_counts).

Definition _analyze_descriptions (df : list Row) : outcome (list (string * Z)) :=
  let desc_words :=
    flat_map (fun r => py_split (lower (description (video r)))) df in
  _ <-- global "Counter" ;;
  let word_counts := Counter desc_words in
  Returns (most_common 10 word_counts).

(** ** The columns of lines 97-102 *)

(** [x.get(key, 0)] read by [int]. *)
Definition count_or_0 (x : option Z) : Z :=
  match x with
  | Some n => n
  | None => 0%Z
  end.

(** [d[key]] for a key that may be missing: [str(KeyError(key))] is the
    key in quotes. *)
Definition required (key : string) (x : option Z) : outcome Z :=
  match x with
  | Some n => Returns n
  | None => Raises (Error ("'" ++ key ++ "'")%string)
  end.

(** Line 98, for one row. *)
Definition engagement_rate_of (v : Video) : npfloat :=
  round2 (fmul (fdiv (of_int64 (wrap64 (likes v + comments v)))
                     (of_int64 (views v)))
               (Fin 100)).

Definition day_names : list string :=
  ["Monday"; "Tuesday"; "Wednesday"; "Thursday"; "Friday"; "Saturday";
   "Sunday"]%string.

(** [dt.day_name()] and [dt.hour]; the epoch was a Thursday. *)
Definition day_name (t : Z) : string :=
  nth (Z.to_nat ((t / 86400000000000 + 3) mod 7)) day_names EmptyString.

Definition hour (t : Z) : Z := (t / 3600000000000) mod 24.

(** [int(x)] on a float value. *)
Definition int_of_float (x : npfloat) : outcome Z :=
  match x with
  | Fin q => Returns (py_int q)
  | NaN => Raises (Error "cannot convert float NaN to integer")
  | PInf | NInf => Raises (Error "cannot convert float infinity to integer")
  end.

Section Run.

(** The results of lines 120-135 (pandas' [nlargest], [groupby] and
    [rolling]) are kept abstract: their types, and the computations that
    give them from the frame. *)
Variables Top Patterns Metrics : Type.
Variable top_performing_of : list Row -> outcome Top.
Variable upload_patterns_of : list Row -> outcome Patterns.
Variable engagement_metrics_of : list Row -> outcome Metrics.

(** [pd.to_datetime] of one text; it raises on a text it cannot read. *)
Variable to_datetime : string -> outcome Z.

(** The three requests, each executed: the [items] of the response. *)
Variable channels_list : string -> outcome (list ChannelData).
Variable search_list : string -> outcome (list SearchItem).
Variable videos_list : string -> outcome (list VideoResource).

Variable min_views : Z.

Definition Report : Type := Results Top Patterns Metrics.

Definition empty_results : Report :=
  {| channel_comparisons := []; content_analysis := [];
     top_performing_content := []; upload_patterns := [];
     engagement_metrics := []; errors := None |}.

(** Lines 72-92. *)
Fixpoint collect_videos (found : list SearchItem) (video_data : list Video)
  : outcome (list Video) :=
  match found with
  | [] => Returns video_data
  | item :: rest =>
      stats <-- videos_list (videoId item) ;;
      match stats with
      | [] => collect_videos rest video_data
      | video_stats :: _ =>
          if (min_views <=? count_or_0 (video_viewCount video_stats))%Z
          then
            collect_videos rest
              (video_data
               ++ [{| title := item_title item;
                      description := item_description item;
                      published_at := publishedAt item;
                      views := count_or_0 (video_viewCount video_stats);
                      likes := count_or_0 (video_likeCount video_stats);
                      comments := count_or_0 (video_commentCount video_stats);
                      duration := video_duration video_stats;
                      tags := match video_tags video_stats with
                              | Some ts => ts
                              | None => []
                              end |}])
          else collect_videos rest video_data
      end
  end.

(** Lines 97-102. *)
Definition with_columns (video_data : list Video) : outcome (list Row) :=
  map_outcome
    (fun v =>
       t <-- to_datetime (published_at v) ;;
       Returns {| video := v; published := t;
                  engagement_rate := engagement_rate_of v;
                  day_of_week := day_name t;
                  hour_of_day := hour t |})
    video_data.

(** The dictionary of lines 105-112, its entries evaluated in order. *)
Definition comparison_of (channel_data : ChannelData) (df : list Row)
  : outcome Comparison :=
  subscribers <-- required "subscriberCount" (subscriberCount channel_data) ;;
  total_views <-- required "viewCount" (viewCount channel_data) ;;
  total_videos <-- required "videoCount" (videoCount channel_data) ;;
  avg_views <-- int_of_float
                  (np_mean (to_floats (map (fun r => views (video r)) df))) ;;
  Returns {| name := channel_title channel_data;
             subscribers := subscribers;
             total_views := total_views;
             total_videos := total_videos;
             avg_views_per_video := avg_views;
             avg_engagement_rate := pd_mean (map engagement_rate df) |}.

(** The dictionary of lines 114-118. *)
Definition content_analysis_of (df : list Row) : outcome ContentAnalysis :=
  common_tags <-- _analyze_tags df ;;
  title_patterns <-- _analyze_titles df ;;
  description_patterns <-- _analyze_descriptions df ;;
  Returns {| common_tags := common_tags;
             title_patterns := title_patterns;
             description_patterns := description_patterns |}.

(** The statements of a [try] body write into [results] one after the
    other: what has been written stays when a later statement raises.
    A body is therefore run to the pair of the dictionary it leaves and
    the exception it raised, if any. *)
Definition Body : Type := (Report * option Exception)%type.

(** Lines 120-135: three more entries, written in order. *)
Definition later_entries (channel_id : string) (df : list Row)
  (results : Report) : Body :=
  match top_performing_of df with
  | Raises e => (results, Some e)
  | Returns top =>
      let results :=
        {| channel_comparisons := channel_comparisons results;
           content_analysis := content_analysis results;
           top_performing_content :=
             dict_set channel_id top (top_performing_content results);
           upload_patterns := upload_patterns results;
           engagement_metrics := engagement_metrics results;
           errors := errors results |} in
      match upload_patterns_of df with
      | Raises e => (results, Some e)
      | Returns patterns =>
          let results :=
            {| channel_comparisons := channel_comparisons results;
               content_analysis := content_analysis results;
               top_performing_content := top_performing_content results;
               upload_patterns :=
                 dict_set channel_id patterns (upload_patterns results);
               engagement_metrics := engagement_metrics results;
               errors := errors results |} in
          match engagement_metrics_of df with
          | Raises e => (results, Some e)
          | Returns metrics =>
              ({| channel_comparisons := channel_comparisons results;
                  content_analysis := content_analysis results;
                  top_performing_content := top_performing_content results;
                  upload_patterns := upload_patterns results;
                  engagement_metrics :=
                    dict_set channel_id metrics (engagement_metrics results);
                  errors := errors results |}, None)
          end
      end
  end.

(** Lines 95-135. *)
Definition analyse (channel_id : string) (channel_data : ChannelData)
  (video_data : list Video) (results : Report) : Body :=
  match video_data with
  | [] => (results, None)
  | _ =>
      match with_columns video_data with
      | Raises e => (results, Some e)
      | Returns df =>
          match comparison_of channel_data df with
          | Raises e => (results, Some e)
          | Returns comparison =>
              let results :=
                {| channel_comparisons :=
                     dict_set channel_id comparison (channel_comparisons results);
                   content_analysis := content_analysis results;
                   top_performing_content := top_performing_content results;
                   upload_patterns := upload_patterns results;
                   engagement_metrics := engagement_metrics results;
                   errors := errors results |} in
              match content_analysis_of df with
              | Raises e => (results, Some e)
              | Returns analysis =>
                  later_entries channel_id df
                    {| channel_comparisons := channel_comparisons results;
                       content_analysis :=
                         dict_set channel_id analysis (content_analysis results);
                       top_performing_content := top_performing_content results;
                       upload_patterns := upload_patterns results;
                       engagement_metrics := engagement_metrics results;
                       errors := errors results |}
              end
          end
      end
  end.

(** The [try] body of lines 48-135 for one channel. *)
Definition try_channel (channel_id : string) (results : Report) : Body :=
  match channels_list channel_id with
  | Raises e => (results, Some e)
  | Returns [] => (results, None)
  | Returns (channel_data :: _) =>
      match search_list channel_id with
      | Raises e => (results, Some e)
      | Returns found =>
          match collect_videos found [] with
          | Raises e => (results, Some e)
          | Returns video_data => analyse channel_id channel_data video_data results
          end
      end
  end.

(** The handler of lines 137-139. *)
Definition except (channel_id : string) (body : Body) : Report :=
  match body with
  | (results, None) => results
  | (results, Some e) =>
      let errors := match errors results with
                    | Some d => d
                    | None => []
                    end in
      {| channel_comparisons := channel_comparisons results;
         content_analysis := content_analysis results;
         top_performing_content := top_performing_content results;
         upload_patterns := upload_patterns results;
         engagement_metrics := engagement_metrics results;
         errors := Some (dict_set channel_id (str e) errors) |}
  end.

(** One turn of the loop of line 46. *)
Definition one_channel (results : Report) (channel_id : string) : Report :=
  except channel_id (try_channel channel_id results).

(** Lines 37-141. *)
Definition run (competitor_channels : list string) : Report :=
  fold_left one_channel competitor_channels empty_results.

End Run.

(** The keys of the "errors" entry, none when the entry does not exist. *)
Definition error_keys {Top Patterns Metrics : Type}
  (results : Results Top Patterns Metrics) : list string :=
  match errors results with
  | Some d => dict_keys d
  | None => []
  end.

Definition error_of {Top Patterns Metrics : Type}
  (results : Results Top Patterns Metrics) (channel_id : string)
  : option string :=
  match errors results with
  | Some d => dict_get channel_id d
  | None => None
  end.

(** The text stored for the exception of line 149. *)
Definition counter_is_not_defined : string := "name 'Counter' is not defined".

(** The four dictionaries that are written after line 114. *)
Definition nothing_after_the_comparison {Top Patterns Metrics : Type}
  (results : Results Top Patterns Metrics) : Prop :=
  content_analysis results = [] /\
  top_performing_content results = [] /\
  upload_patterns results = [] /\
  engagement_metrics results = [].

(** Services for one channel with two videos, of 5000 and of 10 views. *)
Definition one_channel_listed (channel_id : string)
  : outcome (list ChannelData) :=
  Returns [{| channel_title := "Channel"; subscriberCount := Some 100%Z;
              viewCount := Some 5010%Z; videoCount := Some 2%Z |}].

Definition two_videos_found (channel_id : string) : outcome (list SearchItem) :=
  Returns [{| videoId := "a"; item_title := "First video";
              item_description := "about the first";
              publishedAt := "2024-01-01T10:00:00Z" |};
           {| videoId := "b"; item_title := "Second video";
              item_description := "about the second";
              publishedAt := "2024-01-02T10:00:00Z" |}].

Definition statistics_of (video_id : string) : outcome (list VideoResource) :=
  Returns [{| video_viewCount :=
                Some (if String.eqb video_id "a" then 5000%Z else 10%Z);
              video_likeCount := Some 50%Z;
              video_commentCount := None;
              video_duration := "PT5M";
              video_tags := Some ["ai"%string] |}].

Definition epoch (published_at : string) : outcome Z := Returns 0%Z.

(** A channel service that knows the channel "UC1" only, and fails on
    every other one. *)
Definition only_UC1_listed (channel_id : string) : outcome (list ChannelData) :=
  if String.eqb channel_id "UC1" then one_channel_listed channel_id
  else Raises (Error "quotaExceeded").

Definition not_reached (df : list Row) : outcome unit := Returns tt.

End CompetitorAnalyzer.

(** * Properties *)

Unset Implicit Arguments.

(** ** Rationals and float values *)

Lemma Qltb_lt (a b : Q) : Qltb a b = true <-> (a < b)%Q.
Proof.
  unfold Qltb. rewrite negb_true_iff.
  split; intro H.
  - apply Qnot_le_lt. intro L. apply Qle_bool_iff in L. congruence.
  - destruct (Qle_bool b a) eqn:E; [| reflexivity].
    apply Qle_bool_iff in E. exfalso. apply (Qlt_not_le _ _ H E).
Qed.

Lemma Qltb_ge (a b : Q) : Qltb a b = false <-> (b <= a)%Q.
Proof.
  unfold Qltb. rewrite negb_false_iff. apply Qle_bool_iff.
Qed.

Lemma Qeq_bool_false (a b : Q) : Qeq_bool a b = false <-> ~ (a == b)%Q.
Proof.
  split; intro H.
  - intro E. apply Qeq_bool_iff in E. congruence.
  - destruct (Qeq_bool a b) eqn:E; [| reflexivity].
    apply Qeq_bool_iff in E. contradiction.
Qed.

Lemma Qsqrt_proper (p q : Q) : (p == q)%Q -> Qsqrt p = Qsqrt q.
Proof.
  intro H. unfold Qsqrt. rewrite (Qred_complete _ _ H). reflexivity.
Qed.

Lemma Qsqrt_0 (q : Q) : (q == 0)%Q -> (Qsqrt q == 0)%Q.
Proof.
  intro H. rewrite (Qsqrt_proper _ _ H). reflexivity.
Qed.

Lemma Qred_square (a : Z) (b : positive) :
  Z.gcd a (Zpos b) = 1%Z -> Qred ((a * a) # (b * b)) = (a * a) # (b * b).
Proof.
  intro G. apply Qred_identity. simpl Qnum. simpl Qden.
  rewrite Pos2Z.inj_mul.
  apply Z.coprime_mul_l; apply Z.coprime_mul_r; exact G.
Qed.

Lemma Qsqrt_square (x : Q) : (0 <= x)%Q -> (Qsqrt (x * x) == x)%Q.
Proof.
  intro Hx.
  pose proof (Qred_correct x) as Hr.
  assert (Hc : Z.gcd (Qnum (Qred x)) (Zpos (Qden (Qred x))) = 1%Z).
  { apply Qred_iff. apply Qred_involutive. }
  destruct (Qred x) as [a b] eqn:E. simpl in Hc.
  assert (Ha : (0 <= a)%Z).
  { rewrite <- Hr in Hx. unfold Qle in Hx. simpl in Hx. lia. }
  assert (Hsq : (x * x == (a * a) # (b * b))%Q).
  { rewrite <- Hr. reflexivity. }
  rewrite (Qsqrt_proper _ _ Hsq). unfold Qsqrt.
  rewrite (Qred_square a b Hc). simpl Qnum. simpl Qden.
  replace (a * a * Zpos (b * b) * 4 ^ 52)%Z
    with ((a * Zpos b * 2 ^ 52) * (a * Zpos b * 2 ^ 52))%Z
    by (rewrite Pos2Z.inj_mul; change (4 ^ 52)%Z with (2 ^ 52 * 2 ^ 52)%Z; ring).
  rewrite Z.sqrt_square by (apply Z.mul_nonneg_nonneg; [lia | apply Z.pow_nonneg; lia]).
  rewrite <- Hr. unfold Qeq. simpl Qnum. simpl Qden.
  rewrite !Pos2Z.inj_mul, Pos2Z.inj_pow.
  change (Z.pow_pos 2 52) with (2 ^ 52)%Z.
  change (Z.pos 2 ^ Z.pos 52)%Z with (2 ^ 52)%Z. ring.
Qed.

(** ** Sums and means *)

Lemma Qsquare_nonneg (q : Q) : (0 <= q * q)%Q.
Proof.
  unfold Qle, Qmult. simpl. nia.
Qed.

Lemma sumQ_nonneg (l : list Q) :
  (forall x, In x l -> (0 <= x)%Q) -> (0 <= sumQ l)%Q.
Proof.
  induction l as [| x l IH]; intro H; simpl.
  - apply Qle_refl.
  - assert (0 <= x)%Q by (apply H; left; reflexivity).
    assert (0 <= sumQ l)%Q by (apply IH; intros y Hy; apply H; right; exact Hy).
    lra.
Qed.

Lemma sumQ_repeat (q : Q) (n : nat) :
  (sumQ (repeat q n) == inject_Z (Z.of_nat n) * q)%Q.
Proof.
  induction n as [| n IH].
  - change (0 == 0 * q)%Q. ring.
  - cbn [repeat sumQ fold_right]. fold (sumQ (repeat q n)). rewrite IH.
    rewrite Nat2Z.inj_succ. unfold Z.succ. rewrite inject_Z_plus. ring.
Qed.

Lemma lenQ_pos {A : Type} (l : list A) : l <> [] -> (0 < lenQ l)%Q.
Proof.
  intro H. unfold lenQ. destruct l as [| a l]; [contradiction |].
  change 0%Q with (inject_Z 0). rewrite <- Zlt_Qlt.
  simpl List.length. lia.
Qed.

Lemma lenQ_nonzero {A : Type} (l : list A) :
  l <> [] -> Qeq_bool (lenQ l) 0 = false.
Proof.
  intro H. apply Qeq_bool_false. pose proof (lenQ_pos l H). lra.
Qed.

Lemma np_mean_nonempty (xs : list Q) :
  xs <> [] -> np_mean xs = Fin (sumQ xs / lenQ xs).
Proof.
  intro H. unfold np_mean, npdiv. rewrite (lenQ_nonzero xs H). reflexivity.
Qed.

Lemma to_floats_nonempty (values : list Z) :
  values <> [] -> to_floats values <> [].
Proof.
  destruct values; [contradiction | discriminate].
Qed.

(** ** [linregress] on the index sequence *)

Module TrendFacts.
Import TrendAnalyzer.

Lemma amax_ge (xs : list Q) (x0 : Q) : (x0 <= amax x0 xs)%Q.
Proof.
  unfold amax. revert x0. induction xs as [| x xs IH]; intro x0; simpl.
  - apply Qle_refl.
  - eapply Qle_trans; [| apply IH]. apply Q.le_max_l.
Qed.

Lemma amin_le (xs : list Q) (x0 : Q) : (amin x0 xs <= x0)%Q.
Proof.
  unfold amin. revert x0. induction xs as [| x xs IH]; intro x0; simpl.
  - apply Qle_refl.
  - eapply Qle_trans; [apply IH |]. apply Q.le_min_l.
Qed.

(** The index sequence of two or more samples is not constant. *)
Lemma arange_not_constant (n : nat) :
  exists xs, arange 0 (S (S n)) = 0%Q :: xs /\
             Qeq_bool (amax 0 xs) (amin 0 xs) = false.
Proof.
  exists (1%Q :: arange 2 n). split; [reflexivity |].
  apply Qeq_bool_false.
  assert (H1 : (1 <= amax 0 (1 :: arange 2 n))%Q).
  { unfold amax. simpl fold_left.
    eapply Qle_trans; [| apply (amax_ge (arange 2 n))].
    apply Q.le_max_r. }
  pose proof (amin_le (1%Q :: arange 2 n) 0%Q) as H0.
  lra.
Qed.

(** On a non-empty series the regression returns the fit. *)
Lemma linregress_ok (values : list Z) :
  values <> [] ->
  linregress (arange 0 (List.length values)) (to_floats values)
  = Ok (fit_of values).
Proof.
  intro Hne.
  destruct values as [| v0 [| v1 rest]]; [contradiction | reflexivity |].
  destruct (arange_not_constant (List.length rest)) as [xs [Hx Hc]].
  unfold fit_of, ssxm, ssxym, ssym.
  change (List.length (v0 :: v1 :: rest)) with (S (S (List.length rest))).
  unfold linregress. rewrite Hx.
  cbn [to_floats map]. rewrite Hc. reflexivity.
Qed.

Lemma cov_self_nonneg (x : list Q) (m : Q) :
  (0 <= sumQ (map (fun p => (fst p - m) * (snd p - m)) (combine x x)))%Q.
Proof.
  apply sumQ_nonneg. intros y Hy. apply in_map_iff in Hy.
  destruct Hy as [[a b] [Hy Hin]]. subst y.
  assert (a = b).
  { clear - Hin. induction x as [| c x IH]; simpl in Hin; [contradiction |].
    destruct Hin as [E | Hin]; [injection E; congruence | auto]. }
  subst b. cbn [fst snd]. apply Qsquare_nonneg.
Qed.

(** With two or more samples the index variance is positive, so the
    slope is a finite quotient. *)
Lemma ssxm_pos (values : list Z) :
  (2 <= List.length values)%nat -> (0 < ssxm values)%Q.
Proof.
  intro Hlen. unfold ssxm.
  destruct values as [| v0 [| v1 rest]]; simpl in Hlen; try lia.
  change (List.length (v0 :: v1 :: rest)) with (S (S (List.length rest))).
  set (x := arange 0 (S (S (List.length rest)))).
  assert (Hx : x = 0%Q :: 1%Q :: arange 2 (List.length rest)) by reflexivity.
  unfold np_cov. set (m := Qmean x).
  assert (Hl : (0 < lenQ x)%Q) by (apply lenQ_pos; rewrite Hx; discriminate).
  apply Qlt_shift_div_l; [exact Hl |].
  rewrite Hx. cbn [combine map sumQ fold_right fst snd].
  pose proof (cov_self_nonneg (arange 2 (List.length rest)) m) as Hr.
  fold (sumQ (map (fun p => (fst p - m) * (snd p - m))%Q
                  (combine (arange 2 (List.length rest))
                           (arange 2 (List.length rest))))).
  set (r := sumQ _) in *.
  pose proof (Qsquare_nonneg (m - (1 # 2))) as Hs.
  setoid_replace ((0 - m) * (0 - m) + ((1 - m) * (1 - m) + r))%Q
    with (2 * ((m - (1 # 2)) * (m - (1 # 2))) + (1 # 2) + r)%Q by ring.
  lra.
Qed.

(** ** The statistics of a non-empty series *)

Lemma direction_of_fit (values : list Z) :
  values <> [] ->
  _calculate_trend_direction values
  = Ok (direction_of (fit_of values)).
Proof.
  intro Hne. unfold _calculate_trend_direction, direction_of.
  rewrite (linregress_ok values Hne). cbn [bind].
  destruct (npltb (npabs (rvalue (fit_of values))) (Fin (3 # 10)));
    reflexivity.
Qed.

Lemma np_var_nonempty (xs : list Q) :
  xs <> [] ->
  exists v, np_var xs = Fin v /\ (0 <= v)%Q.
Proof.
  intro Hne. unfold np_var. rewrite (np_mean_nonempty xs Hne).
  set (m := (sumQ xs / lenQ xs)%Q).
  assert (Hne' : map (fun x => Qabs (x - m) * Qabs (x - m))%Q xs <> [])
    by (destruct xs; [contradiction | discriminate]).
  rewrite (np_mean_nonempty _ Hne').
  eexists. split; [reflexivity |].
  apply Qle_shift_div_l; [apply lenQ_pos; exact Hne' |].
  rewrite Qmult_0_l. apply sumQ_nonneg.
  intros y Hy. apply in_map_iff in Hy. destruct Hy as [x [Hy _]]. subst y.
  apply Qsquare_nonneg.
Qed.

Lemma np_std_nonempty (xs : list Q) :
  xs <> [] ->
  exists v, np_var xs = Fin v /\ (0 <= v)%Q /\ np_std xs = Fin (Qsqrt v).
Proof.
  intro Hne. destruct (np_var_nonempty xs Hne) as [v [Hv Hpos]].
  exists v. split; [exact Hv |]. split; [exact Hpos |].
  unfold np_std. rewrite Hv. unfold np_sqrt.
  assert (E : Qltb v 0 = false) by (apply Qltb_ge; exact Hpos).
  rewrite E. reflexivity.
Qed.

(** No exception on a non-empty series; the record has the entries the
    dictionary literal gives it. *)
Lemma trend_analysis_of_ok (values : list Z) :
  values <> [] ->
  exists a,
    trend_analysis_of values = Ok a /\
    mean a = np_mean (to_floats values) /\
    std a = np_std (to_floats values) /\
    Ok (trend_direction a) = _calculate_trend_direction values /\
    volatility a = npdiv (np_std (to_floats values)) (np_mean (to_floats values)) /\
    momentum a = _calculate_momentum values.
Proof.
  intro Hne. unfold trend_analysis_of.
  rewrite (direction_of_fit values Hne).
  destruct values as [| v rest]; [contradiction |].
  cbn [np_min np_max bind].
  eexists. split; [reflexivity |]. cbn. repeat split; reflexivity.
Qed.

(** ** Momentum *)

Lemma momentum_short (values : list Z) :
  (List.length values < 2)%nat -> _calculate_momentum values = Fin 0.
Proof.
  intro H. unfold _calculate_momentum.
  apply Nat.ltb_lt in H. rewrite H. reflexivity.
Qed.

Lemma momentum_long (values : list Z) :
  (2 <= List.length values)%nat ->
  _calculate_momentum values
  = npmul (npdiv (of_int (wrap64 (List.last values 0%Z - hd 0%Z values)))
                 (of_int (hd 0%Z values)))
          (Fin 100).
Proof.
  intro H. unfold _calculate_momentum.
  assert (E : (List.length values <? 2)%nat = false)
    by (apply Nat.ltb_ge; exact H).
  rewrite E. reflexivity.
Qed.

Lemma inject_Z_eq_bool (z : Z) : Qeq_bool (inject_Z z) 0 = (z =? 0)%Z.
Proof.
  destruct (z =? 0)%Z eqn:E.
  - apply Z.eqb_eq in E. subst z. reflexivity.
  - apply Qeq_bool_false. intro H. apply Z.eqb_neq in E. apply E.
    unfold Qeq in H. simpl in H. lia.
Qed.

Lemma inject_Z_pos_bool (z : Z) : Qltb 0 (inject_Z z) = (0 <? z)%Z.
Proof.
  unfold Qltb, Qle_bool, inject_Z. simpl. rewrite Z.mul_1_r.
  destruct z; reflexivity.
Qed.

(** The momentum of two or more samples, by the first sample. *)
Lemma momentum_cases (values : list Z) :
  (2 <= List.length values)%nat ->
  let first := hd 0%Z values in
  let change := wrap64 (List.last values 0%Z - first) in
  (first <> 0%Z ->
   _calculate_momentum values
   = Fin (inject_Z change / inject_Z first * 100)) /\
  (first = 0%Z -> change = 0%Z -> _calculate_momentum values = NaN) /\
  (first = 0%Z -> (0 < change)%Z -> _calculate_momentum values = PInf) /\
  (first = 0%Z -> (change < 0)%Z -> _calculate_momentum values = NInf).
Proof.
  intros H first change. rewrite (momentum_long values H).
  fold first. fold change. unfold of_int, npdiv.
  rewrite !inject_Z_eq_bool, inject_Z_pos_bool.
  repeat split.
  - intro Hf. apply Z.eqb_neq in Hf. rewrite Hf. reflexivity.
  - intros Hf Hc. rewrite Hf, Hc. reflexivity.
  - intros Hf Hc. rewrite Hf. simpl (0 =? 0)%Z. cbv iota.
    assert (E : (change =? 0)%Z = false) by (apply Z.eqb_neq; lia).
    assert (E' : (0 <? change)%Z = true) by (apply Z.ltb_lt; lia).
    rewrite E, E'. reflexivity.
  - intros Hf Hc. rewrite Hf. simpl (0 =? 0)%Z. cbv iota.
    assert (E : (change =? 0)%Z = false) by (apply Z.eqb_neq; lia).
    assert (E' : (0 <? change)%Z = false) by (apply Z.ltb_ge; lia).
    rewrite E, E'. reflexivity.
Qed.

(** ** A series of identical values *)

Lemma to_floats_repeat (c : Z) (n : nat) :
  to_floats (repeat c n) = repeat (inject_Z c) n.
Proof.
  unfold to_floats. induction n as [| n IH]; simpl; [| rewrite IH]; reflexivity.
Qed.

Lemma lenQ_repeat {A : Type} (a : A) (n : nat) :
  lenQ (repeat a n) = inject_Z (Z.of_nat n).
Proof.
  unfold lenQ. rewrite repeat_length. reflexivity.
Qed.

Lemma inject_nat_pos (n : nat) : (1 <= n)%nat -> (0 < inject_Z (Z.of_nat n))%Q.
Proof.
  intro H. change 0%Q with (inject_Z 0). rewrite <- Zlt_Qlt. lia.
Qed.

Lemma Qmean_repeat (q : Q) (n : nat) :
  (1 <= n)%nat -> (Qmean (repeat q n) == q)%Q.
Proof.
  intro H. unfold Qmean. rewrite sumQ_repeat, lenQ_repeat.
  pose proof (inject_nat_pos n H). field. lra.
Qed.

Lemma repeat_nonempty {A : Type} (a : A) (n : nat) :
  (1 <= n)%nat -> repeat a n <> [].
Proof.
  destruct n; [lia | discriminate].
Qed.

Lemma np_mean_repeat (q : Q) (n : nat) :
  (1 <= n)%nat ->
  exists m, np_mean (repeat q n) = Fin m /\ (m == q)%Q.
Proof.
  intro H. rewrite (np_mean_nonempty _ (repeat_nonempty q n H)).
  eexists. split; [reflexivity |]. apply (Qmean_repeat q n H).
Qed.

Lemma zero_over (s l : Q) : (s == 0)%Q -> (s / l == 0)%Q.
Proof.
  intro H. rewrite H. unfold Qdiv. ring.
Qed.

(** The standard deviation of identical values is zero. *)
Lemma np_std_repeat (q : Q) (n : nat) :
  (1 <= n)%nat ->
  exists s, np_std (repeat q n) = Fin s /\ (s == 0)%Q.
Proof.
  intro H. unfold np_std, np_var.
  rewrite (np_mean_nonempty _ (repeat_nonempty q n H)).
  set (m := (sumQ (repeat q n) / lenQ (repeat q n))%Q).
  assert (Hm : (m == q)%Q) by (apply (Qmean_repeat q n H)).
  rewrite map_repeat.
  rewrite (np_mean_nonempty _ (repeat_nonempty _ n H)).
  set (v := (sumQ _ / lenQ _)%Q).
  assert (Hv : (v == 0)%Q).
  { unfold v. apply zero_over. rewrite sumQ_repeat.
    assert (E : (q - m == 0)%Q) by lra.
    pose proof (Qabs_wd _ _ E) as Ea. change (Qabs 0) with 0%Q in Ea.
    rewrite Ea. ring. }
  unfold np_sqrt.
  assert (E : Qltb v 0 = false) by (apply Qltb_ge; lra).
  rewrite E. exists (Qsqrt v). split; [reflexivity |].
  apply Qsqrt_0. exact Hv.
Qed.

Lemma combine_repeat {A : Type} (a : A) (n : nat) :
  combine (repeat a n) (repeat a n) = repeat (a, a) n.
Proof.
  induction n as [| n IH]; simpl; [| rewrite IH]; reflexivity.
Qed.

Lemma ssym_repeat (c : Z) (n : nat) :
  (1 <= n)%nat -> (ssym (repeat c n) == 0)%Q.
Proof.
  intro H. unfold ssym. rewrite to_floats_repeat. unfold np_cov.
  apply zero_over.
  rewrite combine_repeat, map_repeat, sumQ_repeat. cbn [fst snd].
  pose proof (Qmean_repeat (inject_Z c) n H) as Hm.
  set (m := Qmean (repeat (inject_Z c) n)) in *.
  assert (E : (inject_Z c - m == 0)%Q) by lra.
  rewrite E. ring.
Qed.

Lemma cov_constant (xs ys : list Q) (xm ym : Q) :
  (forall y, In y ys -> (y - ym == 0)%Q) ->
  (sumQ (map (fun p => (fst p - xm) * (snd p - ym)) (combine xs ys)) == 0)%Q.
Proof.
  revert ys. induction xs as [| x xs IH]; intros ys H; [reflexivity |].
  destruct ys as [| y ys]; [reflexivity |].
  cbn [combine map sumQ fold_right fst snd].
  fold (sumQ (map (fun p => (fst p - xm) * (snd p - ym))%Q (combine xs ys))).
  rewrite (IH ys) by (intros y' Hy'; apply H; right; exact Hy').
  rewrite (H y (or_introl eq_refl)). ring.
Qed.

Lemma ssxym_repeat (c : Z) (n : nat) :
  (1 <= n)%nat -> (ssxym (repeat c n) == 0)%Q.
Proof.
  intro H. unfold ssxym, np_cov. rewrite to_floats_repeat.
  apply zero_over. apply cov_constant.
  intros y Hy. apply repeat_spec in Hy. subst y.
  rewrite (Qmean_repeat (inject_Z c) n H). ring.
Qed.

(** Identical values have no correlation with the index: the
    coefficient is [nan], and the test [abs(r_value) < 0.3] fails. *)
Lemma rvalue_repeat (c : Z) (n : nat) :
  (1 <= n)%nat -> rvalue (fit_of (repeat c n)) = NaN.
Proof.
  intro H. unfold fit_of. cbn [rvalue].
  assert (E : Qeq_bool (ssym (repeat c n)) 0 = true)
    by (apply Qeq_bool_iff; apply (ssym_repeat c n H)).
  assert (E' : Qeq_bool (ssxym (repeat c n)) 0 = true)
    by (apply Qeq_bool_iff; apply (ssxym_repeat c n H)).
  rewrite E, E', orb_true_r. reflexivity.
Qed.

Lemma direction_repeat (c : Z) (n : nat) :
  (1 <= n)%nat ->
  _calculate_trend_direction (repeat c n) = Ok "decreasing"%string.
Proof.
  intro H.
  rewrite (direction_of_fit _ (repeat_nonempty c n H)).
  unfold direction_of. rewrite (rvalue_repeat c n H).
  cbn [npabs npltb npgtb].
  assert (E : npgtb (slope (fit_of (repeat c n))) (Fin 0) = false).
  { unfold fit_of. cbn [slope]. unfold npdiv.
    assert (E' : Qeq_bool (ssxym (repeat c n)) 0 = true)
      by (apply Qeq_bool_iff; apply (ssxym_repeat c n H)).
    rewrite E'.
    destruct (Qeq_bool (ssxm (repeat c n)) 0); [reflexivity |].
    cbn [npgtb]. apply Qltb_ge.
    rewrite (ssxym_repeat c n H). unfold Qdiv. rewrite Qmult_0_l.
    apply Qle_refl. }
  rewrite E. reflexivity.
Qed.

Lemma last_repeat {A : Type} (a d : A) (n : nat) :
  (1 <= n)%nat -> List.last (repeat a n) d = a.
Proof.
  induction n as [| [| n] IH]; intro H; [lia | reflexivity |].
  change (repeat a (S (S n))) with (a :: repeat a (S n)).
  change (List.last (a :: repeat a (S n)) d)
    with (List.last (repeat a (S n)) d).
  apply IH. lia.
Qed.

Lemma hd_repeat {A : Type} (a d : A) (n : nat) :
  (1 <= n)%nat -> hd d (repeat a n) = a.
Proof.
  destruct n; [lia | reflexivity].
Qed.

(** The momentum of identical values: zero, unless two or more zeros
    make it [0/0]. *)
Lemma momentum_repeat (c : Z) (n : nat) :
  (1 <= n)%nat ->
  (c <> 0%Z \/ n = 1%nat ->
   npeq (_calculate_momentum (repeat c n)) (Fin 0)) /\
  (c = 0%Z -> (2 <= n)%nat -> _calculate_momentum (repeat c n) = NaN).
Proof.
  intro H.
  assert (Hchange : (2 <= n)%nat ->
            wrap64 (List.last (repeat c n) 0%Z - hd 0%Z (repeat c n)) = 0%Z).
  { intros _. rewrite (last_repeat c 0%Z n H), (hd_repeat c 0%Z n H).
    rewrite Z.sub_diag. reflexivity. }
  split.
  - intros [Hc | Hn].
    + destruct (Nat.lt_ge_cases n 2) as [Hs | Hl].
      * rewrite momentum_short by (rewrite repeat_length; exact Hs).
        simpl. reflexivity.
      * assert (Hlen : (2 <= List.length (repeat c n))%nat)
          by (rewrite repeat_length; exact Hl).
        destruct (momentum_cases (repeat c n) Hlen) as [Hnz _].
        rewrite Hnz by (rewrite (hd_repeat c 0%Z n H); exact Hc).
        rewrite (Hchange Hl). simpl. field.
        rewrite (hd_repeat c 0%Z n H). intro E. apply Hc.
        unfold Qeq in E. simpl in E. lia.
    + subst n. simpl. reflexivity.
  - intros Hc Hl.
    assert (Hlen : (2 <= List.length (repeat c n))%nat)
      by (rewrite repeat_length; exact Hl).
    destruct (momentum_cases (repeat c n) Hlen) as [_ [Hz _]].
    apply Hz; [rewrite (hd_repeat c 0%Z n H); exact Hc | apply (Hchange Hl)].
Qed.

(** ** The forecast *)

Lemma slope_finite (values : list Z) :
  (2 <= List.length values)%nat ->
  slope (fit_of values) = Fin (ssxym values / ssxm values).
Proof.
  intro H. unfold fit_of. cbn [slope]. unfold npdiv.
  assert (E : Qeq_bool (ssxm values) 0 = false).
  { apply Qeq_bool_false. pose proof (ssxm_pos values H). lra. }
  rewrite E. reflexivity.
Qed.

Lemma intercept_finite (values : list Z) :
  (2 <= List.length values)%nat ->
  intercept (fit_of values)
  = Fin (Qmean (to_floats values)
         - ssxym values / ssxm values
           * Qmean (arange 0 (List.length values))).
Proof.
  intro H. pose proof (slope_finite values H) as Hs.
  unfold fit_of in *. cbn [slope intercept] in *. rewrite Hs. reflexivity.
Qed.

Lemma length_nonempty {A : Type} (l : list A) :
  (2 <= List.length l)%nat -> l <> [].
Proof.
  destruct l; simpl; [lia | discriminate].
Qed.

Lemma predict_trend_values (values : list Z) :
  (2 <= List.length values)%nat ->
  _predict_trend values
  = Ok (map (fun fx =>
               Fin (ssxym values / ssxm values * fx
                    + (Qmean (to_floats values)
                       - ssxym values / ssxm values
                         * Qmean (arange 0 (List.length values)))))
            (arange (List.length values) 30)).
Proof.
  intro H. unfold _predict_trend.
  rewrite (linregress_ok values (length_nonempty values H)). cbn [bind].
  rewrite (slope_finite values H), (intercept_finite values H).
  reflexivity.
Qed.

(** ** A linear series *)

Section Linear.

Variables a b : Z.

Lemma lenQ_cons {A : Type} (x : A) (l : list A) :
  (lenQ (x :: l) == lenQ l + 1)%Q.
Proof.
  unfold lenQ. cbn [List.length]. rewrite Nat2Z.inj_succ.
  unfold Z.succ. rewrite inject_Z_plus. reflexivity.
Qed.

Lemma sum_linear (ks : list nat) :
  (sumQ (linear_floats a b ks)
   == inject_Z a * sumQ (index_floats ks) + inject_Z b * lenQ ks)%Q.
Proof.
  induction ks as [| k ks IH].
  - change (0 == inject_Z a * 0 + inject_Z b * 0)%Q. ring.
  - rewrite lenQ_cons. unfold index_floats, linear_floats, to_floats in *.
    cbn [map sumQ fold_right] in *.
    fold (sumQ (map inject_Z (map (fun k => (a * Z.of_nat k + b)%Z) ks))).
    fold (sumQ (map (fun i => inject_Z (Z.of_nat i)) ks)).
    rewrite IH, inject_Z_plus, inject_Z_mult. ring.
Qed.

Lemma len_X (ks : list nat) : lenQ (index_floats ks) = lenQ ks.
Proof. unfold lenQ, index_floats. rewrite length_map. reflexivity. Qed.

Lemma len_Y (ks : list nat) : lenQ (linear_floats a b ks) = lenQ ks.
Proof. unfold lenQ, linear_floats, to_floats. rewrite !length_map. reflexivity. Qed.

Lemma mean_linear (ks : list nat) :
  ks <> [] ->
  (Qmean (linear_floats a b ks) == inject_Z a * Qmean (index_floats ks) + inject_Z b)%Q.
Proof.
  intro H. unfold Qmean. rewrite sum_linear, len_X, len_Y.
  pose proof (lenQ_pos ks H). field. lra.
Qed.

Lemma cov_linear (ks : list nat) (xm ym : Q) :
  (ym == inject_Z a * xm + inject_Z b)%Q ->
  (sumQ (map (fun p => (fst p - xm) * (snd p - ym))
             (combine (index_floats ks) (linear_floats a b ks)))
   == inject_Z a
      * sumQ (map (fun p => (fst p - xm) * (snd p - xm))
                  (combine (index_floats ks) (index_floats ks))))%Q.
Proof.
  intro Hm. induction ks as [| k ks IH].
  - change (0 == inject_Z a * 0)%Q. ring.
  - unfold index_floats, linear_floats, to_floats in *.
    cbn [map combine sumQ fold_right fst snd] in *.
    unfold sumQ in IH. rewrite IH, Hm, inject_Z_plus, inject_Z_mult. ring.
Qed.

Lemma var_linear (ks : list nat) (xm ym : Q) :
  (ym == inject_Z a * xm + inject_Z b)%Q ->
  (sumQ (map (fun p => (fst p - ym) * (snd p - ym))
             (combine (linear_floats a b ks) (linear_floats a b ks)))
   == inject_Z a * inject_Z a
      * sumQ (map (fun p => (fst p - xm) * (snd p - xm))
                  (combine (index_floats ks) (index_floats ks))))%Q.
Proof.
  intro Hm. induction ks as [| k ks IH].
  - change (0 == inject_Z a * inject_Z a * 0)%Q. ring.
  - unfold index_floats, linear_floats, to_floats in *.
    cbn [map combine sumQ fold_right fst snd] in *.
    unfold sumQ in IH. rewrite IH, Hm, inject_Z_plus, inject_Z_mult. ring.
Qed.

Variable n : nat.
Hypothesis n_ge_2 : (2 <= n)%nat.

Lemma length_linear : List.length (linear_series a b n) = n.
Proof.
  unfold linear_series. rewrite length_map, length_seq. reflexivity.
Qed.

Lemma seq_nonempty : seq 0 n <> [].
Proof. destruct n; [lia | discriminate]. Qed.

Lemma ssxym_linear :
  (ssxym (linear_series a b n)
   == inject_Z a * ssxm (linear_series a b n))%Q.
Proof.
  unfold ssxym, ssxm. rewrite length_linear.
  change (arange 0 n) with (index_floats (seq 0 n)).
  change (to_floats (linear_series a b n)) with (linear_floats a b (seq 0 n)).
  unfold np_cov. rewrite len_X.
  rewrite (cov_linear (seq 0 n) (Qmean (index_floats (seq 0 n))))
    by (apply mean_linear; apply seq_nonempty).
  pose proof (lenQ_pos _ seq_nonempty). field. lra.
Qed.

Lemma ssym_linear :
  (ssym (linear_series a b n)
   == inject_Z a * inject_Z a * ssxm (linear_series a b n))%Q.
Proof.
  unfold ssym, ssxm. rewrite length_linear.
  change (arange 0 n) with (index_floats (seq 0 n)).
  change (to_floats (linear_series a b n)) with (linear_floats a b (seq 0 n)).
  unfold np_cov. rewrite len_X, len_Y.
  rewrite (var_linear (seq 0 n) (Qmean (index_floats (seq 0 n))))
    by (apply mean_linear; apply seq_nonempty).
  pose proof (lenQ_pos _ seq_nonempty). field. lra.
Qed.

Lemma values_long : (2 <= List.length (linear_series a b n))%nat.
Proof. rewrite length_linear. exact n_ge_2. Qed.

Lemma slope_linear :
  (ssxym (linear_series a b n) / ssxm (linear_series a b n)
   == inject_Z a)%Q.
Proof.
  rewrite ssxym_linear.
  pose proof (ssxm_pos (linear_series a b n) values_long).
  field. lra.
Qed.

Lemma intercept_linear :
  (Qmean (to_floats (linear_series a b n))
   - ssxym (linear_series a b n) / ssxm (linear_series a b n)
     * Qmean (arange 0 (List.length (linear_series a b n)))
   == inject_Z b)%Q.
Proof.
  rewrite slope_linear, length_linear.
  change (arange 0 n) with (index_floats (seq 0 n)).
  change (to_floats (linear_series a b n)) with (linear_floats a b (seq 0 n)).
  rewrite (mean_linear _ seq_nonempty). ring.
Qed.

Hypothesis a_pos : (0 < a)%Z.

Lemma rvalue_linear :
  exists r, rvalue (fit_of (linear_series a b n)) = Fin r /\ (r == 1)%Q.
Proof.
  pose proof (ssxm_pos (linear_series a b n) values_long) as Hx.
  assert (Ha : (0 < inject_Z a)%Q)
    by (change 0%Q with (inject_Z 0); rewrite <- Zlt_Qlt; exact a_pos).
  pose proof ssxym_linear as Hxy. pose proof ssym_linear as Hy.
  set (V := ssxm (linear_series a b n)) in *. set (A := inject_Z a) in *.
  assert (HAV : (0 < A * V)%Q) by nra.
  unfold fit_of. cbn [rvalue]. fold V.
  assert (E1 : Qeq_bool V 0 = false) by (apply Qeq_bool_false; lra).
  assert (E2 : Qeq_bool (ssym (linear_series a b n)) 0 = false).
  { apply Qeq_bool_false. rewrite Hy. nra. }
  rewrite E1, E2. cbn [orb].
  assert (Hsq : (V * ssym (linear_series a b n) == (A * V) * (A * V))%Q)
    by (rewrite Hy; ring).
  unfold np_sqrt.
  assert (E3 : Qltb (V * ssym (linear_series a b n)) 0 = false).
  { apply Qltb_ge. rewrite Hsq. apply Qsquare_nonneg. }
  rewrite E3, (Qsqrt_proper _ _ Hsq).
  pose proof (Qsqrt_square (A * V)) as Hroot.
  set (s := Qsqrt (A * V * (A * V))) in *.
  assert (Hs : (s == A * V)%Q) by (apply Hroot; lra).
  unfold npdiv.
  assert (E4 : Qeq_bool s 0 = false) by (apply Qeq_bool_false; lra).
  rewrite E4.
  assert (Hr : (ssxym (linear_series a b n) / s == 1)%Q).
  { rewrite Hxy, Hs. field. lra. }
  unfold clip_r, npltb, npgtb.
  assert (E5 : Qltb 1 (ssxym (linear_series a b n) / s) = false)
    by (apply Qltb_ge; lra).
  assert (E6 : Qltb (ssxym (linear_series a b n) / s) (-1) = false)
    by (apply Qltb_ge; lra).
  rewrite E5, E6. eexists. split; [reflexivity | exact Hr].
Qed.

Lemma direction_linear :
  _calculate_trend_direction (linear_series a b n) = Ok "increasing"%string.
Proof.
  rewrite (direction_of_fit _ (length_nonempty (linear_series a b n) values_long)).
  unfold direction_of.
  destruct rvalue_linear as [r [Hr Hr1]]. rewrite Hr.
  rewrite (slope_finite (linear_series a b n) values_long).
  unfold npltb, npgtb, npabs.
  assert (Ha : (0 < inject_Z a)%Q)
    by (change 0%Q with (inject_Z 0); rewrite <- Zlt_Qlt; exact a_pos).
  assert (E1 : Qltb (Qabs r) (3 # 10) = false).
  { apply Qltb_ge. rewrite (Qabs_wd _ _ Hr1). change (Qabs 1) with 1%Q. lra. }
  assert (E2 : Qltb 0 (ssxym (linear_series a b n)
                       / ssxm (linear_series a b n)) = true).
  { apply Qltb_lt. rewrite slope_linear. exact Ha. }
  rewrite E1, E2. reflexivity.
Qed.

End Linear.

(** ** The batch loop *)

Lemma predict_trend_ok (values : list Z) :
  values <> [] -> exists forecast, _predict_trend values = Ok forecast.
Proof.
  intro H. unfold _predict_trend. rewrite (linregress_ok values H).
  cbn [bind]. eexists. reflexivity.
Qed.

Lemma dict_get_In {V : Type} (k : string) (d : list (string * V)) (v : V) :
  dict_get k d = Some v -> In (k, v) d.
Proof.
  induction d as [| [k' v'] d IH]; simpl; [discriminate |].
  destruct (String.eqb k k') eqn:E.
  - intro H. injection H as H. subst v'. apply String.eqb_eq in E. subst k'.
    left. reflexivity.
  - intro H. right. apply IH. exact H.
Qed.

Lemma store_keywords_total (df : DataFrame) (rows : nat) :
  rectangular df rows -> (1 <= rows)%nat ->
  forall batch results, exists r, store_keywords df results batch = Ok r.
Proof.
  intros Hrect Hrows batch.
  induction batch as [| keyword rest IH]; intro results; simpl.
  - eexists. reflexivity.
  - unfold store_keyword.
    destruct (dict_get keyword df) as [col |] eqn:E.
    + assert (Hne : col <> []).
      { apply dict_get_In in E. apply Hrect in E.
        destruct col; [simpl in E; lia | discriminate]. }
      destruct (trend_analysis_of_ok col Hne) as [a [Ha _]].
      destruct (predict_trend_ok col Hne) as [f Hf].
      rewrite Ha, Hf. cbn [bind]. apply IH.
    + cbn [bind]. apply IH.
Qed.

Lemma store_batch_total (df : DataFrame) (rows : nat) :
  rectangular df rows ->
  forall batch results,
    exists r, store_batch df results batch = Ok r /\
              (rows = 0%nat -> r = results).
Proof.
  intros Hrect batch results. unfold store_batch.
  destruct df as [| [k col] df'] eqn:Edf.
  - simpl. eexists. split; reflexivity.
  - assert (Hcol : List.length col = rows)
      by (apply (Hrect k); left; reflexivity).
    cbn [df_empty]. rewrite Hcol.
    destruct rows as [| rows'].
    + simpl. eexists. split; reflexivity.
    + cbn [Nat.eqb negb].
      destruct (store_keywords_total ((k, col) :: df') (S rows') Hrect
                  ltac:(lia) batch results) as [r Hr].
      exists r. split; [exact Hr | discriminate].
Qed.

(** [run] raises nothing, whatever frames the service returns. *)
Lemma run_total (interest_over_time : list string -> DataFrame)
  (keywords : list string) :
  (forall batch, exists rows, rectangular (interest_over_time batch) rows) ->
  exists r, run interest_over_time keywords = Ok r.
Proof.
  intro Hrect. unfold run.
  generalize empty_results. generalize (batches keywords).
  intro bs. induction bs as [| batch rest IH]; intro results.
  - exists results. reflexivity.
  - cbn [run_batches]. destruct (Hrect batch) as [rows Hrows].
    destruct (store_batch_total (interest_over_time batch) rows Hrows
                batch results) as [r [Hr _]].
    rewrite Hr. cbn [bind]. apply IH.
Qed.

(** ** Volatility *)

Lemma volatility_cases (values : list Z) :
  values <> [] ->
  exists m s,
    np_mean (to_floats values) = Fin m /\
    np_std (to_floats values) = Fin s /\
    (~ (m == 0)%Q ->
     npdiv (np_std (to_floats values)) (np_mean (to_floats values))
     = Fin (s / m)) /\
    ((m == 0)%Q -> (s == 0)%Q ->
     npdiv (np_std (to_floats values)) (np_mean (to_floats values)) = NaN).
Proof.
  intro Hne. pose proof (to_floats_nonempty values Hne) as Hx.
  destruct (np_std_nonempty _ Hx) as [v [_ [_ Hs]]].
  exists (sumQ (to_floats values) / lenQ (to_floats values))%Q, (Qsqrt v).
  rewrite (np_mean_nonempty _ Hx), Hs. unfold npdiv.
  repeat split.
  - intro Hm. apply Qeq_bool_false in Hm. rewrite Hm. reflexivity.
  - intros Hm Hz. apply Qeq_bool_iff in Hm. apply Qeq_bool_iff in Hz.
    rewrite Hm, Hz. reflexivity.
Qed.

Lemma volatility_zeros (n : nat) :
  (1 <= n)%nat ->
  npdiv (np_std (to_floats (repeat 0%Z n))) (np_mean (to_floats (repeat 0%Z n)))
  = NaN.
Proof.
  intro H. rewrite to_floats_repeat.
  destruct (np_std_repeat (inject_Z 0) n H) as [s [Hs Hs0]].
  destruct (np_mean_repeat (inject_Z 0) n H) as [m [Hm Hm0]].
  rewrite Hs, Hm. unfold npdiv.
  assert (E1 : Qeq_bool m 0 = true) by (apply Qeq_bool_iff; exact Hm0).
  assert (E2 : Qeq_bool s 0 = true) by (apply Qeq_bool_iff; exact Hs0).
  rewrite E1, E2. reflexivity.
Qed.

End TrendFacts.

(** * The Trend Signal Processor *)

Module TrendClaims.
Import TrendAnalyzer.
Import TrendFacts.

(** C1, as stated, fails: the series [0, 0] has mean 0, and its
    volatility is [nan] (numpy's [0.0 / 0.0]), not the sentinel 0. *)
Lemma zero_mean_volatility_is_nan :
  exists a,
    trend_analysis_of [0; 0]%Z = Ok a /\
    npeq (mean a) (Fin 0) /\
    volatility a = NaN /\
    ~ npeq (volatility a) (Fin 0).
Proof.
  eexists. split; [vm_compute; reflexivity |].
  cbn [mean volatility]. split; [reflexivity |].
  split; [reflexivity |]. intro H. exact H.
Qed.

(** C1 (amended).  Degenerate input raises nothing: [run] returns
    whatever frames the service answers with, and
    - a frame without rows is skipped by the guard of line 55: the results
      are left as they were (no statistics, no direction and no forecast
      are stored for its keywords);
    - a series of fewer than 2 samples has momentum 0;
    - on a non-empty series whose mean is not 0 the volatility is
      [std / mean];
    - on 2 or more samples whose first is not 0 the momentum is
      [(last - first) / first * 100]. *)
Theorem degenerate_series_results :
  (forall (interest_over_time : list string -> DataFrame) (keywords : list string),
      (forall batch, exists rows, rectangular (interest_over_time batch) rows) ->
      exists r, run interest_over_time keywords = Ok r) /\
  (forall (df : DataFrame) (rows : nat) (batch : list string) (results : Results),
      rectangular df rows ->
      exists r, store_batch df results batch = Ok r /\
                (rows = 0%nat -> r = results)) /\
  (forall values : list Z,
      (List.length values < 2)%nat -> _calculate_momentum values = Fin 0) /\
  (forall values : list Z,
      values <> [] ->
      exists a m s,
        trend_analysis_of values = Ok a /\
        mean a = Fin m /\ std a = Fin s /\
        (~ (m == 0)%Q -> volatility a = Fin (s / m))) /\
  (forall values : list Z,
      (2 <= List.length values)%nat ->
      let first := hd 0%Z values in
      let change := wrap64 (List.last values 0%Z - first) in
      first <> 0%Z ->
      _calculate_momentum values
      = Fin (inject_Z change / inject_Z first * 100)).
Proof.
  split; [| split; [| split; [| split]]].
  - apply run_total.
  - intros df rows batch results Hrect.
    apply (store_batch_total df rows Hrect).
  - apply momentum_short.
  - intros values Hne.
    destruct (trend_analysis_of_ok values Hne)
      as [a [Ha [Hmean [Hstd [_ [Hvol _]]]]]].
    destruct (volatility_cases values Hne) as [m [s [Hm [Hs [Hnz _]]]]].
    exists a, m, s. rewrite Hmean, Hstd, Hvol.
    repeat split; assumption.
  - intros values Hlen first change.
    destruct (momentum_cases values Hlen) as [H _]. exact H.
Qed.

Lemma degenerate_series_results_witness :
  _calculate_momentum [7]%Z = Fin 0 /\
  (exists a, trend_analysis_of [2; 4]%Z = Ok a /\
             npeq (volatility a) (Fin (1 # 3))) /\
  npeq (_calculate_momentum [2; 4]%Z) (Fin 100).
Proof.
  destruct degenerate_series_results as [_ [_ [Hshort [Hvol Hmom]]]].
  split; [| split].
  - apply Hshort. simpl. lia.
  - destruct (Hvol [2; 4]%Z) as [a [m [s [Ha [Hm [Hs Hv]]]]]];
      [discriminate |].
    exists a. split; [exact Ha |].
    assert (Em : m = (6 # 2)%Q).
    { vm_compute in Ha. injection Ha as Ha. rewrite <- Ha in Hm.
      cbn [mean] in Hm. injection Hm as Hm. symmetry. exact Hm. }
    assert (Es : (s == 1)%Q).
    { vm_compute in Ha. injection Ha as Ha. rewrite <- Ha in Hs.
      cbn [std] in Hs. injection Hs as Hs. rewrite <- Hs. reflexivity. }
    rewrite Hv by (rewrite Em; discriminate).
    unfold npeq. rewrite Es, Em. reflexivity.
  - rewrite (Hmom [2; 4]%Z); [reflexivity | simpl; lia | discriminate].
Defined.

(** C4.  On every non-empty series the regression returns a fit, and the
    direction is "stable" exactly when the absolute value of its
    correlation coefficient is below 0.3, otherwise "increasing" when the
    slope is > 0 and "decreasing" when it is not.  A non-empty series of
    identical values [c] has std 0, but its correlation coefficient is
    [nan]: the test [abs(r_value) < 0.3] is false, the slope is not > 0,
    and the direction is "decreasing", not "stable".  Its momentum is 0
    when [c] is not 0 or the series has a single sample; on two or more
    zeros, as on [0, 0], the unguarded division by the first sample makes
    the momentum [nan] instead of 0. *)
Theorem trend_direction_classification (values : list Z) :
  values <> [] ->
  let res := fit_of values in
  linregress (arange 0 (List.length values)) (to_floats values) = Ok res /\
  (_calculate_trend_direction values = Ok "stable"%string
   <-> npltb (npabs (rvalue res)) (Fin (3 # 10)) = true) /\
  (npltb (npabs (rvalue res)) (Fin (3 # 10)) = false ->
   _calculate_trend_direction values
   = Ok (if npgtb (slope res) (Fin 0) then "increasing" else "decreasing")%string) /\
  (forall (c : Z) (n : nat),
      values = repeat c n ->
      rvalue res = NaN /\
      exists a,
        trend_analysis_of values = Ok a /\
        npeq (std a) (Fin 0) /\
        trend_direction a = "decreasing"%string /\
        trend_direction a <> "stable"%string /\
        (c <> 0%Z \/ n = 1%nat -> npeq (momentum a) (Fin 0)) /\
        (c = 0%Z -> (2 <= n)%nat ->
         momentum a = NaN /\ ~ npeq (momentum a) (Fin 0))).
Proof.
  intros Hne res. split; [apply (linregress_ok values Hne) |].
  pose proof (direction_of_fit values Hne) as Hd.
  unfold direction_of in Hd. fold res in Hd.
  split; [| split].
  - rewrite Hd. split.
    + destruct (npltb (npabs (rvalue res)) (Fin (3 # 10))); [reflexivity |].
      destruct (npgtb (slope res) (Fin 0)); discriminate.
    + intro E. rewrite E. reflexivity.
  - intro E. rewrite Hd, E. reflexivity.
  - intros c n Hv.
    assert (Hn : (1 <= n)%nat).
    { destruct n; [subst values; contradiction | lia]. }
    split; [unfold res; rewrite Hv; apply (rvalue_repeat c n Hn) |].
    destruct (trend_analysis_of_ok values Hne)
      as [a [Ha [_ [Hstd [Hdir [_ Hmom]]]]]].
    exists a. split; [exact Ha |].
    rewrite Hstd, Hmom. subst values.
    rewrite (direction_repeat c n Hn) in Hdir.
    rewrite to_floats_repeat.
    destruct (np_std_repeat (inject_Z c) n Hn) as [s [Hs Hs0]].
    destruct (momentum_repeat c n Hn) as [M1 M2].
    assert (Hdec : trend_direction a = "decreasing"%string) by congruence.
    split; [rewrite Hs; exact Hs0 |].
    split; [exact Hdec |].
    split; [rewrite Hdec; discriminate |]. split; [exact M1 |].
    intros Hc Hl. rewrite (M2 Hc Hl). split; [reflexivity |].
    intro H. exact H.
Qed.

Lemma trend_direction_classification_witness :
  _calculate_trend_direction [3; 5; 3]%Z = Ok "stable"%string /\
  (exists a, trend_analysis_of [5; 5; 5]%Z = Ok a /\
             trend_direction a = "decreasing"%string /\
             npeq (momentum a) (Fin 0)) /\
  (exists a, trend_analysis_of [0; 0]%Z = Ok a /\
             trend_direction a = "decreasing"%string /\
             momentum a = NaN).
Proof.
  assert (Hne1 : [3; 5; 3]%Z <> []) by discriminate.
  assert (Hne : [5; 5; 5]%Z <> []) by discriminate.
  assert (Hne0 : [0; 0]%Z <> []) by discriminate.
  destruct (trend_direction_classification [3; 5; 3]%Z Hne1)
    as [_ [Hstable _]].
  destruct (trend_direction_classification [5; 5; 5]%Z Hne)
    as [_ [_ [_ Hconst]]].
  destruct (trend_direction_classification [0; 0]%Z Hne0)
    as [_ [_ [_ Hzeros]]].
  split; [| split].
  - apply Hstable. vm_compute. reflexivity.
  - destruct (Hconst 5%Z 3%nat eq_refl) as [_ [a [Ha [_ [Hd [_ [Hmom _]]]]]]].
    exists a. split; [exact Ha |]. split; [exact Hd |].
    apply Hmom. left. discriminate.
  - destruct (Hzeros 0%Z 2%nat eq_refl) as [_ [a [Ha [_ [Hd [_ [_ Hnan]]]]]]].
    exists a. split; [exact Ha |]. split; [exact Hd |].
    destruct (Hnan eq_refl ltac:(lia)) as [H _]. exact H.
Defined.

(** C8.  On a series of [n >= 2] samples the regression gives a finite
    slope [s] and intercept [i]; the direction is classified from that fit
    and the forecast is the sequence of exactly 30 values
    [s * x + i] for [x = n, ..., n + 29], in that order and unclamped.
    For the strictly increasing linear series [a * k + b] (with [a > 0])
    the slope is [a], the intercept is [b], the direction is "increasing"
    and the forecast continues the line. *)
Theorem forecast_linear_extrapolation (values : list Z) :
  (2 <= List.length values)%nat ->
  let n := List.length values in
  let s := (ssxym values / ssxm values)%Q in
  let i := (Qmean (to_floats values) - s * Qmean (arange 0 n))%Q in
  linregress (arange 0 n) (to_floats values) = Ok (fit_of values) /\
  slope (fit_of values) = Fin s /\
  intercept (fit_of values) = Fin i /\
  _calculate_trend_direction values = Ok (direction_of (fit_of values)) /\
  (exists forecast,
      _predict_trend values = Ok forecast /\
      List.length forecast = 30%nat /\
      forall k, (k < 30)%nat ->
        nth_error forecast k
        = Some (Fin (s * inject_Z (Z.of_nat (n + k)) + i))) /\
  (forall a b : Z,
      (0 < a)%Z -> values = linear_series a b n ->
      _calculate_trend_direction values = Ok "increasing"%string /\
      (s == inject_Z a)%Q /\ (i == inject_Z b)%Q /\
      forall k,
        (s * inject_Z (Z.of_nat (n + k)) + i
         == inject_Z (a * Z.of_nat (n + k) + b))%Q).
Proof.
  intros Hlen n s i.
  pose proof (length_nonempty values Hlen) as Hne.
  split; [apply (linregress_ok values Hne) |].
  split; [apply (slope_finite values Hlen) |].
  split; [apply (intercept_finite values Hlen) |].
  split; [apply (direction_of_fit values Hne) |].
  split.
  - rewrite (predict_trend_values values Hlen). fold n s i.
    eexists. split; [reflexivity |].
    split; [unfold arange; rewrite !length_map, length_seq; reflexivity |].
    intros k Hk. unfold arange. rewrite map_map.
    rewrite nth_error_map.
    rewrite (nth_error_nth' (seq n 30) 0%nat)
      by (rewrite length_seq; exact Hk).
    rewrite seq_nth by exact Hk. reflexivity.
  - intros a b Ha Hv.
    assert (Hn : (2 <= n)%nat) by exact Hlen.
    subst s i. clearbody n. subst values.
    pose proof (slope_linear a b n Hn) as Hs.
    pose proof (intercept_linear a b n Hn) as Hi.
    rewrite length_linear in Hi.
    split; [apply direction_linear; assumption |].
    split; [exact Hs |]. split; [exact Hi |].
    intro k. rewrite Hi, Hs, inject_Z_plus, inject_Z_mult. reflexivity.
Qed.

Lemma forecast_linear_extrapolation_witness :
  _calculate_trend_direction [10; 20; 30; 40; 50]%Z = Ok "increasing"%string /\
  exists forecast,
    _predict_trend [10; 20; 30; 40; 50]%Z = Ok forecast /\
    List.length forecast = 30%nat.
Proof.
  assert (Hlen : (2 <= List.length [10; 20; 30; 40; 50]%Z)%nat)
    by (simpl; lia).
  destruct (forecast_linear_extrapolation [10; 20; 30; 40; 50]%Z Hlen)
    as [_ [_ [_ [_ [[forecast [Hf [Hl _]]] Hlin]]]]].
  split.
  - destruct (Hlin 10%Z 10%Z) as [Hd _]; [lia | reflexivity | exact Hd].
  - exists forecast. split; [exact Hf | exact Hl].
Defined.

(** The forecast is not clamped: a falling series is extrapolated below
    zero, under every sample of the series. *)
Example forecast_goes_negative :
  exists v rest,
    _predict_trend [3; 2; 1; 0]%Z = Ok (Fin v :: rest) /\ (v == -1)%Q.
Proof.
  eexists. eexists. split; [vm_compute; reflexivity |]. reflexivity.
Qed.

End TrendClaims.

(** * The Text Quality Scorer *)

Module ContentFacts.
Import ContentOptimizer.

(** ** Syllables *)

Lemma vowel_runs_nonneg (w : string) : (0 <= vowel_runs w)%Z.
Proof.
  induction w as [| c rest IH]; [simpl; lia |].
  cbn [vowel_runs].
  destruct (is_vowel c && negb (starts_with_vowel rest)); lia.
Qed.

(** The loop counts the runs by their first vowel, the specification by
    their last one. *)
Lemma syllable_loop_runs (w : string) (count : Z) (prev : bool) :
  syllable_loop count prev w
  = (count + vowel_runs w
     - (if prev && starts_with_vowel w then 1 else 0))%Z.
Proof.
  revert count prev. induction w as [| c rest IH]; intros count prev.
  - simpl. rewrite andb_false_r. lia.
  - cbn [syllable_loop vowel_runs starts_with_vowel]. rewrite IH.
    destruct (is_vowel c), prev, (starts_with_vowel rest);
      cbn [andb negb]; lia.
Qed.

Lemma endswith_e_has_run (w : string) :
  endswith_e w = true -> (1 <= vowel_runs w)%Z.
Proof.
  induction w as [| c rest IH]; [discriminate |].
  destruct rest as [| c' rest'].
  - simpl. intro H. apply Ascii.eqb_eq in H. subst c. simpl. lia.
  - intro H. change (endswith_e (String c' rest') = true) in H.
    specialize (IH H). cbn [vowel_runs] in *.
    destruct (is_vowel c && negb (starts_with_vowel (String c' rest'))); lia.
Qed.

Lemma count_syllables_spec (word : string) :
  _count_syllables word = syllables_spec word.
Proof.
  unfold _count_syllables, syllables_spec.
  rewrite syllable_loop_runs. cbn [andb].
  set (w := lower word).
  pose proof (vowel_runs_nonneg w) as Hn.
  destruct (endswith_e w) eqn:E.
  - pose proof (endswith_e_has_run w E) as H1.
    destruct (Z.eqb_spec (0 + vowel_runs w - 0 - 1) 0); lia.
  - destruct (Z.eqb_spec (0 + vowel_runs w - 0) 0); lia.
Qed.

(** ** Readability *)

Lemma py_truediv_ok (x y : Z) :
  y <> 0%Z -> py_truediv x y = Ok (inject_Z x / inject_Z y)%Q.
Proof.
  intro H. unfold py_truediv. apply Z.eqb_neq in H. rewrite H. reflexivity.
Qed.

Lemma py_clamp (score : Q) :
  (py_min (py_max score 0) 100 == clamp 0 100 score)%Q.
Proof.
  unfold py_min, py_max, clamp.
  destruct (Qltb score 0) eqn:E1.
  - apply Qltb_lt in E1.
    assert (E2 : Qltb 100 0 = false) by reflexivity. rewrite E2.
    rewrite (Q.max_l 0 score) by lra. rewrite Q.min_r by lra. reflexivity.
  - apply Qltb_ge in E1. rewrite (Q.max_r 0 score) by exact E1.
    destruct (Qltb 100 score) eqn:E2.
    + apply Qltb_lt in E2. rewrite Q.min_l by lra. reflexivity.
    + apply Qltb_ge in E2. rewrite Q.min_r by exact E2. reflexivity.
Qed.

Lemma clamp_bounds (lo hi x : Q) :
  (lo <= hi)%Q -> (lo <= clamp lo hi x <= hi)%Q.
Proof.
  intro H. unfold clamp. split.
  - apply Q.min_glb; [exact H | apply Q.le_max_l].
  - apply Q.le_min_l.
Qed.

Lemma syllables_sum_spec (ws : list string) :
  map _count_syllables ws = map syllables_spec ws.
Proof.
  apply map_ext. exact count_syllables_spec.
Qed.

Lemma readability_guarded (blob : Blob) :
  sentences blob = [] \/ words blob = [] ->
  _calculate_readability blob = Ok 0%Q.
Proof.
  intro H. unfold _calculate_readability.
  destruct H as [H | H]; rewrite H; simpl List.length;
    [reflexivity | rewrite orb_true_r; reflexivity].
Qed.

Lemma readability_scored (blob : Blob) :
  sentences blob <> [] -> words blob <> [] ->
  let W := Z.of_nat (List.length (words blob)) in
  let S := Z.of_nat (List.length (sentences blob)) in
  let Y := fold_right Z.add 0%Z (map syllables_spec (words blob)) in
  exists score,
    _calculate_readability blob = Ok score /\
    (score == clamp 0 100 (flesch_reading_ease W S Y))%Q.
Proof.
  intros Hs Hw W S Y. unfold _calculate_readability.
  fold W S. rewrite syllables_sum_spec. fold Y.
  assert (HS : S <> 0%Z)
    by (unfold S; destruct (sentences blob); [contradiction | simpl; lia]).
  assert (HW : W <> 0%Z)
    by (unfold W; destruct (words blob); [contradiction | simpl; lia]).
  assert (E1 : (S =? 0)%Z = false) by (apply Z.eqb_neq; exact HS).
  assert (E2 : (W =? 0)%Z = false) by (apply Z.eqb_neq; exact HW).
  rewrite E1, E2. cbn [orb]. unfold flesch.
  rewrite (py_truediv_ok W S HS), (py_truediv_ok Y W HW). cbn [bind].
  eexists. split; [reflexivity |]. apply py_clamp.
Qed.

(** ** The keyword density never divides by zero *)

Lemma density_of_ok (total : Z) (items : list (string * Z)) :
  total <> 0%Z ->
  density_of total items
  = Ok (map (fun wc => (fst wc, (inject_Z (snd wc) / inject_Z total * 100)%Q))
            items).
Proof.
  intro H. induction items as [| [w c] items IH]; [reflexivity |].
  cbn [density_of]. rewrite (py_truediv_ok c total H), IH. reflexivity.
Qed.

Lemma keyword_density_ok (ws : list string) :
  exists kd,
    density_of (Z.of_nat (List.length ws)) (most_common 10 (Counter ws)) = Ok kd.
Proof.
  destruct ws as [| w ws].
  - exists []. reflexivity.
  - rewrite density_of_ok by (simpl List.length; lia). eexists. reflexivity.
Qed.

(** ** The four checks *)

Lemma title_analysis_outcome (content : Content) (st : Score) :
  title_analysis content st
  = ((fst st + points (title_outcome content))%Z,
     snd st ++ messages (title_outcome content)).
Proof.
  unfold title_analysis, title_outcome. destruct st as [score msgs].
  destruct (title content) as [t |]; cbn [fst snd].
  - destruct (String.length t <? 30)%nat;
      [| destruct (60 <? String.length t)%nat];
      cbn [points messages]; rewrite ?Z.add_0_r, ?app_nil_r; reflexivity.
  - cbn [points messages]. rewrite Z.add_0_r, app_nil_r. reflexivity.
Qed.

Lemma description_analysis_outcome (content : Content) (st : Score) :
  description_analysis content st
  = ((fst st + points (description_outcome content))%Z,
     snd st ++ messages (description_outcome content)).
Proof.
  unfold description_analysis, description_outcome. destruct st as [score msgs].
  destruct (description content) as [d |]; cbn [fst snd].
  - destruct (String.length d <? 100)%nat;
      [| destruct (5000 <? String.length d)%nat];
      cbn [points messages]; rewrite ?Z.add_0_r, ?app_nil_r; reflexivity.
  - cbn [points messages]. rewrite Z.add_0_r, app_nil_r. reflexivity.
Qed.

Lemma tags_analysis_outcome (content : Content) (st : Score) :
  tags_analysis content st
  = ((fst st + points (tags_outcome content))%Z,
     snd st ++ messages (tags_outcome content)).
Proof.
  unfold tags_analysis, tags_outcome. destruct st as [score msgs].
  destruct (tags content) as [ts |]; cbn [fst snd].
  - destruct (List.length ts <? 5)%nat;
      cbn [points messages]; rewrite ?Z.add_0_r, ?app_nil_r; reflexivity.
  - cbn [points messages]. rewrite Z.add_0_r, app_nil_r. reflexivity.
Qed.

Lemma keyword_usage_outcome (kd : list (string * Q)) (st : Score) :
  keyword_usage_analysis kd st
  = ((fst st + points (keyword_outcome kd))%Z,
     snd st ++ messages (keyword_outcome kd)).
Proof.
  unfold keyword_usage_analysis, keyword_outcome. destruct st as [score msgs].
  destruct kd as [| [w d] rest]; cbn [fst snd].
  - cbn [points messages]. rewrite Z.add_0_r, app_nil_r. reflexivity.
  - destruct (Qltb 5 (max_value d rest));
      [| destruct (Qltb (max_value d rest) (1 # 2))];
      cbn [points messages]; rewrite ?Z.add_0_r, ?app_nil_r; reflexivity.
Qed.

(** Each check is skipped, or adds 25 points, or appends one message. *)
Lemma outcome_exclusive (o : Outcome) :
  (o = Skipped /\ points o = 0%Z /\ messages o = [])
  \/ (o = Awarded /\ points o = 25%Z /\ messages o = [])
  \/ (exists m, o = Flagged m /\ points o = 0%Z /\ messages o = [m]).
Proof.
  destruct o as [| | m].
  - left. repeat split.
  - right. left. repeat split.
  - right. right. exists m. repeat split.
Qed.

(** ** The largest density *)

Lemma py_max_ge_l (a b : Q) : (a <= py_max a b)%Q.
Proof.
  unfold py_max. destruct (Qltb a b) eqn:E.
  - apply Qltb_lt in E. lra.
  - apply Qle_refl.
Qed.

Lemma py_max_ge_r (a b : Q) : (b <= py_max a b)%Q.
Proof.
  unfold py_max. destruct (Qltb a b) eqn:E.
  - apply Qle_refl.
  - apply Qltb_ge in E. exact E.
Qed.

Lemma max_value_ge_first (rest : list (string * Q)) (d : Q) :
  (d <= max_value d rest)%Q.
Proof.
  unfold max_value. revert d.
  induction rest as [| [w x] rest IH]; intro d; simpl.
  - apply Qle_refl.
  - eapply Qle_trans; [apply (py_max_ge_l d x) | apply IH].
Qed.

Lemma max_value_ge_rest (rest : list (string * Q)) (d : Q) :
  forall w x, In (w, x) rest -> (x <= max_value d rest)%Q.
Proof.
  unfold max_value. revert d.
  induction rest as [| [w' x'] rest IH]; intros d w x Hin; simpl in *.
  - contradiction.
  - destruct Hin as [E | Hin].
    + injection E as _ E. subst x'.
      eapply Qle_trans; [apply (py_max_ge_r d x) |].
      apply (max_value_ge_first rest).
    + apply (IH _ w x Hin).
Qed.

Lemma max_value_attained (rest : list (string * Q)) (d : Q) :
  max_value d rest = d \/ exists w, In (w, max_value d rest) rest.
Proof.
  unfold max_value. revert d.
  induction rest as [| [w' x'] rest IH]; intro d; simpl.
  - left. reflexivity.
  - destruct (IH (py_max d x')) as [E | [w Hw]].
    + rewrite E. unfold py_max. destruct (Qltb d x').
      * right. exists w'. left. reflexivity.
      * left. reflexivity.
    + right. exists w. right. exact Hw.
Qed.

Lemma max_value_is_max (w : string) (d : Q) (rest : list (string * Q)) :
  is_max_density (max_value d rest) ((w, d) :: rest).
Proof.
  split.
  - destruct (max_value_attained rest d) as [E | [w' Hw]].
    + exists w, d. split; [left; reflexivity | rewrite E; reflexivity].
    + exists w', (max_value d rest). split; [right; exact Hw | reflexivity].
  - intros w' x [E | Hin].
    + injection E as _ E. subst x. apply max_value_ge_first.
    + apply (max_value_ge_rest rest d w' x Hin).
Qed.

Lemma is_max_density_unique (kd : list (string * Q)) (m m' : Q) :
  is_max_density m kd -> is_max_density m' kd -> (m == m')%Q.
Proof.
  intros [[w [d [Hin Hd]]] Hub] [[w' [d' [Hin' Hd']]] Hub'].
  pose proof (Hub w' d' Hin'). pose proof (Hub' w d Hin). lra.
Qed.

(** The keyword check by the largest density [m]: the bounds 0.5 and 5
    are inside the awarded range. *)
Lemma keyword_outcome_cases (kd : list (string * Q)) (m : Q) :
  is_max_density m kd ->
  ((1 # 2 <= m <= 5)%Q -> keyword_outcome kd = Awarded) /\
  ((5 < m)%Q ->
   keyword_outcome kd = Flagged "Keyword stuffing detected (density > 5%)") /\
  ((m < 1 # 2)%Q ->
   keyword_outcome kd = Flagged "Main keyword usage is too low (< 0.5%)").
Proof.
  intro Hm. destruct kd as [| [w d] rest].
  - destruct Hm as [[w [d [Hin _]]] _]. contradiction.
  - pose proof (is_max_density_unique _ _ _ (max_value_is_max w d rest) Hm) as E.
    unfold keyword_outcome. set (M := max_value d rest) in *.
    repeat split.
    + intros [H1 H2].
      assert (E1 : Qltb 5 M = false) by (apply Qltb_ge; lra).
      assert (E2 : Qltb M (1 # 2) = false) by (apply Qltb_ge; lra).
      rewrite E1, E2. reflexivity.
    + intro H.
      assert (E1 : Qltb 5 M = true) by (apply Qltb_lt; lra).
      rewrite E1. reflexivity.
    + intro H.
      assert (E1 : Qltb 5 M = false) by (apply Qltb_ge; lra).
      assert (E2 : Qltb M (1 # 2) = true) by (apply Qltb_lt; lra).
      rewrite E1, E2. reflexivity.
Qed.

(** ** [_optimize_seo] and [run] return *)

Lemma optimize_seo_ok (TextBlob : string -> Blob) (content : Content) :
  exists r,
    _optimize_seo TextBlob content = Ok r /\
    seo_score r
    = (points (title_outcome content) + points (description_outcome content)
       + points (tags_outcome content)
       + points (keyword_outcome (keyword_density r)))%Z /\
    improvement_areas r
    = messages (title_outcome content)
      ++ messages (description_outcome content)
      ++ messages (tags_outcome content)
      ++ messages (keyword_outcome (keyword_density r)).
Proof.
  unfold _optimize_seo.
  destruct (keyword_density_ok
              (findall_words EmptyString (lower (all_text_of content))))
    as [kd Hkd].
  rewrite Hkd. cbn [bind].
  set (blob := TextBlob (all_text_of content)).
  assert (Hr : exists score, _calculate_readability blob = Ok score).
  { destruct (sentences blob) eqn:Es.
    - exists 0%Q. apply readability_guarded. left. exact Es.
    - destruct (words blob) eqn:Ew.
      + exists 0%Q. apply readability_guarded. right. exact Ew.
      + destruct (readability_scored blob) as [score [Hs _]];
          [rewrite Es; discriminate | rewrite Ew; discriminate |].
        exists score. exact Hs. }
  destruct Hr as [score Hscore]. rewrite Hscore. cbn [bind].
  eexists. split; [reflexivity |].
  cbn [seo_score improvement_areas keyword_density].
  rewrite keyword_usage_outcome, tags_analysis_outcome,
    description_analysis_outcome, title_analysis_outcome.
  cbn [fst snd]. split; [ring | rewrite !app_assoc; reflexivity].
Qed.

End ContentFacts.

Module ContentClaims.
Import ContentOptimizer.
Import ContentFacts.

Local Open Scope string_scope.

(** C5.  The readability score is the Flesch Reading Ease value
    [206.835 - 1.015 * (words / sentences) - 84.6 * (syllables / words)]
    clamped to [0, 100], where the syllables of a word are its vowel runs,
    minus one if it ends in "e", at least 1; when there is no sentence or
    no word (as for the empty text) the score is exactly 0, and in no case
    is a division by zero raised. *)
Theorem readability_is_clamped_flesch (blob : Blob) :
  let W := Z.of_nat (List.length (words blob)) in
  let S := Z.of_nat (List.length (sentences blob)) in
  let Y := fold_right Z.add 0%Z (map syllables_spec (words blob)) in
  (forall word, _count_syllables word = syllables_spec word) /\
  exists score,
    _calculate_readability blob = Ok score /\
    (0 <= score <= 100)%Q /\
    (S = 0%Z \/ W = 0%Z -> score = 0%Q) /\
    (S <> 0%Z -> W <> 0%Z ->
     (score == clamp 0 100 (flesch_reading_ease W S Y))%Q).
Proof.
  intros W S Y. split; [exact count_syllables_spec |].
  destruct (sentences blob) as [| s ss] eqn:Es.
  - exists 0%Q. split; [apply readability_guarded; left; exact Es |].
    split; [lra |]. split; [reflexivity |].
    intros HS. exfalso. apply HS. reflexivity.
  - destruct (words blob) as [| w ws] eqn:Ew.
    + exists 0%Q. split; [apply readability_guarded; right; exact Ew |].
      split; [lra |]. split; [reflexivity |].
      intros _ HW. exfalso. apply HW. reflexivity.
    + destruct (readability_scored blob) as [score [Hs Hc]];
        [rewrite Es; discriminate | rewrite Ew; discriminate |].
      exists score. split; [exact Hs |].
      split; [rewrite Hc; apply clamp_bounds; lra |].
      split.
      * intros [H | H]; exfalso; [unfold S in H | unfold W in H];
          simpl in H; lia.
      * intros _ _. rewrite Es, Ew in Hc. exact Hc.
Qed.

Lemma readability_is_clamped_flesch_witness :
  _calculate_readability {| sentences := []; words := [] |} = Ok 0%Q /\
  exists score,
    _calculate_readability
      {| sentences := ["The cat sat."]; words := ["The"; "cat"; "sat"] |}
    = Ok score /\ (score == 100)%Q.
Proof.
  split.
  - destruct (readability_is_clamped_flesch {| sentences := []; words := [] |})
      as [_ [score [Hs [_ [Hz _]]]]].
    rewrite Hs. rewrite Hz; [reflexivity | left; reflexivity].
  - destruct (readability_is_clamped_flesch
                {| sentences := ["The cat sat."];
                   words := ["The"; "cat"; "sat"] |})
      as [_ [score [Hs [_ [_ Hf]]]]].
    exists score. split; [exact Hs |].
    rewrite Hf; [reflexivity | discriminate | discriminate].
Defined.

(** C6, as stated, fails: with a largest keyword density of exactly 5%,
    which is not strictly below 5%, the keyword check still awards its
    25 points (and appends nothing). *)
Lemma density_of_exactly_five_is_awarded :
  exists r m,
    _optimize_seo no_text twenty_words = Ok r /\
    is_max_density m (keyword_density r) /\
    (m == 5)%Q /\ ~ (m < 5)%Q /\
    keyword_outcome (keyword_density r) = Awarded /\
    seo_score r = 50%Z /\ improvement_areas r = [].
Proof.
  eexists. exists 5%Q. split; [vm_compute; reflexivity |].
  cbn [keyword_density seo_score improvement_areas].
  split.
  - split.
    + exists "a", (100 # 20)%Q. split; [left; reflexivity | reflexivity].
    + intros w d Hin. simpl in Hin.
      repeat (destruct Hin as [E | Hin];
              [injection E as _ E; subst d; unfold Qle; simpl; lia |]).
      contradiction.
  - split; [reflexivity |]. split; [intro H; lra |].
    repeat split.
Qed.

(** C6 (amended).  [_optimize_seo] always returns; each of its four checks
    is skipped when its field is missing (for the keyword check: when the
    density map is empty) and otherwise either adds exactly 25 points or
    appends exactly one message, so that the score is the sum of the
    points and the messages are those of the failed checks, in order.  The
    keyword check awards its points exactly when the largest density [m]
    satisfies [0.5 <= m <= 5], appends "keyword stuffing" when [m > 5] and
    "usage too low" when [m < 0.5]. *)
Theorem seo_checks (TextBlob : string -> Blob) (content : Content) :
  exists r,
    _optimize_seo TextBlob content = Ok r /\
    let checks := [title_outcome content; description_outcome content;
                   tags_outcome content; keyword_outcome (keyword_density r)] in
    seo_score r = fold_right Z.add 0%Z (map points checks) /\
    improvement_areas r = flat_map messages checks /\
    (forall o, In o checks ->
       (o = Skipped /\ points o = 0%Z /\ messages o = [])
       \/ (o = Awarded /\ points o = 25%Z /\ messages o = [])
       \/ (exists msg, o = Flagged msg /\ points o = 0%Z /\ messages o = [msg])) /\
    (title_outcome content = Skipped <-> title content = None) /\
    (description_outcome content = Skipped <-> description content = None) /\
    (tags_outcome content = Skipped <-> tags content = None) /\
    (keyword_outcome (keyword_density r) = Skipped <-> keyword_density r = []) /\
    (forall m, is_max_density m (keyword_density r) ->
       (keyword_outcome (keyword_density r) = Awarded
        <-> (1 # 2 <= m <= 5)%Q) /\
       (keyword_outcome (keyword_density r)
        = Flagged "Keyword stuffing detected (density > 5%)"
        <-> (5 < m)%Q) /\
       (keyword_outcome (keyword_density r)
        = Flagged "Main keyword usage is too low (< 0.5%)"
        <-> (m < 1 # 2)%Q)).
Proof.
  destruct (optimize_seo_ok TextBlob content) as [r [Hr [Hscore Hmsgs]]].
  exists r. split; [exact Hr |]. intro checks.
  split; [rewrite Hscore; unfold checks; simpl; ring |].
  split; [rewrite Hmsgs; unfold checks; simpl; rewrite app_nil_r; reflexivity |].
  split; [intros o _; apply outcome_exclusive |].
  split.
  { unfold title_outcome. destruct (title content) as [t |].
    - split; [| discriminate].
      destruct (String.length t <? 30)%nat;
        [| destruct (60 <? String.length t)%nat]; discriminate.
    - split; reflexivity. }
  split.
  { unfold description_outcome. destruct (description content) as [d |].
    - split; [| discriminate].
      destruct (String.length d <? 100)%nat;
        [| destruct (5000 <? String.length d)%nat]; discriminate.
    - split; reflexivity. }
  split.
  { unfold tags_outcome. destruct (tags content) as [ts |].
    - split; [| discriminate].
      destruct (List.length ts <? 5)%nat; discriminate.
    - split; reflexivity. }
  split.
  { unfold keyword_outcome. destruct (keyword_density r) as [| [w d] rest].
    - split; reflexivity.
    - split; [| discriminate].
      destruct (Qltb 5 (max_value d rest));
        [| destruct (Qltb (max_value d rest) (1 # 2))]; discriminate. }
  intros m Hm.
  destruct (keyword_outcome_cases (keyword_density r) m Hm) as [Ha [Hs Hl]].
  destruct (Qlt_le_dec 5 m) as [H5 | H5].
  - rewrite (Hs H5).
    split; [split; [discriminate | lra] |].
    split; [split; [intros _; exact H5 | reflexivity] |].
    split; [discriminate | lra].
  - destruct (Qlt_le_dec m (1 # 2)) as [Hh | Hh].
    + rewrite (Hl Hh).
      split; [split; [discriminate | lra] |].
      split; [split; [discriminate | lra] |].
      split; [intros _; exact Hh | reflexivity].
    + rewrite (Ha (conj Hh H5)).
      split; [split; [intros _; split; assumption | reflexivity] |].
      split; [split; [discriminate | lra] |].
      split; [discriminate | lra].
Qed.

Lemma seo_checks_witness :
  exists r,
    _optimize_seo no_text
      {| title := Some "AI"; description := None; tags := None;
         script := None |} = Ok r /\
    seo_score r = 0%Z /\
    improvement_areas r
    = ["Title is too short (< 30 characters)";
       "Keyword stuffing detected (density > 5%)"].
Proof.
  destruct (seo_checks no_text
              {| title := Some "AI"; description := None; tags := None;
                 script := None |}) as [r [Hr [Hscore [Hmsgs _]]]].
  exists r. split; [exact Hr |].
  assert (E : keyword_density r = [("ai", 100%Q)]).
  { vm_compute in Hr. injection Hr as Hr. rewrite <- Hr. reflexivity. }
  rewrite Hscore, Hmsgs, E. split; reflexivity.
Defined.




End ContentClaims.

(** * The Sentiment Aggregator *)

Lemma dict_get_set {V : Type} (k t : string) (v : V) (d : list (string * V)) :
  dict_get t (dict_set k v d)
  = if String.eqb t k then Some v else dict_get t d.
Proof.
  induction d as [| [k' v'] d IH]; simpl.
  - reflexivity.
  - destruct (String.eqb k k') eqn:Ek; simpl.
    + apply String.eqb_eq in Ek. subst k'.
      destruct (String.eqb t k); reflexivity.
    + rewrite IH. destruct (String.eqb t k') eqn:Et; [| reflexivity].
      apply String.eqb_eq in Et. subst k'.
      destruct (String.eqb t k) eqn:Etk; [| reflexivity].
      apply String.eqb_eq in Etk. subst k.
      rewrite String.eqb_refl in Ek. discriminate.
Qed.

Module SentimentFacts.
Import SentimentAnalyzer.

Lemma match_here_dot_free (pat text : string) :
  dot_free pat = true -> match_here true pat text = match_here false pat text.
Proof.
  revert text. induction pat as [| p pat IH]; intros text H; [reflexivity |].
  simpl in H. apply andb_true_iff in H. destruct H as [Hp Hrest].
  destruct text as [| c text]; [reflexivity |].
  cbn [match_here]. rewrite (IH text Hrest).
  unfold char_matches. apply negb_true_iff in Hp. rewrite Hp. reflexivity.
Qed.

Lemma search_dot_free (pat text : string) :
  dot_free pat = true -> search_ci pat text = contains_ci pat text.
Proof.
  intro H. unfold search_ci, contains_ci.
  induction text as [| c text IH]; cbn [search_from];
    rewrite (match_here_dot_free pat _ H); [reflexivity |].
  rewrite IH. reflexivity.
Qed.

(** The attribution loop, when every topic compiles to a matcher. *)
Lemma topic_sentiment_loop_spec
  (blob_polarity : string -> Q) (matches : string -> string -> bool)
  (re_compile_ignorecase : string -> result (string -> bool))
  (df : list Comment) :
  df <> [] ->
  (forall pat, re_compile_ignorecase pat = Ok (matches pat)) ->
  forall topics acc,
  exists out,
    topic_sentiment_loop blob_polarity re_compile_ignorecase df topics acc
    = Ok out /\
    forall t,
      dict_get t out
      = if existsb (String.eqb t) topics
        then match attribution_of blob_polarity matches df t with
             | Some v => Some v
             | None => dict_get t acc
             end
        else dict_get t acc.
Proof.
  intros Hne Hre topics.
  induction topics as [| topic rest IH]; intro acc.
  - exists acc. split; reflexivity.
  - cbn [topic_sentiment_loop]. unfold topic_comments_of.
    destruct df as [| c0 df0] eqn:Edf; [contradiction |].
    cbn [column bind]. rewrite Hre. cbn [bind]. rewrite <- Edf in *.
    destruct (filter (fun c => matches topic (text c)) df) as [| s sel] eqn:Ef.
    + destruct (IH acc) as [out [Hout Hget]]. exists out.
      split; [exact Hout |]. intro t. rewrite Hget. cbn [existsb].
      destruct (String.eqb t topic) eqn:Et; [| reflexivity].
      apply String.eqb_eq in Et. subst t. cbn [orb].
      unfold attribution_of. rewrite Ef.
      destruct (existsb (String.eqb topic) rest); reflexivity.
    + destruct (IH (dict_set topic
                      (sumQ (map (fun c => blob_polarity (text c)) (s :: sel))
                       / lenQ (map (fun c => blob_polarity (text c)) (s :: sel)))%Q
                      acc)) as [out [Hout Hget]].
      exists out. split; [exact Hout |]. intro t. rewrite Hget.
      rewrite dict_get_set. cbn [existsb].
      destruct (String.eqb t topic) eqn:Et; [| reflexivity].
      apply String.eqb_eq in Et. subst t. cbn [orb].
      unfold attribution_of. rewrite Ef.
      destruct (existsb (String.eqb topic) rest); reflexivity.
Qed.

Lemma topic_sentiment_loop_total
  (blob_polarity : string -> Q)
  (re_compile_ignorecase : string -> result (string -> bool))
  (df : list Comment) :
  df <> [] ->
  (forall pat, exists contains, re_compile_ignorecase pat = Ok contains) ->
  forall topics acc,
  exists out,
    topic_sentiment_loop blob_polarity re_compile_ignorecase df topics acc
    = Ok out.
Proof.
  intros Hne Hre topics.
  induction topics as [| topic rest IH]; intro acc.
  - exists acc. reflexivity.
  - cbn [topic_sentiment_loop]. unfold topic_comments_of.
    destruct df as [| c0 df0] eqn:Edf; [contradiction |].
    cbn [column bind]. destruct (Hre topic) as [contains Hc].
    rewrite Hc. cbn [bind]. rewrite <- Edf in *.
    destruct (filter (fun c => contains (text c)) df); apply IH.
Qed.

Lemma map_result_ok {A B : Type} (f : A -> result B) (l : list A) :
  (forall a, In a l -> exists b, f a = Ok b) ->
  exists bs, map_result f l = Ok bs.
Proof.
  induction l as [| a l IH]; intro H.
  - exists []. reflexivity.
  - destruct (H a (or_introl eq_refl)) as [b Hb].
    destruct IH as [bs Hbs]; [intros x Hx; apply H; right; exact Hx |].
    cbn [map_result]. rewrite Hb, Hbs. eexists. reflexivity.
Qed.

Lemma column_nonempty {Row A : Type} (name : string) (field : Row -> A)
  (df : list Row) :
  df <> [] -> column name field df = Ok (map field df).
Proof.
  destruct df; [contradiction | reflexivity].
Qed.

Section RunReturns.

Variables blob_polarity blob_subjectivity : string -> Q.
Variable sentiment_analyzer : string -> string * Q.
Variables sent_tokenize word_tokenize : string -> list string.
Variable pos_tag : list string -> list (string * string).
Variable to_date : string -> result Z.
Variable re_compile_ignorecase : string -> result (string -> bool).

(** On one comment or more, [run] returns as soon as every timestamp is
    read and every topic compiles to a pattern. *)
Lemma run_returns (comments_data : list Comment) :
  comments_data <> [] ->
  (forall c, In c comments_data ->
             exists d, to_date (published_at c) = Ok d) ->
  (forall pat, exists contains, re_compile_ignorecase pat = Ok contains) ->
  exists r,
    run blob_polarity blob_subjectivity sentiment_analyzer sent_tokenize
        word_tokenize pos_tag to_date re_compile_ignorecase comments_data
    = Ok r /\
    total_comments (engagement_metrics r)
    = Z.of_nat (List.length comments_data) /\
    top_topics (key_themes r)
    = most_common 10
        (Counter (extract_topics word_tokenize pos_tag
                    (flat_map sent_tokenize (map text comments_data)))) /\
    topic_sentiment_loop blob_polarity re_compile_ignorecase comments_data
      (dict_keys (top_topics (key_themes r))) []
    = Ok (topic_sentiment (key_themes r)).
Proof.
  intros Hne Hdates Hre. unfold run.
  rewrite (column_nonempty "text" text comments_data Hne). cbn [bind].
  assert (Hs : map (sentiment_of blob_polarity blob_subjectivity
                      sentiment_analyzer) (map text comments_data) <> []).
  { destruct comments_data; [contradiction | discriminate]. }
  rewrite (column_nonempty "polarity" polarity _ Hs),
    (column_nonempty "subjectivity" subjectivity _ Hs),
    (column_nonempty "label" label _ Hs).
  cbn [bind].
  rewrite (column_nonempty "likes" likes comments_data Hne),
    (column_nonempty "published_at" published_at comments_data Hne).
  cbn [bind].
  destruct (map_result_ok to_date (map published_at comments_data))
    as [dates Hd].
  { intros p Hp. apply in_map_iff in Hp. destruct Hp as [c [Hc Hin]].
    subst p. apply Hdates. exact Hin. }
  rewrite Hd. cbn [bind].
  destruct (topic_sentiment_loop_total blob_polarity re_compile_ignorecase
              comments_data Hne Hre
              (dict_keys (most_common 10
                 (Counter (extract_topics word_tokenize pos_tag
                    (flat_map sent_tokenize (map text comments_data))))))
              []) as [out Hout].
  rewrite Hout. cbn [bind].
  eexists. split; [reflexivity |].
  cbn [engagement_metrics total_comments key_themes top_topics topic_sentiment].
  split; [reflexivity |]. split; [reflexivity | exact Hout].
Qed.

End RunReturns.

End SentimentFacts.

Module SentimentClaims.
Import SentimentAnalyzer.
Import SentimentFacts.

Local Open Scope string_scope.

(** C3: with no comments the frame has no [text] column, and the first
    statement that reads it (line 89) raises [KeyError], whatever the
    language backends are; no aggregate is returned.  With one comment or
    more the same statement succeeds, and [run] returns its aggregates
    (provided the timestamps are read and the topics compile to
    patterns). *)
Theorem run_on_no_comments_raises
  (blob_polarity blob_subjectivity : string -> Q)
  (sentiment_analyzer : string -> string * Q)
  (sent_tokenize word_tokenize : string -> list string)
  (pos_tag : list string -> list (string * string))
  (to_date : string -> result Z)
  (re_compile_ignorecase : string -> result (string -> bool)) :
  run blob_polarity blob_subjectivity sentiment_analyzer sent_tokenize
      word_tokenize pos_tag to_date re_compile_ignorecase []
  = Raise (KeyError "text") /\
  forall comments_data,
    comments_data <> [] ->
    (forall c, In c comments_data ->
               exists d, to_date (published_at c) = Ok d) ->
    (forall pat, exists contains, re_compile_ignorecase pat = Ok contains) ->
    exists r,
      run blob_polarity blob_subjectivity sentiment_analyzer sent_tokenize
          word_tokenize pos_tag to_date re_compile_ignorecase comments_data
      = Ok r /\
      total_comments (engagement_metrics r)
      = Z.of_nat (List.length comments_data).
Proof.
  split; [reflexivity |].
  intros comments_data Hne Hdates Hre.
  destruct (run_returns blob_polarity blob_subjectivity sentiment_analyzer
              sent_tokenize word_tokenize pos_tag to_date
              re_compile_ignorecase comments_data Hne Hdates Hre)
    as [r [Hr [Hn _]]].
  exists r. split; assumption.
Qed.

Lemma run_on_no_comments_raises_witness :
  run_with polarity_of link_tags [] = Raise (KeyError "text") /\
  exists r,
    run_with polarity_of link_tags [comment_with_link] = Ok r /\
    total_comments (engagement_metrics r) = 1%Z.
Proof.
  destruct (run_on_no_comments_raises polarity_of (fun _ => 0%Q)
              (fun _ => ("POSITIVE", 1%Q)) (fun text => [text])
              (split_spaces EmptyString) (tag_from link_tags)
              (fun _ => Ok 0%Z) (fun pat => Ok (search_ci pat)))
    as [Hraise Hok].
  split; [exact Hraise |].
  destruct (Hok [comment_with_link]) as [r [Hr Hn]];
    [discriminate | intros c _; eexists; reflexivity
     | intro pat; eexists; reflexivity |].
  exists r. split; [exact Hr | exact Hn].
Defined.

(** ** Topic attribution *)

(** C7: for each of the top topics the attribution is the mean polarity
    of the comments that the topic, compiled as a case-insensitive regular
    expression, matches, and a topic that matches no comment is omitted.
    The match is not the substring test: the topic "youtube.com" is a
    substring of the first comment only, whose polarity is 0.8; but the dot
    of the pattern matches the space of "youtube com", and the attribution
    is the mean over both comments, -0.1. *)
Theorem topic_attribution_reads_topic_as_regex :
  (forall (blob_polarity blob_subjectivity : string -> Q)
          (sentiment_analyzer : string -> string * Q)
          (sent_tokenize word_tokenize : string -> list string)
          (pos_tag : list string -> list (string * string))
          (to_date : string -> result Z)
          (re_compile_ignorecase : string -> result (string -> bool))
          (matches : string -> string -> bool)
          (comments_data : list Comment),
      comments_data <> [] ->
      (forall c, In c comments_data ->
                 exists d, to_date (published_at c) = Ok d) ->
      (forall pat, re_compile_ignorecase pat = Ok (matches pat)) ->
      exists r,
        run blob_polarity blob_subjectivity sentiment_analyzer sent_tokenize
            word_tokenize pos_tag to_date re_compile_ignorecase comments_data
        = Ok r /\
        forall topic,
          dict_get topic (topic_sentiment (key_themes r))
          = if existsb (String.eqb topic) (dict_keys (top_topics (key_themes r)))
            then attribution_of blob_polarity matches comments_data topic
            else None) /\
  contains_ci "youtube.com" (text comment_with_link) = true /\
  contains_ci "youtube.com" (text comment_without_link) = false /\
  search_ci "youtube.com" (text comment_without_link) = true /\
  exists r v,
    run_with polarity_of link_tags [comment_with_link; comment_without_link]
    = Ok r /\
    top_topics (key_themes r)
    = [("youtube.com", 1%Z); ("great", 1%Z); ("youtube com", 1%Z);
       ("terrible", 1%Z)] /\
    dict_get "youtube.com" (topic_sentiment (key_themes r)) = Some v /\
    (v == - (1 # 10))%Q /\
    ~ (v == polarity_of (text comment_with_link))%Q.
Proof.
  split.
  { intros blob_polarity blob_subjectivity sentiment_analyzer sent_tokenize
      word_tokenize pos_tag to_date re_compile_ignorecase matches
      comments_data Hne Hdates Hre.
    destruct (run_returns blob_polarity blob_subjectivity sentiment_analyzer
                sent_tokenize word_tokenize pos_tag to_date
                re_compile_ignorecase comments_data Hne Hdates)
      as [r [Hr [_ [_ Hloop]]]].
    { intro pat. exists (matches pat). apply Hre. }
    exists r. split; [exact Hr |]. intro topic.
    destruct (topic_sentiment_loop_spec blob_polarity matches
                re_compile_ignorecase comments_data Hne Hre
                (dict_keys (top_topics (key_themes r))) [])
      as [out [Hout Hget]].
    rewrite Hloop in Hout. injection Hout as Hout. subst out.
    rewrite Hget.
    destruct (existsb (String.eqb topic) (dict_keys (top_topics (key_themes r))));
      [| reflexivity].
    destruct (attribution_of blob_polarity matches comments_data topic);
      reflexivity. }
  split; [reflexivity |]. split; [reflexivity |]. split; [reflexivity |].
  eexists. eexists. split; [vm_compute; reflexivity |].
  cbn [key_themes top_topics topic_sentiment].
  split; [reflexivity |]. split; [reflexivity |].
  split; [reflexivity |]. intro H. discriminate H.
Qed.

Lemma topic_attribution_reads_topic_as_regex_witness :
  exists r,
    run_with polarity_of link_tags [comment_with_link] = Ok r /\
    dict_get "great" (topic_sentiment (key_themes r))
    = attribution_of polarity_of search_ci [comment_with_link] "great".
Proof.
  destruct topic_attribution_reads_topic_as_regex as [Hgen _].
  destruct (Hgen polarity_of (fun _ => 0%Q)
              (fun _ => ("POSITIVE", 1%Q)) (fun text => [text])
              (split_spaces EmptyString) (tag_from link_tags)
              (fun _ => Ok 0%Z) (fun pat => Ok (search_ci pat)) search_ci
              [comment_with_link])
    as [r [Hr Hget]];
    [discriminate | intros c _; eexists; reflexivity | reflexivity |].
  exists r. split; [exact Hr |].
  rewrite (Hget "great").
  assert (E : top_topics (key_themes r) = [("youtube.com", 1%Z); ("great", 1%Z)]).
  { vm_compute in Hr. injection Hr as Hr. rewrite <- Hr. reflexivity. }
  rewrite E. reflexivity.
Defined.

End SentimentClaims.

(** * Rounding to [float64] *)

Module Float64Facts.

Lemma rint_near (q : Q) :
  (inject_Z (rint q) - (1 # 2) <= q <= inject_Z (rint q) + (1 # 2))%Q.
Proof.
  unfold rint.
  pose proof (Qfloor_le q) as Hlo. pose proof (Qlt_floor q) as Hhi.
  set (f := Qfloor q) in *.
  rewrite inject_Z_plus in Hhi. change (inject_Z 1) with 1%Q in Hhi.
  destruct (Qltb (q - inject_Z f) (1 # 2)) eqn:E1.
  - apply Qltb_lt in E1. lra.
  - apply Qltb_ge in E1.
    destruct (Qltb (1 # 2) (q - inject_Z f)) eqn:E2.
    + rewrite inject_Z_plus. change (inject_Z 1) with 1%Q. lra.
    + apply Qltb_ge in E2.
      destruct (Z.even f);
        [| rewrite inject_Z_plus; change (inject_Z 1) with 1%Q]; lra.
Qed.

(** ** Powers of two and the binade of a rational *)

Lemma two_power_pos (e : Z) : (0 < 2 ^ e)%Q.
Proof. apply Qpower_0_lt. reflexivity. Qed.

Lemma two_power_succ (e : Z) : (2 ^ (e + 1) == 2 * 2 ^ e)%Q.
Proof.
  rewrite Qpower_plus by discriminate. change (2 ^ 1)%Q with 2%Q. ring.
Qed.

Lemma log2_bounds (a : Z) :
  (0 < a)%Z ->
  (2 ^ Z.log2 a <= inject_Z a < 2 ^ (Z.log2 a + 1))%Q.
Proof.
  intro Ha. destruct (Z.log2_spec a Ha) as [H1 H2].
  pose proof (Z.log2_nonneg a) as H0.
  split.
  - rewrite <- (Zpower_Qpower 2 (Z.log2 a)) by exact H0.
    rewrite <- Zle_Qle. exact H1.
  - rewrite <- (Zpower_Qpower 2 (Z.log2 a + 1)) by lia.
    rewrite <- Zlt_Qlt. replace (Z.log2 a + 1)%Z with (Z.succ (Z.log2 a)) by lia.
    exact H2.
Qed.

Lemma Qabs_frac (q : Q) :
  (Qabs q == inject_Z (Z.abs (Qnum q)) / inject_Z (Zpos (Qden q)))%Q.
Proof.
  destruct q as [n d]. unfold Qabs. cbn [Qnum Qden].
  rewrite (Qmake_Qdiv (Z.abs n) d). reflexivity.
Qed.

Lemma ilog2_spec (q : Q) :
  ~ (q == 0)%Q -> (2 ^ ilog2 q <= Qabs q < 2 ^ (ilog2 q + 1))%Q.
Proof.
  intro Hq.
  assert (Ha : (0 < Z.abs (Qnum q))%Z).
  { destruct q as [n d]. cbn [Qnum]. unfold Qeq in Hq. cbn in Hq. lia. }
  destruct (log2_bounds _ Ha) as [A1 A2].
  destruct (log2_bounds (Zpos (Qden q)) ltac:(lia)) as [D1 D2].
  pose proof (Qabs_frac q) as Hf.
  set (A := inject_Z (Z.abs (Qnum q))) in *.
  set (D := inject_Z (Zpos (Qden q))) in *.
  set (la := Z.log2 (Z.abs (Qnum q))) in *.
  set (ld := Z.log2 (Zpos (Qden q))) in *.
  assert (HD : (0 < D)%Q).
  { eapply Qlt_le_trans; [apply (two_power_pos ld) | exact D1]. }
  assert (Hup : (Qabs q < 2 ^ (la - ld + 1))%Q).
  { rewrite Hf. apply Qlt_shift_div_r; [exact HD |].
    replace (la - ld + 1)%Z with ((la + 1) - ld)%Z by lia.
    rewrite Qpower_minus by discriminate.
    pose proof (two_power_pos ld) as P1. pose proof (two_power_pos (la + 1)) as P2.
    apply Qlt_le_trans with (2 ^ (la + 1))%Q; [exact A2 |].
    setoid_replace (2 ^ (la + 1))%Q with (2 ^ (la + 1) / 2 ^ ld * 2 ^ ld)%Q at 1
      by (field; lra).
    apply Qmult_le_l; [| exact D1].
    apply Qlt_shift_div_l; [exact P1 | lra]. }
  assert (Hlo : (2 ^ (la - ld - 1) <= Qabs q)%Q).
  { rewrite Hf. apply Qle_shift_div_l; [exact HD |].
    replace (la - ld - 1)%Z with (la - (ld + 1))%Z by lia.
    rewrite Qpower_minus by discriminate.
    pose proof (two_power_pos (ld + 1)) as P1. pose proof (two_power_pos la) as P2.
    apply Qle_trans with (2 ^ la)%Q; [| exact A1].
    setoid_replace (2 ^ la)%Q with (2 ^ la / 2 ^ (ld + 1) * 2 ^ (ld + 1))%Q at 2
      by (field; lra).
    apply Qmult_le_l; [| apply Qlt_le_weak; exact D2].
    apply Qlt_shift_div_l; [exact P1 | lra]. }
  unfold ilog2. fold la ld.
  destruct (Qle_bool (2 ^ (la - ld)) (Qabs q)) eqn:E.
  - apply Qle_bool_iff in E. split; assumption.
  - assert (E' : (Qabs q < 2 ^ (la - ld))%Q).
    { apply Qnot_le_lt. intro H. apply Qle_bool_iff in H. congruence. }
    split; [exact Hlo |].
    replace (la - ld - 1 + 1)%Z with (la - ld)%Z by lia. exact E'.
Qed.

Lemma float64_near (q : Q) :
  (Qabs (float64 q - q) <= Qabs q * (1 # 2 ^ 53))%Q.
Proof.
  unfold float64. destruct (Qeq_bool q 0) eqn:E.
  - apply Qeq_bool_iff in E. rewrite E. discriminate.
  - assert (Hq : ~ (q == 0)%Q).
    { intro H. apply Qeq_bool_iff in H. congruence. }
    destruct (ilog2_spec q Hq) as [Hlo _].
    set (e := ilog2 q) in *.
    pose proof (two_power_pos (e - 52)) as HU.
    set (U := (2 ^ (e - 52))%Q) in *.
    pose proof (rint_near (q / U)) as Hr.
    set (k := inject_Z (rint (q / U))) in *.
    assert (HE : (2 ^ e == U * inject_Z (2 ^ 52))%Q).
    { unfold U. rewrite (Zpower_Qpower 2 52) by lia.
      rewrite <- Qpower_plus by discriminate.
      replace (e - 52 + 52)%Z with e by lia. reflexivity. }
    assert (Hy : (q == q / U * U)%Q) by (field; lra).
    apply Qle_trans with (U * (1 # 2))%Q.
    + apply Qabs_Qle_condition.
      setoid_replace (k * U - q)%Q with ((k - q / U) * U)%Q by (field; lra).
      split; nra.
    + rewrite HE in Hlo.
      setoid_replace (U * (1 # 2))%Q
        with (U * inject_Z (2 ^ 52) * (1 # 2 ^ 53))%Q by (vm_compute (inject_Z _); vm_compute (1 # 2^53)%Q; ring).
      apply Qmult_le_compat_r; [exact Hlo | discriminate].
Qed.

Lemma Qabs_pos_lt (q : Q) : ~ (q == 0)%Q -> (0 < Qabs q)%Q.
Proof.
  intro Hq. destruct (Qlt_le_dec q 0) as [H | H].
  - rewrite Qabs_neg by lra. lra.
  - rewrite Qabs_pos by exact H. lra.
Qed.

Lemma float64_within (q : Q) : within (1 # 2 ^ 53) (float64 q) q.
Proof.
  destruct (Qeq_dec q 0) as [E | Hq].
  - exists 0%Q. split; [split; discriminate |].
    unfold float64. apply Qeq_bool_iff in E. rewrite E.
    apply Qeq_bool_iff in E. rewrite E. reflexivity.
  - exists ((float64 q - q) / q)%Q. split; [| field; exact Hq].
    pose proof (float64_near q) as H.
    apply Qabs_Qle_condition.
    unfold Qdiv. rewrite Qabs_Qmult, Qabs_Qinv.
    apply Qle_shift_div_r; [apply Qabs_pos_lt; exact Hq |].
    rewrite (Qmult_comm (1 # 2 ^ 53)). exact H.
Qed.

(** ** Relative errors through the operations *)

Lemma within_refl (X : Q) : within 0 X X.
Proof. exists 0%Q. split; [split; discriminate | ring]. Qed.

Lemma within_weaken (e e' x X : Q) :
  within e x X -> (e <= e')%Q -> within e' x X.
Proof.
  intros [d [Hd Hx]] He. exists d. split; [lra | exact Hx].
Qed.

Lemma within_scale (e x X c : Q) : within e x X -> within e (x * c) (X * c).
Proof.
  intros [d [Hd Hx]]. exists d. split; [exact Hd |]. rewrite Hx. ring.
Qed.

Lemma within_float64 (e x X : Q) :
  within e x X -> (0 <= e <= 1)%Q ->
  within (e + (2 # 2 ^ 53)) (float64 x) X.
Proof.
  intros [d [Hd Hx]] He.
  destruct (float64_within x) as [d' [Hd' Hf]].
  exists (d + d' + d * d')%Q. split.
  - assert (U : (1 # 2 ^ 53 == (1 # 2) * (2 # 2 ^ 53))%Q) by reflexivity.
    set (u := (2 # 2 ^ 53)%Q) in *. 
    assert (Hu : (0 <= u)%Q) by discriminate.
    rewrite U in Hd'. split; nra.
  - rewrite Hf, Hx. ring.
Qed.

Lemma within_div (e1 e2 x X y Y : Q) :
  within e1 x X -> within e2 y Y -> (0 <= e1)%Q -> (0 <= e2 <= 1 # 2)%Q ->
  ~ (Y == 0)%Q ->
  within (2 * (e1 + e2)) (x / y) (X / Y).
Proof.
  intros [d1 [Hd1 Hx]] [d2 [Hd2 Hy]] He1 He2 HY.
  assert (Hpos : (1 # 2 <= 1 + d2)%Q) by lra.
  assert (Hw : (0 < / (1 + d2) <= 2)%Q).
  { split.
    - apply Qinv_lt_0_compat. lra.
    - apply Qle_shift_inv_r; lra. }
  set (w := (/ (1 + d2))%Q) in *.
  exists ((d1 - d2) * w)%Q. split.
  - split; nra.
  - rewrite Hx, Hy. unfold w. field. split; [lra | exact HY].
Qed.

Lemma within_nonzero (e x X : Q) :
  within e x X -> (e < 1)%Q -> ~ (X == 0)%Q -> ~ (x == 0)%Q.
Proof.
  intros [d [Hd Hx]] He HX H0. rewrite Hx in H0.
  apply Qmult_integral in H0. destruct H0 as [H0 | H0]; [exact (HX H0) | lra].
Qed.

Lemma within_sign (e x X : Q) :
  within e x X -> (e < 1)%Q -> ((0 < x)%Q <-> (0 < X)%Q).
Proof.
  intros [d [Hd Hx]] He. rewrite Hx. split; intro H.
  - destruct (Qlt_le_dec 0 X) as [P | N]; [exact P |]. exfalso. nra.
  - nra.
Qed.

(** The distance that a relative error allows. *)
Lemma within_distance (e x X : Q) :
  within e x X -> (0 <= e)%Q -> (Qabs (x - X) <= e * Qabs X)%Q.
Proof.
  intros [d [Hd Hx]] He.
  setoid_replace (x - X)%Q with (X * d)%Q by (rewrite Hx; ring).
  rewrite Qabs_Qmult, Qmult_comm.
  apply Qmult_le_compat_r; [| apply Qabs_nonneg].
  apply Qabs_Qle_condition. exact Hd.
Qed.

(** ** The float operations on finite values *)

Lemma float64_0 (q : Q) : (q == 0)%Q -> float64 q = 0%Q.
Proof.
  intro H. unfold float64. apply Qeq_bool_iff in H. rewrite H. reflexivity.
Qed.

Lemma float64_nonzero (q : Q) : ~ (q == 0)%Q -> ~ (float64 q == 0)%Q.
Proof.
  intro H. apply (within_nonzero (1 # 2 ^ 53) (float64 q) q);
    [apply float64_within | reflexivity | exact H].
Qed.

Lemma float64_positive (q : Q) : (0 < float64 q)%Q <-> (0 < q)%Q.
Proof.
  apply (within_sign (1 # 2 ^ 53)); [apply float64_within | reflexivity].
Qed.

Lemma float64_int_eq_bool (z : Z) :
  Qeq_bool (float64 (inject_Z z)) 0 = (z =? 0)%Z.
Proof.
  destruct (z =? 0)%Z eqn:E.
  - apply Z.eqb_eq in E. subst z. reflexivity.
  - apply Z.eqb_neq in E. apply Qeq_bool_false. apply float64_nonzero.
    intro H. apply E. unfold Qeq in H. simpl in H. lia.
Qed.

Lemma float64_int_pos_bool (z : Z) :
  Qltb 0 (float64 (inject_Z z)) = (0 <? z)%Z.
Proof.
  destruct (0 <? z)%Z eqn:E.
  - apply Z.ltb_lt in E. apply Qltb_lt. apply float64_positive.
    change 0%Q with (inject_Z 0). rewrite <- Zlt_Qlt. exact E.
  - apply Z.ltb_ge in E. apply Qltb_ge.
    apply Qnot_lt_le. intro H. apply (proj1 (float64_positive _)) in H.
    apply (Qlt_not_le _ _ H). rewrite Zle_Qle in E. exact E.
Qed.

(** [round2] of a finite value is the float of a number of hundredths. *)
Lemma round2_finite (x : Q) :
  round2 (Fin x)
  = Fin (float64 (inject_Z (rint (float64 (x * 100))) / 100)).
Proof. reflexivity. Qed.

(** Rounding to 2 decimals a float that carries a relative error. *)
Lemma round2_within (e x X : Q) :
  within e x X -> (0 <= e <= 1)%Q -> (e + (2 # 2 ^ 53) <= 1 # 2 ^ 49)%Q ->
  rounded_to_2_decimals (round2 (Fin x)) X.
Proof.
  intros Hx He Hc. exists (rint (float64 (x * 100))).
  split; [apply round2_finite |].
  pose proof (within_float64 _ _ _ (within_scale _ _ _ 100 Hx) He) as H3.
  assert (He' : (0 <= e + (2 # 2 ^ 53))%Q).
  { apply Qle_trans with e; [apply He |].
    rewrite <- (Qplus_0_r e) at 1. apply Qplus_le_r. discriminate. }
  apply within_distance in H3; [| exact He'].
  pose proof (rint_near (float64 (x * 100))) as Hr.
  set (x3 := float64 (x * 100)) in *.
  set (k := inject_Z (rint x3)) in *.
  assert (HA : (Qabs (X * 100) == 100 * Qabs X)%Q).
  { rewrite Qabs_Qmult. change (Qabs 100) with 100%Q. ring. }
  rewrite HA in H3.
  pose proof (Qabs_nonneg X) as HX.
  set (A := Qabs X) in *.
  assert (HB : ((e + (2 # 2 ^ 53)) * (100 * A) <= (1 # 2 ^ 49) * (100 * A))%Q).
  { apply Qmult_le_compat_r; [exact Hc | lra]. }
  apply Qabs_Qle_condition in H3.
  apply Qabs_Qle_condition.
  set (c := (1 # 2 ^ 49)%Q) in *. set (B := ((e + (2 # 2 ^ 53)) * (100 * A))%Q) in *.
  assert (E : (k / 100 - X == ((k - x3) + (x3 - X * 100)) / 100)%Q) by field.
  rewrite E. split.
  - apply Qle_shift_div_l; [reflexivity |]. lra.
  - apply Qle_shift_div_r; [reflexivity |]. lra.
Qed.

End Float64Facts.

(** * The Engagement Metrics Aggregator *)

Module ChannelFacts.
Import ChannelAnalyzer.
Import Float64Facts.

(** ** The engagement rate of one record *)

(** The float operations of line 92 on a record with views. *)
Lemma engagement_rate_with_views (v : VideoStats) :
  views v <> 0%Z ->
  exists x,
    engagement_rate_of v = round2 (Fin x) /\
    within (8 # 2 ^ 53) x (engagement_percentage v).
Proof.
  intro Hv. unfold engagement_rate_of, of_int64, of_int, fdiv, fmul.
  cbn [f64 npdiv]. rewrite float64_int_eq_bool.
  assert (E : (views v =? 0)%Z = false) by (apply Z.eqb_neq; exact Hv).
  rewrite E. cbn [f64 npmul].
  eexists. split; [reflexivity |].
  unfold engagement_percentage.
  set (a := inject_Z (wrap64 (likes v + comments v))).
  set (b := inject_Z (views v)).
  assert (Hb : ~ (b == 0)%Q).
  { intro H. apply Hv. unfold b, Qeq in H. simpl in H. lia. }
  pose proof (within_div _ _ _ _ _ _ (float64_within a) (float64_within b)
                ltac:(discriminate) ltac:(split; discriminate) Hb) as H1.
  pose proof (within_float64 _ _ _ H1 ltac:(split; discriminate)) as H2.
  pose proof (within_float64 _ _ _ (within_scale _ _ _ 100 H2)
                ltac:(split; discriminate)) as H3.
  eapply within_weaken; [exact H3 | discriminate].
Qed.

Lemma engagement_rate_cases (v : VideoStats) :
  let engagement := wrap64 (likes v + comments v) in
  (views v <> 0%Z ->
   rounded_to_2_decimals (engagement_rate_of v) (engagement_percentage v)) /\
  (views v = 0%Z -> engagement = 0%Z -> engagement_rate_of v = NaN) /\
  (views v = 0%Z -> (0 < engagement)%Z -> engagement_rate_of v = PInf) /\
  (views v = 0%Z -> (engagement < 0)%Z -> engagement_rate_of v = NInf).
Proof.
  intro engagement. split; [| split; [| split]].
  - intro Hv. destruct (engagement_rate_with_views v Hv) as [x [Hx Hw]].
    rewrite Hx. apply (round2_within (8 # 2 ^ 53)); [exact Hw | |];
      split || idtac; discriminate.
  - intros H E. unfold engagement_rate_of. fold engagement. rewrite H, E.
    reflexivity.
  - intros H E. unfold engagement_rate_of, of_int64, of_int, fdiv.
    fold engagement. rewrite H. cbn [f64 npdiv].
    rewrite !float64_int_eq_bool, float64_int_pos_bool. cbn [Z.eqb].
    assert (E1 : (engagement =? 0)%Z = false) by (apply Z.eqb_neq; lia).
    assert (E2 : (0 <? engagement)%Z = true) by (apply Z.ltb_lt; lia).
    rewrite E1, E2. reflexivity.
  - intros H E. unfold engagement_rate_of, of_int64, of_int, fdiv.
    fold engagement. rewrite H. cbn [f64 npdiv].
    rewrite !float64_int_eq_bool, float64_int_pos_bool. cbn [Z.eqb].
    assert (E1 : (engagement =? 0)%Z = false) by (apply Z.eqb_neq; lia).
    assert (E2 : (0 <? engagement)%Z = false) by (apply Z.ltb_ge; lia).
    rewrite E1, E2. reflexivity.
Qed.

(** At a decimal tie the float decides: 109 likes on 800 views are
    exactly 13.625 percent, the float product [109 / 800 * 100] lies just
    above that, and the rate is 13.63, where 13.625 itself would round
    to the even 13.62; 203 likes on 20000 views are exactly 1.015
    percent, and the rate is 1.01. *)
Example tie_is_rounded_from_the_float :
  (engagement_percentage (video_of 800 109 0) == 13625 # 1000)%Q /\
  engagement_rate_of (video_of 800 109 0) = Fin (float64 (1363 # 100)) /\
  rint ((13625 # 1000) * 100) = 1362%Z /\
  (engagement_percentage (video_of 20000 203 0) == 1015 # 1000)%Q /\
  engagement_rate_of (video_of 20000 203 0) = Fin (float64 (101 # 100)).
Proof.
  split; [reflexivity |]. split; [vm_compute; reflexivity |].
  split; [reflexivity |]. split; [reflexivity |]. vm_compute. reflexivity.
Qed.

(** ** The average skips [nan] and nothing else *)

Lemma pd_mean_skips_nan (before after : list npfloat) :
  pd_mean (before ++ NaN :: after) = pd_mean (before ++ after).
Proof.
  unfold pd_mean. rewrite !filter_app. reflexivity.
Qed.

Lemma fold_npadd_fin (qs : list Q) (acc : Q) :
  exists s, fold_left npadd (map Fin qs) (Fin acc) = Fin s /\ (s == acc + sumQ qs)%Q.
Proof.
  revert acc. induction qs as [| q qs IH]; intro acc.
  - exists acc. split; [reflexivity | simpl; ring].
  - cbn [map fold_left npadd]. destruct (IH (acc + q)%Q) as [s [Hs Hv]].
    exists s. split; [exact Hs |]. rewrite Hv. simpl. ring.
Qed.

Lemma filter_fin (qs : list Q) :
  filter (fun x => negb (is_nan x)) (map Fin qs) = map Fin qs.
Proof.
  induction qs as [| q qs IH]; [reflexivity |]. simpl. rewrite IH. reflexivity.
Qed.

Lemma filter_filter_nan (xs : list npfloat) :
  filter (fun x => negb (is_nan x)) (filter (fun x => negb (is_nan x)) xs)
  = filter (fun x => negb (is_nan x)) xs.
Proof.
  induction xs as [| x xs IH]; [reflexivity |].
  cbn [filter]. destruct (negb (is_nan x)) eqn:E; [| exact IH].
  cbn [filter]. rewrite E, IH. reflexivity.
Qed.

(** On finite rates the average is the arithmetic mean. *)
Lemma pd_mean_finite (qs : list Q) :
  qs <> [] ->
  exists m, pd_mean (map Fin qs) = Fin m /\ (m == sumQ qs / lenQ qs)%Q.
Proof.
  intro Hne. unfold pd_mean. rewrite filter_fin.
  destruct (fold_npadd_fin qs 0) as [s [Hs Hv]]. rewrite Hs.
  unfold npdiv.
  assert (Hl : lenQ (map Fin qs) = lenQ qs)
    by (unfold lenQ; rewrite length_map; reflexivity).
  rewrite Hl, (lenQ_nonzero qs Hne).
  eexists. split; [reflexivity |]. rewrite Hv.
  pose proof (lenQ_pos qs Hne). field. lra.
Qed.

(** One infinite rate among finite ones makes the average infinite. *)
Lemma fold_npadd_pinf (qs : list Q) :
  fold_left npadd (map Fin qs) PInf = PInf.
Proof.
  induction qs as [| q qs IH]; [reflexivity | exact IH].
Qed.

Lemma pd_mean_with_pinf (before after : list Q) :
  pd_mean (map Fin before ++ PInf :: map Fin after) = PInf.
Proof.
  unfold pd_mean. rewrite filter_app. cbn [filter is_nan negb].
  rewrite !filter_fin, fold_left_app.
  destruct (fold_npadd_fin before 0) as [s [Hs _]]. rewrite Hs.
  cbn [fold_left npadd]. rewrite fold_npadd_pinf.
  unfold npdiv.
  assert (E : Qle_bool 0 (lenQ (map Fin before ++ PInf :: map Fin after)) = true).
  { apply Qle_bool_iff. unfold lenQ. change 0%Q with (inject_Z 0).
    rewrite <- Zle_Qle. lia. }
  rewrite E. reflexivity.
Qed.

(** ** [idxmax] *)

Lemma idxmax_from_spec (rest pre : list Z) (best_i : nat) (best_v : Z) :
  nth_error pre best_i = Some best_v ->
  (forall k x, nth_error pre k = Some x -> (x <= best_v)%Z) ->
  (forall k x, (k < best_i)%nat -> nth_error pre k = Some x -> (x < best_v)%Z) ->
  let j := idxmax_from best_i best_v (List.length pre) rest in
  exists m,
    nth_error (pre ++ rest) j = Some m /\
    (forall k x, nth_error (pre ++ rest) k = Some x -> (x <= m)%Z) /\
    (forall k x, (k < j)%nat -> nth_error (pre ++ rest) k = Some x -> (x < m)%Z).
Proof.
  revert pre best_i best_v.
  induction rest as [| v rest IH]; intros pre best_i best_v Hbest Hall Hfirst.
  - cbn [idxmax_from]. rewrite app_nil_r. exists best_v.
    split; [exact Hbest |]. split; assumption.
  - cbn [idxmax_from].
    assert (Hi : (best_i < List.length pre)%nat)
      by (apply nth_error_Some; rewrite Hbest; discriminate).
    assert (Hlen : List.length (pre ++ [v]) = S (List.length pre))
      by (rewrite length_app; simpl; lia).
    assert (Hsplit : forall k x, nth_error (pre ++ [v]) k = Some x ->
              ((k < List.length pre)%nat /\ nth_error pre k = Some x)
              \/ (k = List.length pre /\ x = v)).
    { intros k x Hk. destruct (Nat.lt_ge_cases k (List.length pre)) as [L | G].
      - left. split; [exact L |]. rewrite nth_error_app1 in Hk; assumption.
      - right. rewrite nth_error_app2 in Hk by exact G.
        destruct (k - List.length pre)%nat as [| d] eqn:Ed.
        + simpl in Hk. injection Hk as Hk. split; [lia | congruence].
        + simpl in Hk. destruct d; discriminate. }
    replace (pre ++ v :: rest) with ((pre ++ [v]) ++ rest)
      by (rewrite <- app_assoc; reflexivity).
    rewrite <- Hlen.
    destruct (best_v <? v)%Z eqn:E.
    + apply Z.ltb_lt in E.
      apply IH.
      * rewrite nth_error_app2 by lia. rewrite Nat.sub_diag. reflexivity.
      * intros k x Hk. destruct (Hsplit k x Hk) as [[_ Hp] | [_ Hx]].
        -- specialize (Hall k x Hp). lia.
        -- lia.
      * intros k x Hlt Hk. destruct (Hsplit k x Hk) as [[_ Hp] | [Hk' _]].
        -- specialize (Hall k x Hp). lia.
        -- lia.
    + apply Z.ltb_ge in E.
      apply IH.
      * rewrite nth_error_app1 by exact Hi. exact Hbest.
      * intros k x Hk. destruct (Hsplit k x Hk) as [[_ Hp] | [_ Hx]].
        -- apply (Hall k x Hp).
        -- lia.
      * intros k x Hlt Hk. destruct (Hsplit k x Hk) as [[_ Hp] | [Hk' _]].
        -- apply (Hfirst k x Hlt Hp).
        -- lia.
Qed.

(** [idxmax] returns the first position of the maximum. *)
Lemma idxmax_first_maximum (vs : list Z) :
  vs <> [] ->
  exists j m,
    idxmax vs = Ok j /\
    nth_error vs j = Some m /\
    (forall k x, nth_error vs k = Some x -> (x <= m)%Z) /\
    (forall k x, (k < j)%nat -> nth_error vs k = Some x -> (x < m)%Z).
Proof.
  intro Hne. destruct vs as [| v rest]; [contradiction |].
  destruct (idxmax_from_spec rest [v] 0 v) as [m [Hm [Hall Hfirst]]].
  - reflexivity.
  - intros k x Hk. destruct k as [| k]; simpl in Hk.
    + injection Hk as Hk. lia.
    + destruct k; discriminate.
  - intros k x Hlt. lia.
  - exists (idxmax_from 0 v 1 rest), m. split; [reflexivity |].
    split; [exact Hm |]. split; assumption.
Qed.

(** ** [performance_metrics] *)

Lemma performance_metrics_empty (age_seconds : string -> result Q) :
  performance_metrics age_seconds []
  = Ok {| avg_views_per_video := Fin 0; avg_engagement_rate := Fin 0;
          best_performing_video := None; recent_videos := [] |}.
Proof.
  reflexivity.
Qed.

(** When the clock is defined on every record, the frame gets its two
    columns and keeps the records in order. *)
Lemma with_metrics_ok (age_seconds : string -> result Q)
  (video_stats : list VideoStats) :
  ages_defined age_seconds video_stats ->
  exists df,
    with_metrics age_seconds video_stats = Ok df /\
    map video df = video_stats /\
    map engagement_rate df = map engagement_rate_of video_stats.
Proof.
  induction video_stats as [| v rest IH]; intro Hages.
  - exists []. repeat split.
  - destruct (Hages v (or_introl eq_refl)) as [age Hage].
    destruct IH as [df [Hdf [Hv Hr]]].
    { intros v' Hin. apply Hages. right. exact Hin. }
    cbn [with_metrics]. unfold avg_views_per_day_of.
    rewrite Hage. cbn [bind]. rewrite Hdf. cbn [bind].
    eexists. split; [reflexivity |]. cbn [map video engagement_rate].
    rewrite Hv, Hr. split; reflexivity.
Qed.

Lemma performance_metrics_nonempty (age_seconds : string -> result Q)
  (video_stats : list VideoStats) :
  video_stats <> [] ->
  ages_defined age_seconds video_stats ->
  exists df j,
    with_metrics age_seconds video_stats = Ok df /\
    map video df = video_stats /\
    idxmax (map views video_stats) = Ok j /\
    performance_metrics age_seconds video_stats
    = Ok {| avg_views_per_video := np_mean (to_floats (map views video_stats));
            avg_engagement_rate :=
              pd_mean (map engagement_rate_of video_stats);
            best_performing_video := nth_error df j;
            recent_videos := df |}.
Proof.
  intros Hne Hages.
  destruct (with_metrics_ok age_seconds video_stats Hages) as [df [Hdf [Hv Hr]]].
  destruct (idxmax_first_maximum (map views video_stats)) as [j [m [Hj _]]].
  { destruct video_stats; [contradiction | discriminate]. }
  exists df, j. split; [exact Hdf |]. split; [exact Hv |].
  split; [exact Hj |].
  unfold performance_metrics. rewrite Hdf. cbn [bind].
  assert (Hviews : map (fun r => views (video r)) df = map views video_stats)
    by (rewrite <- Hv, map_map; reflexivity).
  destruct df as [| r rs] eqn:E.
  { destruct video_stats; [contradiction | discriminate]. }
  rewrite <- E in *. rewrite Hviews, Hj, Hr. cbn [bind]. reflexivity.
Qed.

End ChannelFacts.

Module ChannelClaims.
Import ChannelAnalyzer.
Import ChannelFacts.

(** C2, as stated, fails: a record with no views but one like (a video
    whose view count is hidden) gets the rate [+inf], which is neither
    absent nor left out of the average: the average over this record and a
    record of rate 10.0 is [+inf]. *)
Lemma zero_views_rate_is_infinite :
  exists pm r,
    performance_metrics one_day_old [video_of 0 1 0; video_of 10 1 0] = Ok pm /\
    nth_error (recent_videos pm) 0 = Some r /\
    views (video r) = 0%Z /\
    engagement_rate r = PInf /\
    avg_engagement_rate pm = PInf.
Proof.
  eexists. eexists. split; [vm_compute; reflexivity |].
  cbn [recent_videos nth_error]. split; [reflexivity |].
  cbn [video views engagement_rate avg_engagement_rate].
  repeat split.
Qed.

(** C2 (amended).  [performance_metrics] returns (when the clock is
    defined on the records) and keeps every record in [recent_videos].
    The engagement rate of a record is [(likes + comments) / views * 100]
    rounded to 2 decimals when its views are not 0: the float of a number
    of hundredths that lies within 0.005 of that value, up to the
    rounding of the float operations (a relative [2 ^ -49]), which
    decides at a decimal tie.  A record with 0 views and 0 likes and
    comments has the rate [nan], pandas' missing value.  The average
    engagement rate is pandas' mean of the rates: it leaves every [nan]
    rate out, and it is the arithmetic mean of the remaining rates when
    they are all finite. *)
Theorem engagement_rate_by_views (age_seconds : string -> result Q)
  (video_stats : list VideoStats) :
  ages_defined age_seconds video_stats ->
  exists pm,
    performance_metrics age_seconds video_stats = Ok pm /\
    map video (recent_videos pm) = video_stats /\
    (forall r, In r (recent_videos pm) ->
       let v := video r in
       let engagement := wrap64 (likes v + comments v) in
       (views v <> 0%Z ->
        rounded_to_2_decimals (engagement_rate r) (engagement_percentage v)) /\
       (views v = 0%Z -> engagement = 0%Z -> engagement_rate r = NaN)) /\
    (video_stats <> [] ->
     let rates := map engagement_rate (recent_videos pm) in
     avg_engagement_rate pm = pd_mean rates /\
     (forall before after,
         rates = before ++ NaN :: after ->
         avg_engagement_rate pm = pd_mean (before ++ after)) /\
     (forall qs,
         qs <> [] -> filter (fun x => negb (is_nan x)) rates = map Fin qs ->
         exists m, avg_engagement_rate pm = Fin m /\ (m == sumQ qs / lenQ qs)%Q)).
Proof.
  intro Hages.
  destruct video_stats as [| v0 vs] eqn:Evs.
  - eexists. split; [apply performance_metrics_empty |].
    split; [reflexivity |]. split; [intros r [] |]. intro H. contradiction.
  - rewrite <- Evs in *.
    assert (Hne : video_stats <> []) by (rewrite Evs; discriminate).
    destruct (performance_metrics_nonempty age_seconds video_stats Hne Hages)
      as [df [j [Hdf [Hvideo [_ Hpm]]]]].
    destruct (with_metrics_ok age_seconds video_stats Hages)
      as [df' [Hdf' [_ Hrates]]].
    rewrite Hdf in Hdf'. injection Hdf' as Hdf'. subst df'.
    eexists. split; [exact Hpm |].
    cbn [recent_videos avg_engagement_rate].
    split; [exact Hvideo |]. split.
    + intros r Hin.
      assert (Hr : engagement_rate r = engagement_rate_of (video r)).
      { apply (in_map (fun x => (engagement_rate x, video x))) in Hin.
        assert (Hpairs : map (fun x => (engagement_rate x, video x)) df
                         = map (fun v => (engagement_rate_of v, v)) video_stats).
        { clear - Hvideo Hrates. revert video_stats Hvideo Hrates.
          induction df as [| x df IH]; intros [| v vs] Hv Hr;
            try discriminate; [reflexivity |].
          simpl in *. injection Hv as Hv1 Hv2. injection Hr as Hr1 Hr2.
          rewrite Hv1, Hr1, (IH vs Hv2 Hr2). reflexivity. }
        rewrite Hpairs in Hin. apply in_map_iff in Hin.
        destruct Hin as [v [Hv _]]. injection Hv as Hv1 Hv2.
        rewrite <- Hv1, Hv2. reflexivity. }
      rewrite Hr.
      destruct (engagement_rate_cases (video r)) as [H1 [H2 _]].
      split; [exact H1 | exact H2].
    + intros _. rewrite Hrates.
      split; [reflexivity |]. split.
      * intros before after E. rewrite E. apply pd_mean_skips_nan.
      * intros qs Hqs E.
        destruct (pd_mean_finite qs Hqs) as [m [Hm Hv]].
        exists m. split; [| exact Hv].
        rewrite <- Hm, <- E. unfold pd_mean. rewrite filter_filter_nan.
        reflexivity.
Qed.

Lemma one_day_old_defined (video_stats : list VideoStats) :
  ages_defined one_day_old video_stats.
Proof.
  intros v _. exists 86400%Q. reflexivity.
Defined.

Lemma engagement_rate_by_views_witness :
  exists pm r,
    performance_metrics one_day_old [video_of 800 109 0] = Ok pm /\
    recent_videos pm = [r] /\
    rounded_to_2_decimals (engagement_rate r)
                          (engagement_percentage (video_of 800 109 0)).
Proof.
  destruct (engagement_rate_by_views one_day_old [video_of 800 109 0]
              (one_day_old_defined _))
    as [pm [Hpm [Hvideo [Hrate _]]]].
  destruct (recent_videos pm) as [| r [| r' rs]] eqn:E; try discriminate.
  exists pm, r. split; [exact Hpm |]. split; [exact E |].
  destruct (Hrate r (or_introl eq_refl)) as [H _].
  injection Hvideo as Hvideo. rewrite Hvideo in H.
  apply H. discriminate.
Defined.

(** C10.  On a non-empty collection the best-performing record is the
    record at the earliest index whose view count is maximal: no record
    has more views, and every record before it has strictly fewer. *)
Theorem best_performing_is_first_maximum (age_seconds : string -> result Q)
  (video_stats : list VideoStats) :
  video_stats <> [] ->
  ages_defined age_seconds video_stats ->
  exists pm j best,
    performance_metrics age_seconds video_stats = Ok pm /\
    best_performing_video pm = Some best /\
    nth_error (recent_videos pm) j = Some best /\
    nth_error video_stats j = Some (video best) /\
    (forall k v, nth_error video_stats k = Some v ->
                 (views v <= views (video best))%Z) /\
    (forall k v, (k < j)%nat -> nth_error video_stats k = Some v ->
                 (views v < views (video best))%Z).
Proof.
  intros Hne Hages.
  destruct (performance_metrics_nonempty age_seconds video_stats Hne Hages)
    as [df [j [Hdf [Hvideo [Hj Hpm]]]]].
  destruct (idxmax_first_maximum (map views video_stats))
    as [j' [m [Hj' [Hm [Hall Hfirst]]]]].
  { destruct video_stats; [contradiction | discriminate]. }
  rewrite Hj in Hj'. injection Hj' as Hj'. subst j'.
  rewrite nth_error_map in Hm.
  destruct (nth_error video_stats j) as [v |] eqn:Ev; [| discriminate].
  simpl in Hm. injection Hm as Hm.
  assert (Hrow : exists best, nth_error df j = Some best /\ video best = v).
  { rewrite <- Hvideo in Ev. rewrite nth_error_map in Ev.
    destruct (nth_error df j) as [best |]; [| discriminate].
    exists best. split; [reflexivity |]. simpl in Ev. congruence. }
  destruct Hrow as [best [Hbest Hv]].
  eexists. exists j, best. split; [exact Hpm |].
  cbn [best_performing_video recent_videos].
  split; [exact Hbest |]. split; [exact Hbest |].
  rewrite Hv. split; [exact Ev |]. rewrite Hm. split.
  - intros k x Hk. apply (Hall k). rewrite nth_error_map, Hk. reflexivity.
  - intros k x Hlt Hk. apply (Hfirst k); [exact Hlt |].
    rewrite nth_error_map, Hk. reflexivity.
Qed.

Lemma best_performing_is_first_maximum_witness :
  exists pm best,
    performance_metrics one_day_old
      [video_of 3 0 0; video_of 10 1 0; video_of 10 2 1] = Ok pm /\
    best_performing_video pm = Some best /\
    likes (video best) = 1%Z.
Proof.
  destruct (best_performing_is_first_maximum one_day_old
              [video_of 3 0 0; video_of 10 1 0; video_of 10 2 1])
    as [pm [j [best [Hpm [Hbest [_ [Hnth [Hall Hfirst]]]]]]]];
    [discriminate | apply one_day_old_defined |].
  exists pm, best. split; [exact Hpm |]. split; [exact Hbest |].
  destruct j as [| [| [| j]]]; simpl in Hnth.
  - injection Hnth as Hnth. exfalso.
    specialize (Hall 1%nat (video_of 10 1 0) eq_refl).
    rewrite <- Hnth in Hall. simpl in Hall. lia.
  - injection Hnth as Hnth. rewrite <- Hnth. reflexivity.
  - injection Hnth as Hnth. exfalso.
    specialize (Hfirst 1%nat (video_of 10 1 0) ltac:(lia) eq_refl).
    rewrite <- Hnth in Hfirst. simpl in Hfirst. lia.
  - destruct j; discriminate.
Defined.

End ChannelClaims.

(** * Further properties of the tools *)

(** ** Lists *)

Module ListFacts.

Lemma firstn_add {A : Type} (a b : nat) (l : list A) :
  firstn (a + b) l = firstn a l ++ firstn b (skipn a l).
Proof.
  revert l. induction a as [| a IH]; intro l; [reflexivity |].
  destruct l as [| x l]; cbn [Nat.add firstn skipn app].
  - rewrite firstn_nil. reflexivity.
  - rewrite IH. reflexivity.
Qed.

Lemma fold_add_app (l1 l2 : list Z) :
  fold_right Z.add 0%Z (l1 ++ l2)
  = (fold_right Z.add 0%Z l1 + fold_right Z.add 0%Z l2)%Z.
Proof.
  induction l1 as [| x l1 IH]; cbn [app fold_right]; [reflexivity | lia].
Qed.

Lemma fold_add_perm (l1 l2 : list Z) :
  Permutation l1 l2 -> fold_right Z.add 0%Z l1 = fold_right Z.add 0%Z l2.
Proof.
  induction 1; cbn [fold_right]; lia.
Qed.

Lemma fold_add_firstn (n : nat) (l : list Z) :
  (forall x, In x l -> (0 <= x)%Z) ->
  (fold_right Z.add 0%Z (firstn n l) <= fold_right Z.add 0%Z l)%Z.
Proof.
  revert n. induction l as [| x l IH]; intros n H.
  - rewrite firstn_nil. cbn. lia.
  - destruct n as [| n]; cbn [firstn fold_right].
    + assert (0 <= x)%Z by (apply H; left; reflexivity).
      assert (0 <= fold_right Z.add 0%Z l)%Z.
      { clear IH. induction l as [| y l IHl]; cbn [fold_right]; [lia |].
        assert (0 <= y)%Z by (apply H; right; left; reflexivity).
        assert (0 <= fold_right Z.add 0%Z l)%Z.
        { apply IHl. intros z Hz. apply H. destruct Hz as [Hz | Hz].
          - left. exact Hz.
          - right. right. exact Hz. }
        lia. }
      lia.
    + assert (fold_right Z.add 0%Z (firstn n l) <= fold_right Z.add 0%Z l)%Z.
      { apply IH. intros z Hz. apply H. right. exact Hz. }
      lia.
Qed.

Lemma In_firstn {A : Type} (n : nat) (l : list A) (x : A) :
  In x (firstn n l) -> In x l.
Proof.
  revert n. induction l as [| y l IH]; intros n H.
  - rewrite firstn_nil in H. exact H.
  - destruct n as [| n]; [destruct H |].
    cbn [firstn] in H. destruct H as [H | H]; [left; exact H |].
    right. exact (IH n H).
Qed.

Lemma NoDup_firstn {A : Type} (n : nat) (l : list A) :
  NoDup l -> NoDup (firstn n l).
Proof.
  revert n. induction l as [| y l IH]; intros n H.
  - rewrite firstn_nil. constructor.
  - destruct n as [| n]; [constructor |].
    cbn [firstn]. inversion H as [| ? ? Hy Hl]; subst.
    constructor; [| exact (IH n Hl)].
    intro Hin. apply Hy. exact (In_firstn n l y Hin).
Qed.

Lemma nth_error_firstn_some {A : Type} (n i : nat) (l : list A) (x : A) :
  nth_error (firstn n l) i = Some x -> nth_error l i = Some x.
Proof.
  revert n i. induction l as [| y l IH]; intros n i H.
  - rewrite firstn_nil in H. destruct i; discriminate H.
  - destruct n as [| n]; [destruct i; discriminate H |].
    destruct i as [| i]; [exact H |].
    cbn [firstn nth_error] in *. exact (IH n i H).
Qed.

End ListFacts.

(** ** Counters *)

Module CounterFacts.
Import ListFacts.

Lemma counter_add_plus (w : string) (c : list (string * Z)) :
  counter_add w c = counter_plus w 1 c.
Proof.
  induction c as [| [k n] c IH]; [reflexivity |].
  cbn [counter_add counter_plus]. destruct (String.eqb w k); [reflexivity |].
  rewrite IH. reflexivity.
Qed.

Lemma dict_get_counter_plus (k w : string) (d : Z) (c : list (string * Z)) :
  dict_get k (counter_plus w d c)
  = if String.eqb k w
    then Some (match dict_get w c with
               | Some n => (n + d)%Z
               | None => d
               end)
    else dict_get k c.
Proof.
  induction c as [| [k' n] c IH].
  - cbn [counter_plus dict_get]. destruct (String.eqb k w); reflexivity.
  - cbn [counter_plus dict_get].
    destruct (String.eqb w k') eqn:Ew.
    + apply String.eqb_eq in Ew. subst k'. cbn [dict_get].
      destruct (String.eqb k w); reflexivity.
    + cbn [dict_get]. rewrite IH.
      destruct (String.eqb k k') eqn:Ek; [| reflexivity].
      apply String.eqb_eq in Ek. subst k'. rewrite String.eqb_sym, Ew.
      reflexivity.
Qed.

Lemma keys_counter_plus (w : string) (d : Z) (c : list (string * Z)) :
  dict_keys (counter_plus w d c)
  = if existsb (String.eqb w) (dict_keys c) then dict_keys c
    else dict_keys c ++ [w].
Proof.
  unfold dict_keys. induction c as [| [k n] c IH]; [reflexivity |].
  cbn [counter_plus map existsb fst].
  destruct (String.eqb w k); [reflexivity |].
  cbn [map fst orb]. rewrite IH.
  destruct (existsb (String.eqb w) (map fst c)); reflexivity.
Qed.

Lemma existsb_eqb_In (w : string) (l : list string) :
  existsb (String.eqb w) l = true <-> In w l.
Proof.
  rewrite existsb_exists. split.
  - intros [x [Hx E]]. apply String.eqb_eq in E. subst x. exact Hx.
  - intro H. exists w. split; [exact H | apply String.eqb_refl].
Qed.

Lemma existsb_eqb_not_In (w : string) (l : list string) :
  existsb (String.eqb w) l = false <-> ~ In w l.
Proof.
  rewrite <- existsb_eqb_In. destruct (existsb (String.eqb w) l); split;
    intro H; try discriminate; try reflexivity; try (intro; discriminate).
  exfalso. apply H. reflexivity.
Qed.

Lemma NoDup_counter_plus (w : string) (d : Z) (c : list (string * Z)) :
  NoDup (dict_keys c) -> NoDup (dict_keys (counter_plus w d c)).
Proof.
  intro H. rewrite keys_counter_plus.
  destruct (existsb (String.eqb w) (dict_keys c)) eqn:E; [exact H |].
  apply existsb_eqb_not_In in E.
  apply NoDup_rev in H. rewrite <- (rev_involutive (dict_keys c ++ [w])).
  apply NoDup_rev. rewrite rev_app_distr. cbn [rev app].
  constructor; [| exact H]. rewrite <- In_rev. exact E.
Qed.

Lemma total_counter_plus (w : string) (d : Z) (c : list (string * Z)) :
  total_count (counter_plus w d c) = (total_count c + d)%Z.
Proof.
  unfold total_count. induction c as [| [k n] c IH]; cbn [counter_plus map snd fold_right].
  - lia.
  - destruct (String.eqb w k); cbn [map snd fold_right]; [lia |].
    rewrite IH. lia.
Qed.

Lemma In_counter_plus (w : string) (d : Z) (c : list (string * Z)) (k : string) (n : Z) :
  In (k, n) (counter_plus w d c) ->
  In (k, n) c \/ (k = w /\ exists m, In (w, m) c /\ n = (m + d)%Z)
  \/ (k = w /\ n = d).
Proof.
  induction c as [| [k' n'] c IH]; cbn [counter_plus].
  - intros [H | []]. inversion H; subst. right. right. split; reflexivity.
  - destruct (String.eqb w k') eqn:E.
    + apply String.eqb_eq in E. subst k'. intros [H | H].
      * inversion H; subst. right. left. split; [reflexivity |].
        exists n'. split; [left; reflexivity | reflexivity].
      * left. right. exact H.
    + intros [H | H].
      * left. left. exact H.
      * destruct (IH H) as [H1 | [[-> [m [Hm ->]]] | [-> ->]]].
        -- left. right. exact H1.
        -- right. left. split; [reflexivity |]. exists m.
           split; [right; exact Hm | reflexivity].
        -- right. right. split; reflexivity.
Qed.

(** The counter built from a list of words, started from [c0]. *)
Lemma fold_counter_add_plus (ws : list string) (c0 : list (string * Z)) :
  fold_left (fun c w => counter_add w c) ws c0
  = fold_left (fun c w => counter_plus w 1 c) ws c0.
Proof.
  revert c0. induction ws as [| w ws IH]; intro c0; [reflexivity |].
  cbn [fold_left]. rewrite counter_add_plus. apply IH.
Qed.

Lemma occurrences_cons (k w : string) (ws : list string) :
  occurrences k (w :: ws)
  = ((if String.eqb k w then 1 else 0) + occurrences k ws)%Z.
Proof.
  unfold occurrences. cbn [filter]. destruct (String.eqb k w); cbn [List.length]; lia.
Qed.

Lemma occurrences_nonneg (k : string) (ws : list string) :
  (0 <= occurrences k ws)%Z.
Proof. unfold occurrences. lia. Qed.

Lemma occurrences_pos (k : string) (ws : list string) :
  (0 < occurrences k ws)%Z <-> In k ws.
Proof.
  unfold occurrences. split.
  - intro H. destruct (filter (String.eqb k) ws) as [| x l] eqn:E;
      [cbn in H; lia |].
    assert (Hx : In x (filter (String.eqb k) ws)) by (rewrite E; left; reflexivity).
    apply filter_In in Hx. destruct Hx as [Hx Ex].
    apply String.eqb_eq in Ex. subst x. exact Hx.
  - intro H.
    assert (Hk : In k (filter (String.eqb k) ws)).
    { apply filter_In. split; [exact H | apply String.eqb_refl]. }
    destruct (filter (String.eqb k) ws); [destruct Hk | cbn [List.length]; lia].
Qed.

Lemma dict_get_fold_counter (k : string) (ws : list string) (c0 : list (string * Z)) :
  dict_get k (fold_left (fun c w => counter_plus w 1 c) ws c0)
  = match dict_get k c0 with
    | Some m => Some (m + occurrences k ws)%Z
    | None => if (occurrences k ws =? 0)%Z then None else Some (occurrences k ws)
    end.
Proof.
  revert c0. induction ws as [| w ws IH]; intro c0.
  - cbn [fold_left]. unfold occurrences. cbn.
    destruct (dict_get k c0); [f_equal; lia | reflexivity].
  - cbn [fold_left]. rewrite IH, dict_get_counter_plus, occurrences_cons.
    pose proof (occurrences_nonneg k ws) as Hn.
    destruct (String.eqb k w) eqn:E.
    + apply String.eqb_eq in E. subst w.
      destruct (dict_get k c0).
      * f_equal. lia.
      * destruct (1 + occurrences k ws =? 0)%Z eqn:E0; [lia | f_equal].
    + destruct (dict_get k c0); [f_equal; lia |].
      replace (0 + occurrences k ws)%Z with (occurrences k ws) by lia.
      reflexivity.
Qed.

Lemma dict_get_Counter (k : string) (ws : list string) :
  dict_get k (Counter ws)
  = if (occurrences k ws =? 0)%Z then None else Some (occurrences k ws).
Proof.
  unfold Counter. rewrite fold_counter_add_plus, dict_get_fold_counter.
  reflexivity.
Qed.

Lemma NoDup_fold_counter (ws : list string) (c0 : list (string * Z)) :
  NoDup (dict_keys c0) ->
  NoDup (dict_keys (fold_left (fun c w => counter_plus w 1 c) ws c0)).
Proof.
  revert c0. induction ws as [| w ws IH]; intros c0 H; [exact H |].
  cbn [fold_left]. apply IH. apply NoDup_counter_plus. exact H.
Qed.

Lemma NoDup_Counter (ws : list string) : NoDup (dict_keys (Counter ws)).
Proof.
  unfold Counter. rewrite fold_counter_add_plus.
  apply NoDup_fold_counter. constructor.
Qed.

Lemma total_fold_counter (ws : list string) (c0 : list (string * Z)) :
  total_count (fold_left (fun c w => counter_plus w 1 c) ws c0)
  = (total_count c0 + Z.of_nat (List.length ws))%Z.
Proof.
  revert c0. induction ws as [| w ws IH]; intro c0.
  - cbn [fold_left List.length]. lia.
  - cbn [fold_left]. rewrite IH, total_counter_plus. cbn [List.length]. lia.
Qed.

Lemma total_Counter (ws : list string) :
  total_count (Counter ws) = Z.of_nat (List.length ws).
Proof.
  unfold Counter. rewrite fold_counter_add_plus, total_fold_counter.
  reflexivity.
Qed.

Lemma In_dict_get {V : Type} (k : string) (v : V) (d : list (string * V)) :
  NoDup (dict_keys d) -> In (k, v) d -> dict_get k d = Some v.
Proof.
  unfold dict_keys. induction d as [| [k' v'] d IH]; intros Hn Hin; [destruct Hin |].
  cbn [map fst] in Hn. inversion Hn as [| ? ? Hk Hd]; subst.
  cbn [dict_get]. destruct Hin as [H | H].
  - inversion H; subst. rewrite String.eqb_refl. reflexivity.
  - destruct (String.eqb k k') eqn:E.
    + apply String.eqb_eq in E. subst k'. exfalso. apply Hk.
      change k with (fst (k, v)). apply in_map. exact H.
    + exact (IH Hd H).
Qed.

Lemma In_Counter (k : string) (n : Z) (ws : list string) :
  In (k, n) (Counter ws) <-> In k ws /\ n = occurrences k ws.
Proof.
  split.
  - intro H. apply (In_dict_get k n _ (NoDup_Counter ws)) in H.
    rewrite dict_get_Counter in H.
    destruct (occurrences k ws =? 0)%Z eqn:E; [discriminate H |].
    inversion H. split; [| reflexivity].
    apply occurrences_pos. pose proof (occurrences_nonneg k ws). lia.
  - intros [Hk ->]. apply TrendFacts.dict_get_In. rewrite dict_get_Counter.
    apply occurrences_pos in Hk.
    destruct (occurrences k ws =? 0)%Z eqn:E; [lia | reflexivity].
Qed.

(** ** [most_common] *)

Lemma insert_by_count_perm (x : string * Z) (l : list (string * Z)) :
  Permutation (insert_by_count x l) (x :: l).
Proof.
  induction l as [| y l IH]; [apply Permutation_refl |].
  cbn [insert_by_count]. destruct (snd y <? snd x)%Z; [apply Permutation_refl |].
  apply perm_trans with (y :: x :: l); [apply perm_skip; exact IH | apply perm_swap].
Qed.

Lemma fold_insert_perm (c acc : list (string * Z)) :
  Permutation (fold_left (fun acc x => insert_by_count x acc) c acc) (c ++ acc).
Proof.
  revert acc. induction c as [| x c IH]; intro acc; [apply Permutation_refl |].
  cbn [fold_left app]. apply perm_trans with (c ++ insert_by_count x acc); [apply IH |].
  apply perm_trans with (c ++ x :: acc).
  - apply Permutation_app_head. apply insert_by_count_perm.
  - apply Permutation_sym. apply Permutation_middle.
Qed.

Lemma sorted_by_count_perm (c : list (string * Z)) :
  Permutation (sorted_by_count c) c.
Proof.
  unfold sorted_by_count.
  apply perm_trans with (c ++ []); [apply fold_insert_perm |].
  rewrite app_nil_r. apply Permutation_refl.
Qed.

Lemma total_sorted_by_count (c : list (string * Z)) :
  total_count (sorted_by_count c) = total_count c.
Proof.
  unfold total_count. apply fold_add_perm. apply Permutation_map.
  apply sorted_by_count_perm.
Qed.

Lemma NoDup_sorted_by_count (c : list (string * Z)) :
  NoDup (dict_keys c) -> NoDup (dict_keys (sorted_by_count c)).
Proof.
  intro H. unfold dict_keys.
  apply (Permutation_NoDup (l := map fst c)); [| exact H].
  apply Permutation_map. apply Permutation_sym. apply sorted_by_count_perm.
Qed.

Lemma In_sorted_by_count (x : string * Z) (c : list (string * Z)) :
  In x (sorted_by_count c) <-> In x c.
Proof.
  split; apply Permutation_in;
    [apply sorted_by_count_perm | apply Permutation_sym; apply sorted_by_count_perm].
Qed.

(** Sortedness, as a statement on the head and the tail. *)
Lemma decreasing_cons (x : string * Z) (l : list (string * Z)) :
  by_decreasing_count (x :: l)
  <-> (forall y, In y l -> (snd y <= snd x)%Z) /\ by_decreasing_count l.
Proof.
  unfold by_decreasing_count. split.
  - intro H. split.
    + intros y Hy. apply In_nth_error in Hy. destruct Hy as [j Hj].
      apply (H O (S j) x y); [lia | reflexivity | exact Hj].
    + intros i j a b Hij Ha Hb.
      apply (H (S i) (S j) a b); [lia | exact Ha | exact Hb].
  - intros [Hx Hl] i j a b Hij Ha Hb.
    destruct j as [| j]; [lia |]. cbn [nth_error] in Hb.
    destruct i as [| i].
    + cbn [nth_error] in Ha. inversion Ha; subst a.
      apply Hx. exact (nth_error_In l j Hb).
    + cbn [nth_error] in Ha. apply (Hl i j a b); [lia | exact Ha | exact Hb].
Qed.

Lemma insert_by_count_decreasing (x : string * Z) (l : list (string * Z)) :
  by_decreasing_count l -> by_decreasing_count (insert_by_count x l).
Proof.
  induction l as [| y l IH]; intro H.
  - cbn [insert_by_count]. apply decreasing_cons. split; [intros ? [] |].
    intros i j a b Hij Ha Hb. destruct i; discriminate Ha.
  - cbn [insert_by_count]. apply decreasing_cons in H. destruct H as [Hy Hl].
    destruct (snd y <? snd x)%Z eqn:E.
    + apply Z.ltb_lt in E. apply decreasing_cons. split.
      * intros z [Hz | Hz]; [subst z; lia |]. specialize (Hy z Hz). lia.
      * apply decreasing_cons. split; assumption.
    + apply Z.ltb_ge in E. apply decreasing_cons. split.
      * intros z Hz.
        apply (Permutation_in _ (insert_by_count_perm x l)) in Hz.
        destruct Hz as [Hz | Hz]; [subst z; exact E | exact (Hy z Hz)].
      * exact (IH Hl).
Qed.

Lemma fold_insert_decreasing (c acc : list (string * Z)) :
  by_decreasing_count acc ->
  by_decreasing_count (fold_left (fun acc x => insert_by_count x acc) c acc).
Proof.
  revert acc. induction c as [| x c IH]; intros acc H; [exact H |].
  cbn [fold_left]. apply IH. apply insert_by_count_decreasing. exact H.
Qed.

Lemma sorted_by_count_decreasing (c : list (string * Z)) :
  by_decreasing_count (sorted_by_count c).
Proof.
  apply fold_insert_decreasing. intros i j a b _ Ha. destruct i; discriminate Ha.
Qed.

Lemma most_common_decreasing (n : nat) (c : list (string * Z)) :
  by_decreasing_count (most_common n c).
Proof.
  intros i j a b Hij Ha Hb. unfold most_common in *.
  apply nth_error_firstn_some in Ha, Hb.
  exact (sorted_by_count_decreasing c i j a b Hij Ha Hb).
Qed.

Lemma In_most_common (n : nat) (c : list (string * Z)) (x : string * Z) :
  In x (most_common n c) -> In x c.
Proof.
  intro H. apply In_sorted_by_count. exact (In_firstn n _ x H).
Qed.

Lemma firstn_map {A B : Type} (f : A -> B) (n : nat) (l : list A) :
  firstn n (map f l) = map f (firstn n l).
Proof.
  revert n. induction l as [| x l IH]; intro n.
  - rewrite !firstn_nil. reflexivity.
  - destruct n as [| n]; [reflexivity |]. cbn [map firstn]. rewrite IH.
    reflexivity.
Qed.

Lemma NoDup_most_common (n : nat) (c : list (string * Z)) :
  NoDup (dict_keys c) -> NoDup (dict_keys (most_common n c)).
Proof.
  intro H. unfold most_common, dict_keys. rewrite <- firstn_map.
  apply NoDup_firstn. exact (NoDup_sorted_by_count c H).
Qed.

Lemma length_most_common (n : nat) (c : list (string * Z)) :
  (List.length (most_common n c) <= n)%nat.
Proof. unfold most_common. apply firstn_le_length. Qed.

Lemma total_most_common (n : nat) (c : list (string * Z)) :
  (forall x, In x c -> (0 <= snd x)%Z) ->
  (total_count (most_common n c) <= total_count c)%Z.
Proof.
  intro H. rewrite <- (total_sorted_by_count c).
  unfold total_count, most_common. rewrite <- firstn_map.
  apply fold_add_firstn. intros z Hz. apply in_map_iff in Hz.
  destruct Hz as [x [<- Hx]]. apply H. apply In_sorted_by_count. exact Hx.
Qed.

Lemma most_common_all (n : nat) (c : list (string * Z)) :
  (List.length c <= n)%nat -> most_common n c = sorted_by_count c.
Proof.
  intro H. unfold most_common. apply firstn_all2.
  rewrite (Permutation_length (sorted_by_count_perm c)). exact H.
Qed.

End CounterFacts.

(** ** trend_analyzer.py *)

Module TrendExtras.
Import TrendAnalyzer.
Import TrendFacts.
Import ListFacts.

(** *** The batches of [run] *)

Lemma concat_batches_prefix (keywords : list string) (m : nat) :
  List.concat (map (fun k => firstn 5 (skipn (5 * k) keywords)) (seq 0 m))
  = firstn (5 * m) keywords.
Proof.
  induction m as [| m IH]; [reflexivity |].
  rewrite seq_S, map_app, concat_app. cbn [map List.concat Nat.add].
  rewrite app_nil_r, IH.
  replace (5 * S m)%nat with (5 * m + 5)%nat by lia.
  rewrite firstn_add. reflexivity.
Qed.

Lemma batch_count (n : nat) :
  (5 * ((n + 4) / 5) <= n + 4 < 5 * ((n + 4) / 5) + 5)%nat.
Proof.
  pose proof (Nat.div_mod_eq (n + 4) 5) as E.
  pose proof (Nat.mod_upper_bound (n + 4) 5) as U. lia.
Qed.

Lemma nth_error_batches (keywords : list string) (i : nat) (batch : list string) :
  nth_error (batches keywords) i = Some batch ->
  (i < (List.length keywords + 4) / 5)%nat /\
  batch = firstn 5 (skipn (5 * i) keywords).
Proof.
  unfold batches. intro H.
  assert (Hi : (i < List.length
                      (map (fun k => firstn 5 (skipn (5 * k) keywords))
                           (seq 0 ((List.length keywords + 4) / 5))))%nat).
  { apply nth_error_Some. rewrite H. discriminate. }
  rewrite length_map, length_seq in Hi. split; [exact Hi |].
  rewrite nth_error_map in H.
  destruct (nth_error (seq 0 ((List.length keywords + 4) / 5)) i) as [k |] eqn:E;
    [| discriminate H].
  apply (nth_error_nth _ _ O) in E. rewrite seq_nth in E by exact Hi.
  cbn [Nat.add] in E. subst k. cbn [option_map] in H. inversion H. reflexivity.
Qed.

Lemma concat_batches (keywords : list string) :
  List.concat (batches keywords) = keywords.
Proof.
  pose proof (batch_count (List.length keywords)) as Hc.
  unfold batches. rewrite concat_batches_prefix. apply firstn_all2. lia.
Qed.

(** X1.  The keywords are sent to the service in batches that split the
    list: put end to end the batches give the keyword list back (every
    keyword is in exactly one batch, in order), no batch is empty or has
    more than 5 keywords, and every batch before the last has exactly 5. *)
Theorem batches_split_the_keywords (keywords : list string) :
  List.concat (batches keywords) = keywords /\
  (forall batch_keywords,
      In batch_keywords (batches keywords) ->
      (1 <= List.length batch_keywords <= 5)%nat) /\
  (forall i batch_keywords,
      nth_error (batches keywords) i = Some batch_keywords ->
      (S i < List.length (batches keywords))%nat ->
      List.length batch_keywords = 5%nat).
Proof.
  pose proof (batch_count (List.length keywords)) as Hc.
  split; [apply concat_batches | split].
  - intros batch_keywords Hin. apply In_nth_error in Hin. destruct Hin as [i Hi].
    apply nth_error_batches in Hi. destruct Hi as [Hi ->].
    rewrite length_firstn, length_skipn. lia.
  - intros i batch_keywords Hi Hlast.
    apply nth_error_batches in Hi. destruct Hi as [Hi ->].
    unfold batches in Hlast. rewrite length_map, length_seq in Hlast.
    rewrite length_firstn, length_skipn. lia.
Qed.

(** *** The dictionaries of [results] *)

Lemma keys_dict_set {V : Type} (k : string) (v : V) (d : list (string * V)) :
  dict_keys (dict_set k v d)
  = if existsb (String.eqb k) (dict_keys d) then dict_keys d
    else dict_keys d ++ [k].
Proof.
  unfold dict_keys. induction d as [| [k' v'] d IH]; [reflexivity |].
  cbn [dict_set map fst existsb].
  destruct (String.eqb k k') eqn:E.
  - apply String.eqb_eq in E. subst k'. reflexivity.
  - cbn [map fst orb]. rewrite IH.
    destruct (existsb (String.eqb k) (map fst d)); reflexivity.
Qed.

Lemma in_step_empty : in_step empty_results.
Proof.
  split; [reflexivity | split; [reflexivity |]].
  intros keyword trend_values H. discriminate H.
Qed.

Section Stored.

Variable interest_over_time : list string -> DataFrame.
Variable keywords : list string.

Lemma store_keyword_ok (batch_keywords : list string) (results r : Results)
  (keyword : string) :
  In batch_keywords (batches keywords) ->
  df_empty (interest_over_time batch_keywords) = false ->
  In keyword batch_keywords ->
  stored_ok interest_over_time keywords results ->
  store_keyword (interest_over_time batch_keywords) results keyword = Ok r ->
  stored_ok interest_over_time keywords r.
Proof.
  intros Hb He Hk [[K1 [K2 Hs]] Hc] H. unfold store_keyword in H.
  destruct (dict_get keyword (interest_over_time batch_keywords))
    as [trend_values |] eqn:Eg.
  2:{ inversion H; subst r. split; [split; [| split] |]; assumption. }
  destruct (trend_analysis_of trend_values) as [analysis | e] eqn:Ea;
    [| discriminate H].
  destruct (_predict_trend trend_values) as [forecast | e] eqn:Ef;
    [| discriminate H].
  cbn [bind] in H. inversion H; subst r; clear H.
  split; [split; [| split] |]; cbn [trend_data trend_analysis predictions].
  - rewrite !keys_dict_set, K1. reflexivity.
  - rewrite !keys_dict_set, K2. reflexivity.
  - intros k vs Hg. rewrite dict_get_set in Hg. rewrite !dict_get_set.
    destruct (String.eqb k keyword).
    + inversion Hg; subst vs. split; eexists; split; try reflexivity; assumption.
    + exact (Hs k vs Hg).
  - intros k vs Hg. rewrite dict_get_set in Hg.
    destruct (String.eqb k keyword) eqn:E.
    + apply String.eqb_eq in E. subst k. inversion Hg; subst vs.
      exists batch_keywords. repeat split; assumption.
    + exact (Hc k vs Hg).
Qed.

Lemma store_keywords_ok (batch_keywords : list string) :
  In batch_keywords (batches keywords) ->
  df_empty (interest_over_time batch_keywords) = false ->
  forall (some_keywords : list string) (results r : Results),
    incl some_keywords batch_keywords ->
    stored_ok interest_over_time keywords results ->
    store_keywords (interest_over_time batch_keywords) results some_keywords = Ok r ->
    stored_ok interest_over_time keywords r.
Proof.
  intros Hb He. induction some_keywords as [| keyword rest IH];
    intros results r Hincl Hok H.
  - inversion H; subst r. exact Hok.
  - cbn [store_keywords] in H.
    destruct (store_keyword (interest_over_time batch_keywords) results keyword)
      as [results' | e] eqn:E; [| discriminate H].
    cbn [bind] in H. apply (IH results' r).
    + intros k Hk. apply Hincl. right. exact Hk.
    + apply (store_keyword_ok batch_keywords results results' keyword);
        try assumption.
      apply Hincl. left. reflexivity.
    + exact H.
Qed.

Lemma run_batches_ok (bs : list (list string)) :
  incl bs (batches keywords) ->
  forall results r,
    stored_ok interest_over_time keywords results ->
    run_batches interest_over_time results bs = Ok r ->
    stored_ok interest_over_time keywords r.
Proof.
  induction bs as [| batch_keywords rest IH]; intros Hincl results r Hok H.
  - inversion H; subst r. exact Hok.
  - cbn [run_batches] in H.
    destruct (store_batch (interest_over_time batch_keywords) results batch_keywords)
      as [results' | e] eqn:E; [| discriminate H].
    cbn [bind] in H. apply (IH (fun b Hb => Hincl b (or_intror Hb)) results' r);
      [| exact H].
    unfold store_batch in E.
    destruct (df_empty (interest_over_time batch_keywords)) eqn:Ee; cbn [negb] in E.
    + inversion E; subst results'. exact Hok.
    + apply (store_keywords_ok batch_keywords (Hincl _ (or_introl eq_refl)) Ee
               batch_keywords results results'); [apply incl_refl | exact Hok | exact E].
Qed.

End Stored.

Lemma In_batches (keywords batch_keywords : list string) (keyword : string) :
  In batch_keywords (batches keywords) -> In keyword batch_keywords ->
  In keyword keywords.
Proof.
  intros Hb Hk. rewrite <- (concat_batches keywords). apply in_concat. exists batch_keywords. split; assumption.
Qed.

(** X2.  Whatever the service answers, when [run] returns the three
    dictionaries "trend_data", "trend_analysis" and "predictions" hold the
    same keywords in the same order; the analysis and the forecast stored
    for a keyword are those of the series stored for it; and every stored
    series is non-empty, belongs to one of the requested keywords and is
    the column of that keyword in the non-empty frame of a batch that
    holds it. *)
Theorem results_stay_in_step (interest_over_time : list string -> DataFrame)
  (keywords : list string) (r : Results) :
  run interest_over_time keywords = Ok r ->
  in_step r /\
  forall keyword trend_values,
    dict_get keyword (trend_data r) = Some trend_values ->
    In keyword keywords /\ trend_values <> [] /\
    column_of_a_batch interest_over_time keywords keyword trend_values.
Proof.
  intro H. unfold run in H.
  assert (Hok : stored_ok interest_over_time keywords r).
  { apply (run_batches_ok interest_over_time keywords (batches keywords)
             (incl_refl _) empty_results r); [| exact H].
    split; [exact in_step_empty |]. intros keyword trend_values Hg.
    discriminate Hg. }
  destruct Hok as [Hstep Hcol]. split; [exact Hstep |].
  intros keyword trend_values Hg.
  pose proof (Hcol keyword trend_values Hg) as Hc.
  split; [| split; [| exact Hc]].
  - destruct Hc as [batch_keywords [Hb [Hk _]]].
    exact (In_batches keywords batch_keywords keyword Hb Hk).
  - destruct Hstep as [_ [_ Hs]].
    destruct (Hs keyword trend_values Hg) as [[analysis [_ Ha]] _].
    intro Hnil. subst trend_values. discriminate Ha.
Qed.

Lemma results_stay_in_step_witness :
  exists r,
    run steady_interest ["ai"; "ml"]%string = Ok r /\ in_step r.
Proof.
  assert (H : exists r, run steady_interest ["ai"; "ml"]%string = Ok r).
  { vm_compute. eexists. reflexivity. }
  destruct H as [r Hr]. exists r. split; [exact Hr |].
  exact (proj1 (results_stay_in_step steady_interest ["ai"; "ml"]%string r Hr)).
Defined.

(** *** The statistics of a series *)

Lemma fold_min_spec (rest : list Z) (v : Z) :
  In (fold_left Z.min rest v) (v :: rest) /\
  forall x, In x (v :: rest) -> (fold_left Z.min rest v <= x)%Z.
Proof.
  revert v. induction rest as [| y rest IH]; intro v.
  - cbn [fold_left]. split; [left; reflexivity |].
    intros x [<- | []]. lia.
  - cbn [fold_left]. destruct (IH (Z.min v y)) as [Hin Hle]. split.
    + destruct Hin as [Hin | Hin].
      * rewrite <- Hin. destruct (Z.min_spec v y) as [[_ ->] | [_ ->]];
          [left; reflexivity | right; left; reflexivity].
      * right. right. exact Hin.
    + intros x [<- | [<- | Hx]].
      * specialize (Hle (Z.min v y) (or_introl eq_refl)). lia.
      * specialize (Hle (Z.min v y) (or_introl eq_refl)). lia.
      * apply Hle. right. exact Hx.
Qed.

Lemma fold_max_spec (rest : list Z) (v : Z) :
  In (fold_left Z.max rest v) (v :: rest) /\
  forall x, In x (v :: rest) -> (x <= fold_left Z.max rest v)%Z.
Proof.
  revert v. induction rest as [| y rest IH]; intro v.
  - cbn [fold_left]. split; [left; reflexivity |].
    intros x [<- | []]. lia.
  - cbn [fold_left]. destruct (IH (Z.max v y)) as [Hin Hle]. split.
    + destruct Hin as [Hin | Hin].
      * rewrite <- Hin. destruct (Z.max_spec v y) as [[_ ->] | [_ ->]];
          [right; left; reflexivity | left; reflexivity].
      * right. right. exact Hin.
    + intros x [<- | [<- | Hx]].
      * specialize (Hle (Z.max v y) (or_introl eq_refl)). lia.
      * specialize (Hle (Z.max v y) (or_introl eq_refl)). lia.
      * apply Hle. right. exact Hx.
Qed.

Lemma insert_sorted_perm (z : Z) (l : list Z) :
  Permutation (insert_sorted z l) (z :: l).
Proof.
  induction l as [| y l IH]; [apply Permutation_refl |].
  cbn [insert_sorted]. destruct (z <=? y)%Z; [apply Permutation_refl |].
  apply perm_trans with (y :: z :: l); [apply perm_skip; exact IH | apply perm_swap].
Qed.

Lemma sort_ints_perm (l : list Z) : Permutation (sort_ints l) l.
Proof.
  induction l as [| z l IH]; [apply Permutation_refl |].
  cbn [sort_ints fold_right]. fold (sort_ints l).
  apply perm_trans with (z :: sort_ints l);
    [apply insert_sorted_perm | apply perm_skip; exact IH].
Qed.

Lemma nth_sorted_in (l : list Z) (i : nat) :
  (i < List.length l)%nat -> In (nth i (sort_ints l) 0%Z) l.
Proof.
  intro H. apply (Permutation_in _ (sort_ints_perm l)).
  apply nth_In. rewrite (Permutation_length (sort_ints_perm l)). exact H.
Qed.

Lemma median_within (values : list Z) (lo hi : Z) :
  values <> [] ->
  (forall v, In v values -> (lo <= v <= hi)%Z) ->
  exists md, np_median values = Fin md /\ (inject_Z lo <= md <= inject_Z hi)%Q.
Proof.
  intros Hne Hb. unfold np_median.
  pose proof (Permutation_length (sort_ints_perm values)) as Hl.
  assert (Hn : (1 <= List.length (sort_ints values))%nat).
  { rewrite Hl. destruct values; [contradiction | cbn [List.length]; lia]. }
  destruct (List.length (sort_ints values)) as [| n'] eqn:En; [lia |].
  assert (Hdiv : (S n' / 2 < S n')%nat) by (apply Nat.div_lt; lia).
  destruct (Nat.odd (S n')) eqn:Eo.
  - eexists. split; [reflexivity |].
    assert (Hin := nth_sorted_in values (S n' / 2) ltac:(lia)).
    destruct (Hb _ Hin) as [H1 H2].
    split; rewrite <- Zle_Qle; assumption.
  - eexists. split; [reflexivity |].
    assert (Hin1 := nth_sorted_in values (S n' / 2 - 1) ltac:(lia)).
    assert (Hin2 := nth_sorted_in values (S n' / 2) ltac:(lia)).
    destruct (Hb _ Hin1) as [A1 A2]. destruct (Hb _ Hin2) as [B1 B2].
    rewrite Zle_Qle in A1, A2, B1, B2.
    split.
    + apply Qle_shift_div_l; [reflexivity | lra].
    + apply Qle_shift_div_r; [reflexivity | lra].
Qed.

Lemma sum_within (values : list Z) (lo hi : Z) :
  (forall v, In v values -> (lo <= v <= hi)%Z) ->
  (lenQ values * inject_Z lo <= sumQ (to_floats values)
   <= lenQ values * inject_Z hi)%Q.
Proof.
  induction values as [| v values IH]; intro Hb.
  - change (lenQ (@nil Z)) with 0%Q. cbn [to_floats map sumQ fold_right]. lra.
  - assert (IH' := IH (fun x Hx => Hb x (or_intror Hx))).
    destruct (Hb v (or_introl eq_refl)) as [H1 H2].
    rewrite Zle_Qle in H1, H2.
    pose proof (lenQ_cons v values) as Hc.
    cbn [to_floats map sumQ fold_right]. fold (to_floats values). fold (sumQ (to_floats values)).
    rewrite Hc. lra.
Qed.

Lemma mean_within (values : list Z) (lo hi : Z) :
  values <> [] ->
  (forall v, In v values -> (lo <= v <= hi)%Z) ->
  exists m, np_mean (to_floats values) = Fin m /\
            (inject_Z lo <= m <= inject_Z hi)%Q.
Proof.
  intros Hne Hb. rewrite np_mean_nonempty by (apply to_floats_nonempty; exact Hne).
  eexists. split; [reflexivity |].
  assert (Hlen : lenQ (to_floats values) = lenQ values).
  { unfold lenQ, to_floats. rewrite length_map. reflexivity. }
  rewrite Hlen. pose proof (lenQ_pos values Hne) as Hp.
  destruct (sum_within values lo hi Hb) as [H1 H2].
  split.
  - apply Qle_shift_div_l; [exact Hp |]. lra.
  - apply Qle_shift_div_r; [exact Hp |]. lra.
Qed.

Lemma Qsqrt_nonneg (q : Q) : (0 <= Qsqrt q)%Q.
Proof.
  unfold Qsqrt, Qle. cbn [Qnum Qden]. rewrite Z.mul_1_r. cbn [Z.mul].
  apply Z.sqrt_nonneg.
Qed.

(** X3.  The statistics stored for a non-empty series are all numbers,
    and they are ordered as statistics should be: "min" and "max" are
    samples of the series that bound every sample, "mean" and "median" lie
    between them, and "std" is not negative. *)
Theorem statistics_within_range (values : list Z) :
  values <> [] ->
  exists a lo hi m md s,
    trend_analysis_of values = Ok a /\
    min a = of_int lo /\ max a = of_int hi /\
    In lo values /\ In hi values /\
    (forall v, In v values -> (lo <= v <= hi)%Z) /\
    mean a = Fin m /\ (inject_Z lo <= m <= inject_Z hi)%Q /\
    median a = Fin md /\ (inject_Z lo <= md <= inject_Z hi)%Q /\
    std a = Fin s /\ (0 <= s)%Q.
Proof.
  intro Hne. destruct values as [| v rest] eqn:Ev; [contradiction |].
  rewrite <- Ev in *.
  assert (Hmin : np_min values = Ok (of_int (fold_left Z.min rest v)))
    by (rewrite Ev; reflexivity).
  assert (Hmax : np_max values = Ok (of_int (fold_left Z.max rest v)))
    by (rewrite Ev; reflexivity).
  destruct (fold_min_spec rest v) as [Hlo_in Hlo]. rewrite <- Ev in Hlo_in, Hlo.
  destruct (fold_max_spec rest v) as [Hhi_in Hhi]. rewrite <- Ev in Hhi_in, Hhi.
  set (lo := fold_left Z.min rest v) in *. set (hi := fold_left Z.max rest v) in *.
  assert (Hb : forall x, In x values -> (lo <= x <= hi)%Z).
  { intros x Hx. split; [apply Hlo | apply Hhi]; exact Hx. }
  destruct (mean_within values lo hi Hne Hb) as [m [Hm Hmb]].
  destruct (median_within values lo hi Hne Hb) as [md [Hmd Hmdb]].
  destruct (np_std_nonempty (to_floats values) (to_floats_nonempty values Hne))
    as [var [_ [_ Hs]]].
  unfold trend_analysis_of. rewrite Hmin, Hmax, (direction_of_fit values Hne).
  cbn [bind].
  eexists. exists lo, hi, m, md, (Qsqrt var).
  split; [reflexivity |]. cbn [min max mean median std].
  repeat split; try assumption; try reflexivity; try (apply Hb; assumption).
  - apply Hmb.
  - apply Hmb.
  - apply Hmdb.
  - apply Hmdb.
  - apply Qsqrt_nonneg.
Qed.

Lemma statistics_within_range_witness :
  exists a,
    trend_analysis_of [40; 50; 60]%Z = Ok a /\
    min a = of_int 40 /\ max a = of_int 60.
Proof.
  destruct (statistics_within_range [40; 50; 60]%Z ltac:(discriminate))
    as [a [lo [hi [m [md [s [Ha [Hlo [Hhi _]]]]]]]]].
  exists a. split; [exact Ha |].
  assert (E : trend_analysis_of [40; 50; 60]%Z = Ok a) by exact Ha.
  vm_compute in E. inversion E; subst a. split; reflexivity.
Defined.


(** *** Direction, forecast and momentum *)

(** X4.  On a series of 2 or more samples the forecast and the direction
    come from the same fitted line: from one forecast day to the next the
    forecast changes by exactly the slope, the direction "increasing" is
    only reported with a positive slope (a forecast that increases
    strictly), and the direction "decreasing" only with a slope that is
    not positive (a forecast that never increases). *)
Theorem forecast_follows_direction (values : list Z) :
  (2 <= List.length values)%nat ->
  exists res s forecast,
    linregress (arange 0 (List.length values)) (to_floats values) = Ok res /\
    slope res = Fin s /\
    _predict_trend values = Ok forecast /\
    (forall k, (S k < 30)%nat ->
       exists p q,
         nth_error forecast k = Some (Fin p) /\
         nth_error forecast (S k) = Some (Fin q) /\
         (q - p == s)%Q) /\
    (_calculate_trend_direction values = Ok "increasing"%string -> (0 < s)%Q) /\
    (_calculate_trend_direction values = Ok "decreasing"%string -> (s <= 0)%Q).
Proof.
  intro Hlen. pose proof (length_nonempty values Hlen) as Hne.
  exists (fit_of values), (ssxym values / ssxm values)%Q.
  rewrite (predict_trend_values values Hlen). eexists.
  split; [apply (linregress_ok values Hne) |].
  split; [apply (slope_finite values Hlen) |].
  split; [reflexivity |].
  split; [| split].
  - intros k Hk. unfold arange. rewrite map_map.
    rewrite !nth_error_map.
    rewrite (nth_error_nth' (seq (List.length values) 30) 0%nat)
      by (rewrite length_seq; lia).
    rewrite (nth_error_nth' (seq (List.length values) 30) 0%nat)
      by (rewrite length_seq; lia).
    rewrite !seq_nth by lia. cbn [option_map].
    eexists. eexists. split; [reflexivity |]. split; [reflexivity |].
    replace (List.length values + S k)%nat with (S (List.length values + k)) by lia.
    rewrite Nat2Z.inj_succ. unfold Z.succ. rewrite inject_Z_plus. ring.
  - rewrite (direction_of_fit values Hne). unfold direction_of.
    rewrite (slope_finite values Hlen).
    destruct (npltb (npabs (rvalue (fit_of values))) (Fin (3 # 10)));
      [intro H; discriminate H |].
    destruct (npgtb (Fin (ssxym values / ssxm values)) (Fin 0)) eqn:E;
      [| intro H; discriminate H].
    intros _. cbn [npgtb] in E. apply Qltb_lt. exact E.
  - rewrite (direction_of_fit values Hne). unfold direction_of.
    rewrite (slope_finite values Hlen).
    destruct (npltb (npabs (rvalue (fit_of values))) (Fin (3 # 10)));
      [intro H; discriminate H |].
    destruct (npgtb (Fin (ssxym values / ssxm values)) (Fin 0)) eqn:E;
      [intro H; discriminate H |].
    intros _. cbn [npgtb] in E. apply Qltb_ge. exact E.
Qed.

Lemma forecast_follows_direction_witness :
  exists res s forecast,
    linregress (arange 0 3) (to_floats [40; 50; 60]%Z) = Ok res /\
    slope res = Fin s /\
    _predict_trend [40; 50; 60]%Z = Ok forecast /\
    (0 < s)%Q.
Proof.
  destruct (forecast_follows_direction [40; 50; 60]%Z ltac:(cbn; lia))
    as [res [s [forecast [Hres [Hs [Hf [_ [Hinc _]]]]]]]].
  exists res, s, forecast. repeat split; try assumption.
  apply Hinc. vm_compute. reflexivity.
Defined.

(** X5.  A series with a single sample is analysed without an exception:
    its extremes and median are the sample, its mean is the sample, its
    deviation is 0 and its momentum is 0; but the line fitted to a single
    point has no slope, no intercept and no correlation (all three are
    [nan]), so that the direction is "decreasing" and the forecast is
    thirty times [nan]. *)
Theorem single_sample_series (v : Z) :
  exists a,
    trend_analysis_of [v] = Ok a /\
    min a = of_int v /\ max a = of_int v /\ median a = of_int v /\
    npeq (mean a) (of_int v) /\
    npeq (std a) (Fin 0) /\
    linregress (arange 0 1) (to_floats [v])
    = Ok {| slope := NaN; intercept := NaN; rvalue := NaN |} /\
    trend_direction a = "decreasing"%string /\
    momentum a = Fin 0 /\
    _predict_trend [v] = Ok (repeat NaN 30).
Proof.
  assert (Hne : [v] <> []) by discriminate.
  assert (Hfit : fit_of [v] = {| slope := NaN; intercept := NaN; rvalue := NaN |}).
  { unfold fit_of. vm_compute. reflexivity. }
  destruct (trend_analysis_of_ok [v] Hne) as [a [Ha [Hmean [Hstd [Hdir [_ Hmom]]]]]].
  exists a. split; [exact Ha |].
  assert (Hd : _calculate_trend_direction [v] = Ok "decreasing"%string)
    by (apply (direction_repeat v 1); lia).
  unfold trend_analysis_of in Ha. rewrite Hd in Ha. cbn [np_min np_max bind] in Ha.
  inversion Ha as [Ea]. cbn [min max median mean std trend_direction momentum].
  split; [reflexivity |]. split; [reflexivity |]. split; [reflexivity |].
  split; [| split; [| split; [| split; [reflexivity | split; [reflexivity |]]]]].
  - cbn. unfold Qeq. cbn. lia.
  - destruct (np_std_repeat (inject_Z v) 1 ltac:(lia)) as [s [Hs Hs0]].
    cbn [repeat] in Hs. cbn [to_floats map]. rewrite Hs. exact Hs0.
  - change (arange 0 1) with (arange 0 (List.length [v])).
    rewrite (linregress_ok [v] Hne), Hfit. reflexivity.
  - unfold _predict_trend.
    rewrite (linregress_ok [v] Hne), Hfit. reflexivity.
Qed.

Lemma wrap64_small (z : Z) :
  (- 2 ^ 63 <= z < 2 ^ 63)%Z -> wrap64 z = z.
Proof.
  intro H. unfold wrap64. rewrite Z.mod_small; lia.
Qed.

(** X6.  For a series of 2 or more samples whose first sample is positive
    (the samples being non-negative 64-bit integers, as the interest
    values are), the momentum is the number
    [(last - first) / first * 100]; it is never below -100, and it is
    positive, zero or negative exactly when the last sample is above,
    equal to or below the first. *)
Theorem momentum_has_the_sign_of_the_change (values : list Z) :
  (2 <= List.length values)%nat ->
  (0 < hd 0%Z values < 2 ^ 63)%Z ->
  (0 <= List.last values 0%Z < 2 ^ 63)%Z ->
  exists m,
    _calculate_momentum values = Fin m /\
    (m == inject_Z (List.last values 0%Z - hd 0%Z values)
          / inject_Z (hd 0%Z values) * 100)%Q /\
    (- (100) <= m)%Q /\
    ((0 < m)%Q <-> (hd 0%Z values < List.last values 0%Z)%Z) /\
    ((m == 0)%Q <-> List.last values 0%Z = hd 0%Z values) /\
    ((m < 0)%Q <-> (List.last values 0%Z < hd 0%Z values)%Z).
Proof.
  intros Hlen Hf Hl.
  destruct (momentum_cases values Hlen) as [Hm _].
  cbv zeta in Hm. rewrite wrap64_small in Hm by lia.
  rewrite Hm by lia. eexists. split; [reflexivity |].
  split; [reflexivity |].
  generalize dependent (List.last values 0%Z). intros last Hl _.
  generalize dependent (hd 0%Z values). intros first Hf.
  destruct first as [| p | p]; try lia.
  unfold Qdiv, Qinv, Qmult, Qle, Qlt, Qeq, Qopp, inject_Z.
  cbn [Qnum Qden Z.opp]. rewrite ?Pos.mul_1_l, ?Pos.mul_1_r.
  repeat split; intros; lia.
Qed.

Lemma momentum_has_the_sign_of_the_change_witness :
  exists m, _calculate_momentum [40; 50; 60]%Z = Fin m /\ (0 < m)%Q.
Proof.
  destruct (momentum_has_the_sign_of_the_change [40; 50; 60]%Z
              ltac:(cbn; lia) ltac:(cbn; lia) ltac:(cbn; lia))
    as [m [Hm [_ [_ [Hpos _]]]]].
  exists m. split; [exact Hm |]. apply Hpos. cbn. lia.
Defined.


(** *** A constant added to the series *)

Lemma bool_ext (b1 b2 : bool) : (b1 = true <-> b2 = true) -> b1 = b2.
Proof.
  destruct b1, b2; intros [H1 H2]; try reflexivity.
  - symmetry. apply H1. reflexivity.
  - apply H2. reflexivity.
Qed.



Lemma Qle_bool_proper (a a' b b' : Q) :
  (a == a')%Q -> (b == b')%Q -> Qle_bool a b = Qle_bool a' b'.
Proof.
  intros Ha Hb. apply bool_ext. rewrite !Qle_bool_iff, Ha, Hb. reflexivity.
Qed.







Section Offset.

Variable c : Z.














End Offset.




(** *** Falling and flat lines *)

Lemma rvalue_falling (a b : Z) (n : nat) :
  (2 <= n)%nat -> (a < 0)%Z ->
  exists r, rvalue (fit_of (linear_series a b n)) = Fin r /\ (r == -1)%Q.
Proof.
  intros Hn Ha0.
  pose proof (ssxm_pos (linear_series a b n) (values_long a b n Hn)) as Hx.
  assert (Ha : (inject_Z a < 0)%Q)
    by (change 0%Q with (inject_Z 0); rewrite <- Zlt_Qlt; exact Ha0).
  pose proof (ssxym_linear a b n Hn) as Hxy.
  pose proof (ssym_linear a b n Hn) as Hy.
  set (V := ssxm (linear_series a b n)) in *. set (A := inject_Z a) in *.
  assert (HAV : (0 < - (A * V))%Q) by nra.
  unfold fit_of. cbn [rvalue]. fold V.
  assert (E1 : Qeq_bool V 0 = false) by (apply Qeq_bool_false; lra).
  assert (E2 : Qeq_bool (ssym (linear_series a b n)) 0 = false).
  { apply Qeq_bool_false. rewrite Hy. nra. }
  rewrite E1, E2. cbn [orb].
  assert (Hsq : (V * ssym (linear_series a b n) == (- (A * V)) * (- (A * V)))%Q)
    by (rewrite Hy; ring).
  unfold np_sqrt.
  assert (E3 : Qltb (V * ssym (linear_series a b n)) 0 = false).
  { apply Qltb_ge. rewrite Hsq. apply Qsquare_nonneg. }
  rewrite E3, (Qsqrt_proper _ _ Hsq).
  pose proof (Qsqrt_square (- (A * V))) as Hroot.
  set (s := Qsqrt (- (A * V) * - (A * V))) in *.
  assert (Hs : (s == - (A * V))%Q) by (apply Hroot; lra).
  unfold npdiv.
  assert (E4 : Qeq_bool s 0 = false) by (apply Qeq_bool_false; lra).
  rewrite E4.
  assert (Hr : (ssxym (linear_series a b n) / s == -1)%Q).
  { rewrite Hxy, Hs. field. lra. }
  unfold clip_r, npltb, npgtb.
  assert (E5 : Qltb 1 (ssxym (linear_series a b n) / s) = false)
    by (apply Qltb_ge; lra).
  assert (E6 : Qltb (ssxym (linear_series a b n) / s) (-1) = false)
    by (apply Qltb_ge; lra).
  rewrite E5, E6. eexists. split; [reflexivity | exact Hr].
Qed.

Lemma direction_falling (a b : Z) (n : nat) :
  (2 <= n)%nat -> (a < 0)%Z ->
  _calculate_trend_direction (linear_series a b n) = Ok "decreasing"%string.
Proof.
  intros Hn Ha0.
  rewrite (direction_of_fit _ (length_nonempty _ (values_long a b n Hn))).
  unfold direction_of.
  destruct (rvalue_falling a b n Hn Ha0) as [r [Hr Hr1]]. rewrite Hr.
  rewrite (slope_finite _ (values_long a b n Hn)).
  unfold npltb, npgtb, npabs.
  assert (Ha : (inject_Z a < 0)%Q)
    by (change 0%Q with (inject_Z 0); rewrite <- Zlt_Qlt; exact Ha0).
  assert (E1 : Qltb (Qabs r) (3 # 10) = false).
  { apply Qltb_ge. rewrite (Qabs_wd _ _ Hr1). change (Qabs (-1)) with 1%Q. lra. }
  assert (E2 : Qltb 0 (ssxym (linear_series a b n)
                       / ssxm (linear_series a b n)) = false).
  { apply Qltb_ge. rewrite (slope_linear a b n Hn). lra. }
  rewrite E1, E2. reflexivity.
Qed.

(** A flat line has no correlation with the index: the coefficient is
    [nan], and the direction is "decreasing". *)
Lemma direction_flat (b : Z) (n : nat) :
  (2 <= n)%nat ->
  _calculate_trend_direction (linear_series 0 b n) = Ok "decreasing"%string.
Proof.
  intro Hn.
  rewrite (direction_of_fit _ (length_nonempty _ (values_long 0 b n Hn))).
  unfold direction_of.
  rewrite (slope_finite _ (values_long 0 b n Hn)).
  unfold fit_of. cbn [rvalue].
  assert (E : Qeq_bool (ssym (linear_series 0 b n)) 0 = true).
  { apply Qeq_bool_iff. rewrite (ssym_linear 0 b n Hn).
    change (inject_Z 0) with 0%Q. ring. }
  assert (E' : Qeq_bool (ssxym (linear_series 0 b n)) 0 = true).
  { apply Qeq_bool_iff. rewrite (ssxym_linear 0 b n Hn).
    change (inject_Z 0) with 0%Q. ring. }
  rewrite E, E', orb_true_r. cbn [npabs npltb npgtb].
  assert (E2 : Qltb 0 (ssxym (linear_series 0 b n)
                       / ssxm (linear_series 0 b n)) = false).
  { apply Qltb_ge. rewrite (slope_linear 0 b n Hn). apply Qle_refl. }
  rewrite E2. reflexivity.
Qed.

(** X8.  A series that lies on a line that falls or is flat
    ([a * k + b] with [a <= 0], 2 or more samples) is classified
    "decreasing", also when it is flat (the correlation of a flat line is
    [nan], which is not below 0.3), and its forecast continues the line
    exactly: the value for the index [n + k] is [a * (n + k) + b], which
    goes below zero for a falling line. *)
Theorem falling_line_is_continued (a b : Z) (n : nat) :
  (2 <= n)%nat -> (a <= 0)%Z ->
  _calculate_trend_direction (linear_series a b n)
  = Ok "decreasing"%string /\
  exists forecast,
    _predict_trend (linear_series a b n) = Ok forecast /\
    List.length forecast = 30%nat /\
    forall k p,
      nth_error forecast k = Some p ->
      npeq p (of_int (a * Z.of_nat (n + k) + b)).
Proof.
  intros Hn Ha. split.
  - destruct (Z.eq_dec a 0) as [E | E].
    + subst a. apply direction_flat. exact Hn.
    + apply direction_falling; [exact Hn | lia].
  - rewrite (predict_trend_values _ (values_long a b n Hn)).
    eexists. split; [reflexivity |].
    split; [unfold arange; rewrite !length_map, length_seq; reflexivity |].
    intros k p Hk. unfold arange in Hk. rewrite map_map, nth_error_map in Hk.
    rewrite (length_linear a b n) in Hk.
    destruct (nth_error (seq n 30) k) as [i |] eqn:Ei; [| discriminate Hk].
    assert (Hlt : (k < 30)%nat).
    { assert (Hs : nth_error (seq n 30) k <> None) by (rewrite Ei; discriminate).
      apply nth_error_Some in Hs. rewrite length_seq in Hs. exact Hs. }
    apply (nth_error_nth _ _ O) in Ei. rewrite seq_nth in Ei by exact Hlt.
    subst i. cbn [option_map] in Hk. inversion Hk; subst p.
    unfold of_int. cbn [npeq].
    pose proof (slope_linear a b n Hn) as Hs.
    pose proof (intercept_linear a b n Hn) as Hi.
    rewrite (length_linear a b n) in Hi.
    rewrite Hi, Hs, inject_Z_plus, inject_Z_mult. reflexivity.
Qed.

Lemma falling_line_is_continued_witness :
  _calculate_trend_direction [50; 40; 30]%Z = Ok "decreasing"%string /\
  _calculate_trend_direction [5; 5; 5]%Z = Ok "decreasing"%string /\
  exists forecast,
    _predict_trend [50; 40; 30]%Z = Ok forecast /\
    List.length forecast = 30%nat.
Proof.
  destruct (falling_line_is_continued (-10) 50 3 ltac:(lia) ltac:(lia))
    as [Hd [forecast [Hf [Hl _]]]].
  destruct (falling_line_is_continued 0 5 3 ltac:(lia) ltac:(lia))
    as [Hflat _].
  split; [exact Hd |]. split; [exact Hflat |].
  exists forecast. split; [exact Hf | exact Hl].
Defined.

End TrendExtras.

(** ** content_optimizer.py *)

Module ContentExtras.
Import ContentOptimizer.
Import ContentFacts.
Import ListFacts.
Import CounterFacts.

(** The value the comprehension of lines 132-135 stores for a word that
    occurs [count] times among [total] words. *)
Lemma optimize_seo_density (TextBlob : string -> Blob) (content : Content) :
  let words := findall_words EmptyString (lower (all_text_of content)) in
  exists r,
    _optimize_seo TextBlob content = Ok r /\
    keyword_density r
    = map (fun wc => (fst wc, (inject_Z (snd wc) / lenQ words * 100)%Q))
          (most_common 10 (Counter words)).
Proof.
  intro words. unfold _optimize_seo. fold words.
  assert (Hkd : density_of (Z.of_nat (List.length words))
                           (most_common 10 (Counter words))
                = Ok (map (fun wc => (fst wc, (inject_Z (snd wc) / lenQ words * 100)%Q))
                          (most_common 10 (Counter words)))).
  { destruct words as [| w ws] eqn:Ew.
    - reflexivity.
    - rewrite density_of_ok by (cbn [List.length]; lia). reflexivity. }
  rewrite Hkd. cbn [bind].
  set (blob := TextBlob (all_text_of content)).
  assert (Hr : exists score, _calculate_readability blob = Ok score).
  { destruct (sentences blob) eqn:Es.
    - exists 0%Q. apply readability_guarded. left. exact Es.
    - destruct (ContentOptimizer.words blob) eqn:Ewd.
      + exists 0%Q. apply readability_guarded. right. exact Ewd.
      + destruct (readability_scored blob) as [score [Hs _]];
          [rewrite Es; discriminate | rewrite Ewd; discriminate |].
        exists score. exact Hs. }
  destruct Hr as [score Hscore]. rewrite Hscore. cbn [bind].
  eexists. split; reflexivity.
Qed.

Lemma occurrences_le_length (k : string) (ws : list string) :
  (occurrences k ws <= Z.of_nat (List.length ws))%Z.
Proof.
  unfold occurrences. pose proof (filter_length_le (String.eqb k) ws). lia.
Qed.

Lemma sum_densities (T : Q) (l : list (string * Z)) :
  (sumQ (map snd (map (fun wc => (fst wc, (inject_Z (snd wc) / T * 100)%Q)) l))
   == inject_Z (total_count l) / T * 100)%Q.
Proof.
  unfold total_count. induction l as [| [w n] l IH].
  - cbn [map sumQ fold_right]. unfold Qdiv. ring.
  - cbn [map sumQ fold_right snd fst].
    change (fold_right Qplus 0%Q ?x) with (sumQ x).
    rewrite IH, inject_Z_plus. unfold Qdiv. ring.
Qed.

Lemma density_monotone (T : Q) (a b : Z) :
  (0 < T)%Q -> (a <= b)%Z ->
  (inject_Z a / T * 100 <= inject_Z b / T * 100)%Q.
Proof.
  intros HT Hab. unfold Qdiv.
  apply Qmult_le_compat_r; [| discriminate].
  apply Qmult_le_compat_r; [rewrite <- Zle_Qle; exact Hab |].
  apply Qinv_le_0_compat. apply Qlt_le_weak. exact HT.
Qed.

Lemma density_of_all (T : Q) : (0 < T)%Q -> (T / T * 100 == 100)%Q.
Proof.
  intro HT. field. intro H. rewrite H in HT. exact (Qlt_irrefl 0 HT).
Qed.

(** X9.  The "keyword_density" dictionary of [_optimize_seo] has at most
    10 entries; its keys are distinct words of the lower-cased text; the
    value of a word is its share of all the words of the text in percent,
    which is above 0 and at most 100; the values never increase from one
    entry to the next (the first entry is the densest word); together they
    make up at most 100; and the dictionary is empty exactly when the text
    has no word (so that the division by the number of words is never
    evaluated with 0). *)
Theorem keyword_density_shape (TextBlob : string -> Blob) (content : Content) :
  let words := findall_words EmptyString (lower (all_text_of content)) in
  exists r,
    _optimize_seo TextBlob content = Ok r /\
    (List.length (keyword_density r) <= 10)%nat /\
    NoDup (dict_keys (keyword_density r)) /\
    (forall w d,
        In (w, d) (keyword_density r) ->
        In w words /\
        (d == inject_Z (occurrences w words) / lenQ words * 100)%Q /\
        (0 < d <= 100)%Q) /\
    (forall i j x y,
        (i < j)%nat ->
        nth_error (keyword_density r) i = Some x ->
        nth_error (keyword_density r) j = Some y ->
        (snd y <= snd x)%Q) /\
    (sumQ (map snd (keyword_density r)) <= 100)%Q /\
    (keyword_density r = [] <-> words = []).
Proof.
  intro words.
  destruct (optimize_seo_density TextBlob content) as [r [Hr Hkd]].
  fold words in Hkd. exists r. split; [exact Hr |]. rewrite Hkd.
  set (F := fun wc : string * Z => (fst wc, (inject_Z (snd wc) / lenQ words * 100)%Q)).
  assert (Hpos : words <> [] -> (0 < lenQ words)%Q) by (apply lenQ_pos).
  assert (Hin : forall w n, In (w, n) (most_common 10 (Counter words)) ->
                            In w words /\ n = occurrences w words /\
                            (0 < n <= Z.of_nat (List.length words))%Z).
  { intros w n H. apply In_most_common, In_Counter in H. destruct H as [Hw ->].
    split; [exact Hw |]. split; [reflexivity |].
    split; [apply occurrences_pos; exact Hw | apply occurrences_le_length]. }
  split; [| split; [| split; [| split; [| split]]]].
  - rewrite length_map. apply length_most_common.
  - unfold dict_keys. rewrite map_map. cbn [F fst].
    apply (NoDup_most_common 10 (Counter words) (NoDup_Counter words)).
  - intros w d H. apply in_map_iff in H. destruct H as [[w' n] [E H]].
    unfold F in E. cbn [fst snd] in E. inversion E; subst w' d; clear E.
    destruct (Hin w n H) as [Hw [Hn [Hn0 Hn1]]].
    assert (Hne : words <> []) by (intro E; rewrite E in Hw; destruct Hw).
    specialize (Hpos Hne).
    split; [exact Hw |]. split; [rewrite Hn; reflexivity |].
    split.
    + apply Qmult_lt_0_compat; [| reflexivity].
      apply Qlt_shift_div_l; [exact Hpos |].
      rewrite Qmult_0_l. change 0%Q with (inject_Z 0). rewrite <- Zlt_Qlt. exact Hn0.
    + apply Qle_trans with (lenQ words / lenQ words * 100)%Q;
        [| rewrite (density_of_all (lenQ words) Hpos); apply Qle_refl].
      apply (density_monotone (lenQ words) n (Z.of_nat (List.length words)) Hpos Hn1).
  - intros i j x y Hij Hx Hy. rewrite nth_error_map in Hx, Hy.
    destruct (nth_error (most_common 10 (Counter words)) i) as [[wx nx] |] eqn:Ex;
      [| discriminate Hx].
    destruct (nth_error (most_common 10 (Counter words)) j) as [[wy ny] |] eqn:Ey;
      [| discriminate Hy].
    cbn [option_map] in Hx, Hy. inversion Hx; subst x. inversion Hy; subst y.
    unfold F. cbn [fst snd].
    pose proof (most_common_decreasing 10 (Counter words) i j _ _ Hij Ex Ey) as Hd.
    cbn [snd] in Hd.
    destruct (Hin wx nx (nth_error_In _ _ Ex)) as [Hw _].
    assert (Hne : words <> []) by (intro E; rewrite E in Hw; destruct Hw).
    apply (density_monotone (lenQ words) ny nx (Hpos Hne) Hd).
  - unfold F. rewrite sum_densities.
    destruct words as [| w ws] eqn:Ew; [discriminate |]. rewrite <- Ew in *.
    assert (Hne : words <> []) by (rewrite Ew; discriminate).
    specialize (Hpos Hne).
    apply Qle_trans with (lenQ words / lenQ words * 100)%Q;
      [| rewrite (density_of_all (lenQ words) Hpos); apply Qle_refl].
    apply (density_monotone (lenQ words) _ (Z.of_nat (List.length words)) Hpos).
    rewrite <- (total_Counter words). apply total_most_common.
    intros [k n] Hk. apply In_Counter in Hk. destruct Hk as [_ ->].
    apply occurrences_nonneg.
  - split.
    + intro H. destruct words as [| w ws] eqn:Ew; [reflexivity |]. exfalso.
      rewrite <- Ew in *.
      assert (Hc : In (w, occurrences w words) (Counter words)).
      { apply In_Counter. split; [rewrite Ew; left; reflexivity | reflexivity]. }
      apply In_sorted_by_count in Hc. unfold most_common in H.
      destruct (sorted_by_count (Counter words)); [destruct Hc | discriminate H].
    + intros ->. reflexivity.
Qed.


(** *** The score *)

Lemma outcome_counts (o : Outcome) :
  points o = (25 * passed o)%Z /\
  (0 <= passed o <= 1)%Z /\
  (passed o + Z.of_nat (List.length (messages o))
   = match o with Skipped => 0 | _ => 1 end)%Z /\
  (passed o = 1%Z -> messages o = []).
Proof.
  destruct o; cbn [points passed messages List.length];
    (split; [reflexivity | split; [lia | split; [reflexivity |]]]);
    intro H; try reflexivity; discriminate H.
Qed.

Lemma title_applies (content : Content) :
  match title_outcome content with Skipped => 0%Z | _ => 1%Z end
  = present (title content).
Proof.
  unfold title_outcome, present. destruct (title content) as [t |]; [| reflexivity].
  destruct (String.length t <? 30)%nat; [reflexivity |].
  destruct (60 <? String.length t)%nat; reflexivity.
Qed.

Lemma description_applies (content : Content) :
  match description_outcome content with Skipped => 0%Z | _ => 1%Z end
  = present (description content).
Proof.
  unfold description_outcome, present.
  destruct (description content) as [d |]; [| reflexivity].
  destruct (String.length d <? 100)%nat; [reflexivity |].
  destruct (5000 <? String.length d)%nat; reflexivity.
Qed.

Lemma tags_applies (content : Content) :
  match tags_outcome content with Skipped => 0%Z | _ => 1%Z end
  = present (tags content).
Proof.
  unfold tags_outcome, present. destruct (tags content) as [ts |]; [| reflexivity].
  destruct (List.length ts <? 5)%nat; reflexivity.
Qed.

Lemma keyword_applies (kd : list (string * Q)) :
  match keyword_outcome kd with Skipped => 0%Z | _ => 1%Z end
  = match kd with [] => 0%Z | _ => 1%Z end.
Proof.
  unfold keyword_outcome. destruct kd as [| [w d] rest]; [reflexivity |].
  destruct (Qltb 5 (max_value d rest)); [reflexivity |].
  destruct (Qltb (max_value d rest) (1 # 2)); reflexivity.
Qed.

(** X10.  The SEO score is 25 times the number of checks that were
    passed, so one of 0, 25, 50, 75 and 100; every check that applies (a
    key of the content that is present, and the keyword check when the
    text has a word) is either passed or gives exactly one improvement,
    so that passed checks and improvements add up to the number of checks
    that apply; and a score of 100 comes with no improvement. *)
Theorem seo_score_counts_the_passed_checks (TextBlob : string -> Blob)
  (content : Content) :
  exists r n,
    _optimize_seo TextBlob content = Ok r /\
    (0 <= n <= 4)%Z /\
    seo_score r = (25 * n)%Z /\
    (n + Z.of_nat (List.length (improvement_areas r))
     = present (title content) + present (description content)
       + present (tags content)
       + match keyword_density r with [] => 0 | _ => 1 end)%Z /\
    (seo_score r = 100%Z -> improvement_areas r = []).
Proof.
  destruct (optimize_seo_ok TextBlob content) as [r [Hr [Hs Hi]]].
  destruct (outcome_counts (title_outcome content)) as [T1 [T2 [T3 T4]]].
  destruct (outcome_counts (description_outcome content)) as [D1 [D2 [D3 D4]]].
  destruct (outcome_counts (tags_outcome content)) as [G1 [G2 [G3 G4]]].
  destruct (outcome_counts (keyword_outcome (keyword_density r)))
    as [K1 [K2 [K3 K4]]].
  rewrite title_applies in T3. rewrite description_applies in D3.
  rewrite tags_applies in G3. rewrite keyword_applies in K3.
  exists r, (passed (title_outcome content) + passed (description_outcome content)
             + passed (tags_outcome content)
             + passed (keyword_outcome (keyword_density r)))%Z.
  split; [exact Hr |]. split; [lia |]. split; [rewrite Hs; lia |].
  split.
  - rewrite Hi, !length_app. lia.
  - intro H100. rewrite Hs in H100. rewrite Hi.
    rewrite T4, D4, G4, K4 by lia. reflexivity.
Qed.

End ContentExtras.

(** ** sentiment_analyzer.py *)

Module SentimentExtras.
Import SentimentAnalyzer.
Import SentimentFacts.
Import ListFacts.
Import CounterFacts.

(** *** Fetching the comments *)

Lemma length_comments_without_replies (response : Page) :
  List.length (comments_of_page false response)
  = List.length (items response).
Proof.
  unfold comments_of_page. induction (items response) as [| item rest IH];
    [reflexivity |].
  cbn [flat_map]. rewrite length_app, IH. unfold comments_of_item.
  destruct (replies item); reflexivity.
Qed.

Section Bounded.

Variable execute : Z -> option string -> string + Page.
Variable max_comments : Z.

(** The service returns at most [maxResults] threads. *)
Hypothesis honours_maxResults :
  forall n token response,
    (0 < n)%Z -> execute n token = inr response ->
    (Z.of_nat (List.length (items response)) <= n)%Z.

(** A page that announces a next page is not empty. *)
Hypothesis pages_are_not_empty :
  forall n token response,
    execute n token = inr response ->
    no_token (nextPageToken response) = false -> items response <> [].

Lemma fetch_loop_bounded (fuel : nat) :
  forall comments_data token,
    (Z.of_nat (List.length comments_data) <= Z.max 0 max_comments)%Z ->
    (max_comments - Z.of_nat (List.length comments_data) <= Z.of_nat fuel)%Z ->
    exists out,
      fetch_loop execute max_comments false fuel comments_data token = Some out /\
      match out with
      | inl message =>
          exists e, message = ("Error fetching comments: " ++ e)%string
      | inr fetched =>
          (Z.of_nat (List.length fetched) <= Z.max 0 max_comments)%Z
      end.
Proof.
  induction fuel as [| fuel IH]; intros comments_data token Hlen Hfuel.
  - cbn [fetch_loop].
    destruct (Z.of_nat (List.length comments_data) <? max_comments)%Z eqn:E;
      [apply Z.ltb_lt in E; lia |].
    exists (inr comments_data). split; [reflexivity | exact Hlen].
  - cbn [fetch_loop].
    destruct (Z.of_nat (List.length comments_data) <? max_comments)%Z eqn:E;
      [| exists (inr comments_data); split; [reflexivity | exact Hlen]].
    apply Z.ltb_lt in E.
    destruct (execute (Z.min 100 (max_comments - Z.of_nat (List.length comments_data)))
                      token) as [e | response] eqn:Ex.
    + eexists. split; [reflexivity |]. exists e. reflexivity.
    + assert (Hpos : (0 < Z.min 100 (max_comments
                                     - Z.of_nat (List.length comments_data)))%Z)
        by lia.
      assert (Hitems := honours_maxResults _ token response Hpos Ex).
      assert (Hnew : List.length (comments_data ++ comments_of_page false response)
                     = (List.length comments_data + List.length (items response))%nat)
        by (rewrite length_app, length_comments_without_replies; reflexivity).
      destruct (no_token (nextPageToken response)) eqn:Et.
      * exists (inr (comments_data ++ comments_of_page false response)).
        split; [reflexivity |]. rewrite Hnew. lia.
      * assert (Hne := pages_are_not_empty _ _ _ Ex Et).
        assert (1 <= List.length (items response))%nat
          by (destruct (items response); [contradiction | cbn; lia]).
        apply IH; rewrite Hnew; lia.
Qed.

End Bounded.

(** X11.  Without replies, and with a service that returns at most the
    requested number of threads per page and no empty page before the
    last, the fetch ends within [max_comments] requests: it gives either
    the error text of line 59 or at most [max_comments] comments (none
    when [max_comments] is not positive). *)
Theorem fetch_without_replies_is_bounded
  (execute : Z -> option string -> string + Page) (max_comments : Z) :
  (forall n token response,
      (0 < n)%Z -> execute n token = inr response ->
      (Z.of_nat (List.length (items response)) <= n)%Z) ->
  (forall n token response,
      execute n token = inr response ->
      no_token (nextPageToken response) = false -> items response <> []) ->
  exists out,
    fetch_comments execute max_comments false (Z.to_nat max_comments) = Some out /\
    match out with
    | inl message =>
        exists e, message = ("Error fetching comments: " ++ e)%string
    | inr fetched =>
        (Z.of_nat (List.length fetched) <= Z.max 0 max_comments)%Z
    end.
Proof.
  intros H1 H2. unfold fetch_comments.
  apply (fetch_loop_bounded execute max_comments H1 H2); cbn [List.length]; lia.
Qed.

Lemma single_page_honours (threads : list Thread) :
  forall n token response,
    (0 < n)%Z -> single_page threads n token = inr response ->
    (Z.of_nat (List.length (items response)) <= n)%Z.
Proof.
  intros n token response Hn H. unfold single_page in H. inversion H.
  cbn [items]. pose proof (firstn_le_length (Z.to_nat n) threads). lia.
Qed.

Lemma single_page_ends (threads : list Thread) :
  forall n token response,
    single_page threads n token = inr response ->
    no_token (nextPageToken response) = false -> items response <> [].
Proof.
  intros n token response H Ht. unfold single_page in H. inversion H; subst.
  discriminate Ht.
Qed.

Lemma fetch_without_replies_is_bounded_witness :
  exists fetched,
    fetch_comments
      (single_page [thread_with_replies; thread_without_replies; thread_with_replies])
      2 false 2 = Some (inr fetched) /\
    List.length fetched = 2%nat.
Proof.
  destruct (fetch_without_replies_is_bounded
              (single_page [thread_with_replies; thread_without_replies;
                            thread_with_replies])
              2 (single_page_honours _) (single_page_ends _)) as [out [Hout _]].
  vm_compute in Hout. inversion Hout; subst out.
  eexists. split; [vm_compute; reflexivity | reflexivity].
Defined.

Lemma fetch_loop_last_page
  (execute : Z -> option string -> string + Page) (max_comments : Z)
  (include_replies : bool) (fuel : nat) :
  forall comments_data token fetched,
    fetch_loop execute max_comments include_replies fuel comments_data token
    = Some (inr fetched) ->
    fetched = comments_data
    \/ exists before n token' response,
         execute n token' = inr response /\
         fetched = before ++ comments_of_page include_replies response /\
         (Z.of_nat (List.length before) < max_comments)%Z.
Proof.
  induction fuel as [| fuel IH]; intros comments_data token fetched H.
  - cbn [fetch_loop] in H.
    destruct (Z.of_nat (List.length comments_data) <? max_comments)%Z;
      [discriminate H |]. inversion H. left. reflexivity.
  - cbn [fetch_loop] in H.
    destruct (Z.of_nat (List.length comments_data) <? max_comments)%Z eqn:E;
      [| inversion H; left; reflexivity].
    apply Z.ltb_lt in E.
    destruct (execute (Z.min 100 (max_comments - Z.of_nat (List.length comments_data)))
                      token) as [e | response] eqn:Ex; [discriminate H |].
    destruct (no_token (nextPageToken response)).
    + inversion H. right. exists comments_data. eexists. exists token, response.
      split; [exact Ex |]. split; [reflexivity | exact E].
    + destruct (IH _ _ _ H) as [-> | Hlater].
      * right. exists comments_data. eexists. exists token, response.
        split; [exact Ex |]. split; [reflexivity | exact E].
      * right. exact Hlater.
Qed.

(** X12.  The limit [max_comments] is only tested before a page is
    requested, and a page is added whole, replies included: whenever the
    fetch gives comments, either no page was requested (and there is no
    comment), or the comments are those of a last page added to fewer
    than [max_comments] earlier ones.  With replies the result can
    therefore be longer than [max_comments]. *)
Theorem fetch_stops_after_a_whole_page
  (execute : Z -> option string -> string + Page) (max_comments : Z)
  (include_replies : bool) (fuel : nat) (fetched : list Comment) :
  fetch_comments execute max_comments include_replies fuel = Some (inr fetched) ->
  fetched = []
  \/ exists before n token response,
       execute n token = inr response /\
       fetched = before ++ comments_of_page include_replies response /\
       (Z.of_nat (List.length before) < max_comments)%Z.
Proof.
  intro H. exact (fetch_loop_last_page execute max_comments include_replies fuel
                    [] None fetched H).
Qed.

Lemma fetch_stops_after_a_whole_page_witness :
  exists fetched,
    fetch_comments (single_page [thread_with_replies]) 1 true 1
    = Some (inr fetched) /\
    List.length fetched = 3%nat /\
    exists before n token response,
      single_page [thread_with_replies] n token = inr response /\
      fetched = before ++ comments_of_page true response /\
      (Z.of_nat (List.length before) < 1)%Z.
Proof.
  eexists. split; [vm_compute; reflexivity |]. split; [reflexivity |].
  destruct (fetch_stops_after_a_whole_page
              (single_page [thread_with_replies]) 1 true 1 _ eq_refl)
    as [H | H]; [discriminate H | exact H].
Defined.

(** X13.  Two edges of the whole tool, whatever the language backends:
    when [max_comments] is not positive no page is requested and the
    analysis of the empty frame raises [KeyError('text')]; when the first
    request fails the tool returns the text "Error fetching comments: "
    followed by the text of the exception, and no analysis is made. *)
Theorem run_video_edges
  (blob_polarity blob_subjectivity : string -> Q)
  (sentiment_analyzer : string -> string * Q)
  (sent_tokenize word_tokenize : string -> list string)
  (pos_tag : list string -> list (string * string))
  (to_date : string -> result Z)
  (re_compile_ignorecase : string -> result (string -> bool))
  (execute : Z -> option string -> string + Page)
  (include_replies : bool) :
  (forall max_comments fuel,
      (max_comments <= 0)%Z ->
      run_video execute max_comments include_replies
                blob_polarity blob_subjectivity sentiment_analyzer sent_tokenize
                word_tokenize pos_tag to_date re_compile_ignorecase fuel
      = Some (Raise (KeyError "text"))) /\
  (forall max_comments fuel e,
      (0 < max_comments)%Z ->
      execute (Z.min 100 max_comments) None = inl e ->
      run_video execute max_comments include_replies
                blob_polarity blob_subjectivity sentiment_analyzer sent_tokenize
                word_tokenize pos_tag to_date re_compile_ignorecase (S fuel)
      = Some (Ok (ErrorText ("Error fetching comments: " ++ e)))).
Proof.
  split.
  - intros max_comments fuel Hmax. unfold run_video, fetch_comments.
    assert (E : (Z.of_nat (List.length (@nil Comment)) <? max_comments)%Z = false)
      by (apply Z.ltb_ge; cbn [List.length]; lia).
    destruct fuel; cbn [fetch_loop]; rewrite E; reflexivity.
  - intros max_comments fuel e Hmax He. unfold run_video, fetch_comments.
    cbn [fetch_loop].
    assert (E : (Z.of_nat (List.length (@nil Comment)) <? max_comments)%Z = true)
      by (apply Z.ltb_lt; cbn [List.length]; lia).
    rewrite E. cbn [List.length Z.of_nat]. rewrite Z.sub_0_r, He. reflexivity.
Qed.


(** *** The topics *)

Lemma topic_loop_groups (tagged : list (string * string)) :
  forall current_topic topics,
  exists groups rest,
    topic_loop tagged current_topic topics
    = (rest, topics ++ map join_words groups) /\
    Forall (fun g => g <> []) groups /\
    List.concat groups ++ rest = current_topic ++ noun_adjective_words tagged.
Proof.
  induction tagged as [| [word tag] tagged IH]; intros current_topic topics.
  - exists [], current_topic. cbn [topic_loop map List.concat app].
    unfold noun_adjective_words. cbn [filter map].
    rewrite !app_nil_r. repeat split. constructor.
  - cbn [topic_loop]. unfold noun_adjective_words. cbn [filter snd].
    destruct (is_noun_or_adjective tag) eqn:E.
    + destruct (IH (current_topic ++ [word]) topics) as [groups [rest [H1 [H2 H3]]]].
      exists groups, rest. split; [exact H1 |]. split; [exact H2 |].
      rewrite H3. cbn [map fst]. rewrite <- app_assoc. reflexivity.
    + destruct current_topic as [| w ws].
      * destruct (IH [] topics) as [groups [rest [H1 [H2 H3]]]].
        exists groups, rest. split; [exact H1 |]. split; [exact H2 |]. exact H3.
      * destruct (IH [] (topics ++ [join_words (w :: ws)]))
          as [groups [rest [H1 [H2 H3]]]].
        exists ((w :: ws) :: groups), rest. split; [| split].
        -- rewrite H1. cbn [map]. rewrite <- app_assoc. reflexivity.
        -- constructor; [discriminate | exact H2].
        -- cbn [List.concat]. rewrite <- app_assoc, H3. reflexivity.
Qed.

Lemma topics_of_sentence_groups
  (word_tokenize : string -> list string)
  (pos_tag : list string -> list (string * string))
  (topics : list string) (sentence : string) :
  exists groups,
    topics_of_sentence word_tokenize pos_tag topics sentence
    = topics ++ map join_words groups /\
    Forall (fun g => g <> []) groups /\
    List.concat groups
    = noun_adjective_words (pos_tag (word_tokenize sentence)).
Proof.
  unfold topics_of_sentence.
  destruct (topic_loop_groups (pos_tag (word_tokenize sentence)) [] topics)
    as [groups [rest [H1 [H2 H3]]]].
  rewrite H1. cbn [app] in H3. destruct rest as [| w ws].
  - exists groups. rewrite app_nil_r in H3. repeat split; assumption.
  - exists (groups ++ [w :: ws]). split; [| split].
    + rewrite map_app, app_assoc. reflexivity.
    + apply Forall_app. split; [exact H2 |]. constructor; [discriminate | constructor].
    + rewrite concat_app. cbn [List.concat]. rewrite app_nil_r. exact H3.
Qed.

(** X14.  The topics extracted from the sentences split the words tagged
    as nouns or adjectives, sentence by sentence: every topic is a
    non-empty group of such words joined by single spaces, and the groups
    of a sentence put end to end are exactly the noun and adjective words
    of that sentence, in order (none is lost or repeated, and no topic
    runs over the end of a sentence). *)
Theorem topics_split_the_nouns
  (word_tokenize : string -> list string)
  (pos_tag : list string -> list (string * string))
  (all_sentences : list string) :
  exists groups_by_sentence : list (list (list string)),
    extract_topics word_tokenize pos_tag all_sentences
    = map join_words (List.concat groups_by_sentence) /\
    Forall2 (fun sentence groups =>
               Forall (fun g => g <> []) groups /\
               List.concat groups
               = noun_adjective_words (pos_tag (word_tokenize sentence)))
            all_sentences groups_by_sentence.
Proof.
  unfold extract_topics.
  assert (H : forall sentences groups0,
             exists groups_by_sentence : list (list (list string)),
               fold_left (topics_of_sentence word_tokenize pos_tag) sentences
                         (map join_words groups0)
               = map join_words (groups0 ++ List.concat groups_by_sentence) /\
               Forall2 (fun sentence groups =>
                          Forall (fun g => g <> []) groups /\
                          List.concat groups
                          = noun_adjective_words (pos_tag (word_tokenize sentence)))
                       sentences groups_by_sentence).
  { induction sentences as [| sentence rest IH]; intro groups0.
    - exists []. cbn [List.concat fold_left]. rewrite app_nil_r.
      split; [reflexivity | constructor].
    - cbn [fold_left].
      destruct (topics_of_sentence_groups word_tokenize pos_tag
                  (map join_words groups0) sentence) as [g1 [H1 [H2 H3]]].
      rewrite H1, <- map_app.
      destruct (IH (groups0 ++ g1)) as [gs [K1 K2]].
      exists (g1 :: gs). split.
      + rewrite K1. cbn [List.concat]. rewrite app_assoc. reflexivity.
      + constructor; [split; assumption | exact K2]. }
  destruct (H all_sentences []) as [gs [H1 H2]].
  exists gs. split; [exact H1 | exact H2].
Qed.

(** *** The results of the analysis *)

Section Analysis.

Variables blob_polarity blob_subjectivity : string -> Q.
Variable sentiment_analyzer : string -> string * Q.
Variables sent_tokenize word_tokenize : string -> list string.
Variable pos_tag : list string -> list (string * string).
Variable to_date : string -> result Z.
Variable re_compile_ignorecase : string -> result (string -> bool).

(** What [run] has computed when it returns. *)
Lemma run_opened (comments_data : list Comment) (r : Results) :
  run blob_polarity blob_subjectivity sentiment_analyzer sent_tokenize
      word_tokenize pos_tag to_date re_compile_ignorecase comments_data = Ok r ->
  comments_data <> [] /\
  exists dates,
    map_result to_date (map published_at comments_data) = Ok dates /\
    topic_sentiment_loop blob_polarity re_compile_ignorecase comments_data
      (dict_keys (top_topics (key_themes r))) []
    = Ok (topic_sentiment (key_themes r)) /\
    top_topics (key_themes r)
    = most_common 10
        (Counter (extract_topics word_tokenize pos_tag
                    (flat_map sent_tokenize (map text comments_data)))) /\
    sentiment_trend r = groupby_mean (rows_of dates comments_data) /\
    engagement_metrics r
    = {| total_comments := Z.of_nat (List.length comments_data);
         total_likes := wrap64 (fold_right Z.add 0%Z (map likes comments_data));
         avg_likes_per_comment := np_mean (to_floats (map likes comments_data)) |} /\
    positive_percentage (overall_sentiment r)
    = npmul (np_mean (map (fun l => if String.eqb l "POSITIVE" then 1%Q else 0%Q)
                          (labels_of sentiment_analyzer comments_data)))
            (Fin 100) /\
    sentiment_distribution (overall_sentiment r)
    = sorted_by_count (Counter (labels_of sentiment_analyzer comments_data)).
Proof.
  intro H. destruct comments_data as [| c cs] eqn:Ec; [discriminate H |].
  rewrite <- Ec in *.
  assert (Hne : comments_data <> []) by (rewrite Ec; discriminate).
  split; [exact Hne |].
  unfold run in H.
  rewrite !(column_nonempty _ _ comments_data Hne) in H. cbn [bind] in H.
  assert (Hne' : map (sentiment_of blob_polarity blob_subjectivity sentiment_analyzer)
                     (map text comments_data) <> [])
    by (rewrite Ec; discriminate).
  rewrite !(column_nonempty _ _ _ Hne') in H. cbn [bind] in H.
  destruct (map_result to_date (map published_at comments_data)) as [dates | e] eqn:Ed;
    [| discriminate H].
  cbn [bind] in H.
  destruct (topic_sentiment_loop blob_polarity re_compile_ignorecase comments_data _ [])
    as [attribution | e] eqn:Et; [| discriminate H].
  cbn [bind] in H. inversion H; subst r; clear H.
  exists dates. cbn [key_themes top_topics topic_sentiment sentiment_trend
                     engagement_metrics overall_sentiment positive_percentage
                     sentiment_distribution].
  assert (El : map label
                 (map (sentiment_of blob_polarity blob_subjectivity sentiment_analyzer)
                      (map text comments_data))
               = labels_of sentiment_analyzer comments_data).
  { unfold labels_of. rewrite !map_map. reflexivity. }
  rewrite El. repeat split; try reflexivity. exact Et.
Qed.

Lemma sum_floats (l : list Z) :
  (sumQ (to_floats l) == inject_Z (fold_right Z.add 0%Z l))%Q.
Proof.
  induction l as [| x l IH]; [reflexivity |].
  cbn [to_floats map sumQ fold_right]. fold (to_floats l). fold (sumQ (to_floats l)).
  rewrite IH, inject_Z_plus. reflexivity.
Qed.

Lemma sum_indicator (k : string) (labels : list string) :
  (sumQ (map (fun l => if String.eqb l k then 1%Q else 0%Q) labels)
   == inject_Z (occurrences k labels))%Q.
Proof.
  induction labels as [| l labels IH]; [reflexivity |].
  rewrite occurrences_cons, inject_Z_plus.
  cbn [map sumQ fold_right]. change (fold_right Qplus 0%Q ?x) with (sumQ x).
  rewrite IH, (String.eqb_sym l k). destruct (String.eqb k l); reflexivity.
Qed.

Lemma occurrences_at_most (k : string) (ws : list string) :
  (occurrences k ws <= Z.of_nat (List.length ws))%Z.
Proof.
  unfold occurrences. pose proof (filter_length_le (String.eqb k) ws). lia.
Qed.

(** X15.  When the analysis returns, its counts agree with each other:
    there is at least one comment; the total of the likes is their sum
    in 64-bit integers (it wraps around beyond [2 ^ 63]), the average of
    the likes times the number of comments is their sum, so that the two
    agree as long as the sum fits in 64 bits; the counts of the sentiment
    distribution are the numbers of comments with each label and add up
    to the number of comments; and the positive percentage is a number
    between 0 and 100, namely the share of the comments labelled
    POSITIVE. *)
Theorem comment_counts_agree (comments_data : list Comment) (r : Results) :
  run blob_polarity blob_subjectivity sentiment_analyzer sent_tokenize
      word_tokenize pos_tag to_date re_compile_ignorecase comments_data = Ok r ->
  let n := Z.of_nat (List.length comments_data) in
  let labels := labels_of sentiment_analyzer comments_data in
  (0 < n)%Z /\
  total_comments (engagement_metrics r) = n /\
  total_likes (engagement_metrics r) = wrap64 (sum_of_likes comments_data) /\
  (exists a,
      avg_likes_per_comment (engagement_metrics r) = Fin a /\
      (a * inject_Z n == inject_Z (sum_of_likes comments_data))%Q /\
      ((- 2 ^ 63 <= sum_of_likes comments_data < 2 ^ 63)%Z ->
       (a * inject_Z n == inject_Z (total_likes (engagement_metrics r)))%Q)) /\
  total_count (sentiment_distribution (overall_sentiment r)) = n /\
  (forall l k,
      In (l, k) (sentiment_distribution (overall_sentiment r)) ->
      k = occurrences l labels /\ (0 < k)%Z) /\
  (exists p,
      positive_percentage (overall_sentiment r) = Fin p /\
      (0 <= p <= 100)%Q /\
      (p * inject_Z n == 100 * inject_Z (occurrences "POSITIVE" labels))%Q).
Proof.
  intros H n labels.
  destruct (run_opened comments_data r H)
    as [Hne [dates [_ [_ [_ [_ [He [Hp Hd]]]]]]]].
  assert (Hn : (0 < n)%Z).
  { unfold n. destruct comments_data; [contradiction | cbn [List.length]; lia]. }
  assert (HnQ : (0 < inject_Z n)%Q)
    by (change 0%Q with (inject_Z 0); rewrite <- Zlt_Qlt; exact Hn).
  assert (Hn0 : ~ (inject_Z n == 0)%Q)
    by (intro E; rewrite E in HnQ; exact (Qlt_irrefl 0 HnQ)).
  assert (Hlabels : List.length labels = List.length comments_data)
    by (unfold labels, labels_of; apply length_map).
  split; [exact Hn |]. rewrite He, Hp, Hd.
  cbn [total_comments total_likes avg_likes_per_comment].
  split; [reflexivity |]. split; [reflexivity |]. split; [| split; [| split]].
  - rewrite np_mean_nonempty
      by (apply to_floats_nonempty; destruct comments_data; [contradiction | discriminate]).
    eexists. split; [reflexivity |].
    assert (El : lenQ (to_floats (map likes comments_data)) = inject_Z n).
    { unfold lenQ, to_floats, n. rewrite !length_map. reflexivity. }
    assert (Es : (sumQ (to_floats (map likes comments_data)) / inject_Z n
                  * inject_Z n == inject_Z (sum_of_likes comments_data))%Q).
    { unfold sum_of_likes. rewrite sum_floats. field. exact Hn0. }
    rewrite El. split; [exact Es |].
    intro Hfit. fold (sum_of_likes comments_data).
    rewrite (TrendExtras.wrap64_small _ Hfit). exact Es.
  - rewrite total_sorted_by_count, total_Counter. fold labels. unfold n.
    rewrite Hlabels. reflexivity.
  - intros l k Hin. apply In_sorted_by_count, In_Counter in Hin.
    destruct Hin as [Hl ->]. split; [reflexivity |].
    apply occurrences_pos. exact Hl.
  - fold labels.
    assert (Hl : map (fun l => if String.eqb l "POSITIVE" then 1%Q else 0%Q) labels <> []).
    { destruct labels; [destruct comments_data; [contradiction | discriminate Hlabels]
                       | discriminate]. }
    rewrite (np_mean_nonempty _ Hl). cbn [npmul]. eexists. split; [reflexivity |].
    assert (El : lenQ (map (fun l => if String.eqb l "POSITIVE" then 1%Q else 0%Q) labels)
                 = inject_Z n).
    { unfold lenQ, n. rewrite length_map, Hlabels. reflexivity. }
    rewrite El, sum_indicator.
    pose proof (occurrences_nonneg "POSITIVE" labels) as H0.
    pose proof (occurrences_at_most "POSITIVE" labels) as H1.
    rewrite Hlabels in H1. fold n in H1.
    rewrite Zle_Qle in H0, H1. change (inject_Z 0) with 0%Q in H0.
    set (k := inject_Z (occurrences "POSITIVE" labels)) in *.
    split; [split |].
    + apply Qmult_le_0_compat; [| discriminate].
      apply Qle_shift_div_l; [exact HnQ | lra].
    + apply Qle_trans with (inject_Z n / inject_Z n * 100)%Q.
      * apply Qmult_le_compat_r; [| discriminate].
        unfold Qdiv. apply Qmult_le_compat_r; [exact H1 |].
        apply Qinv_le_0_compat. lra.
      * assert (E : (inject_Z n / inject_Z n * 100 == 100)%Q) by (field; exact Hn0).
        rewrite E. apply Qle_refl.
    + field. exact Hn0.
Qed.

Lemma Qmean_within (l : list Q) (lo hi : Q) :
  l <> [] ->
  (forall x, In x l -> (lo <= x <= hi)%Q) ->
  (lo <= sumQ l / lenQ l <= hi)%Q.
Proof.
  intros Hne Hb. pose proof (lenQ_pos l Hne) as Hp.
  assert (Hs : (lenQ l * lo <= sumQ l <= lenQ l * hi)%Q).
  { clear Hne Hp. induction l as [| x l IH].
    - change (lenQ (@nil Q)) with 0%Q. cbn [sumQ fold_right]. lra.
    - assert (IH' := IH (fun y Hy => Hb y (or_intror Hy))).
      destruct (Hb x (or_introl eq_refl)) as [H1 H2].
      pose proof (TrendFacts.lenQ_cons x l) as Hc.
      cbn [sumQ fold_right]. fold (sumQ l). rewrite Hc. lra. }
  split.
  - apply Qle_shift_div_l; [exact Hp | lra].
  - apply Qle_shift_div_r; [exact Hp | lra].
Qed.

Lemma topic_sentiment_loop_within (df : list Comment) (lo hi : Q) :
  polarities_within blob_polarity lo hi df ->
  forall topics acc out,
    topic_sentiment_loop blob_polarity re_compile_ignorecase df topics acc = Ok out ->
    forall t v,
      dict_get t out = Some v ->
      dict_get t acc = Some v \/ (In t topics /\ (lo <= v <= hi)%Q).
Proof.
  intro Hw. induction topics as [| topic rest IH]; intros acc out H t v Hg.
  - inversion H; subst out. left. exact Hg.
  - cbn [topic_sentiment_loop] in H.
    destruct (topic_comments_of re_compile_ignorecase df topic)
      as [topic_comments | e] eqn:Ec; [| discriminate H].
    cbn [bind] in H.
    assert (Hsub : forall c, In c topic_comments -> In c df).
    { unfold topic_comments_of in Ec.
      destruct (column "text" text df); [| discriminate Ec]. cbn [bind] in Ec.
      destruct (re_compile_ignorecase topic); [| discriminate Ec].
      cbn [bind] in Ec. inversion Ec. intros c Hc. apply filter_In in Hc.
      exact (proj1 Hc). }
    destruct topic_comments as [| c cs] eqn:Etc.
    + destruct (IH acc out H t v Hg) as [Ha | [Hin Hv]].
      * left. exact Ha.
      * right. split; [right; exact Hin | exact Hv].
    + rewrite <- Etc in *.
      destruct (IH _ out H t v Hg) as [Ha | [Hin Hv]].
      * rewrite dict_get_set in Ha. destruct (String.eqb t topic) eqn:E.
        -- apply String.eqb_eq in E. subst t. inversion Ha; subst v.
           right. split; [left; reflexivity |].
           apply Qmean_within.
           ++ rewrite Etc. discriminate.
           ++ intros x Hx. apply in_map_iff in Hx. destruct Hx as [c' [<- Hc']].
              apply Hw. apply Hsub. exact Hc'.
        -- left. exact Ha.
      * right. split; [right; exact Hin | exact Hv].
Qed.

(** X16.  When the analysis returns, "top_topics" has at most 10 entries
    with distinct keys, in decreasing order of their counts, and every
    entry of "topic_sentiment" belongs to one of these topics and lies
    within the range of the polarities of the comments (so within [-1, 1]
    for polarities in [-1, 1]). *)
Theorem topic_sentiment_within_polarities
  (comments_data : list Comment) (r : Results) (lo hi : Q) :
  run blob_polarity blob_subjectivity sentiment_analyzer sent_tokenize
      word_tokenize pos_tag to_date re_compile_ignorecase comments_data = Ok r ->
  polarities_within blob_polarity lo hi comments_data ->
  (List.length (top_topics (key_themes r)) <= 10)%nat /\
  NoDup (dict_keys (top_topics (key_themes r))) /\
  by_decreasing_count (top_topics (key_themes r)) /\
  forall topic v,
    dict_get topic (topic_sentiment (key_themes r)) = Some v ->
    In topic (dict_keys (top_topics (key_themes r))) /\ (lo <= v <= hi)%Q.
Proof.
  intros H Hw.
  destruct (run_opened comments_data r H) as [_ [dates [_ [Hloop [Htop _]]]]].
  split; [rewrite Htop; apply length_most_common |].
  split; [rewrite Htop; apply NoDup_most_common, NoDup_Counter |].
  split; [rewrite Htop; apply most_common_decreasing |].
  intros topic v Hg.
  destruct (topic_sentiment_loop_within comments_data lo hi Hw _ _ _ Hloop topic v Hg)
    as [Ha | Hin]; [discriminate Ha | exact Hin].
Qed.


(** *** The likes by day *)

Lemma keys_group_insert (date v : Z) (groups : list (Z * list Z)) (k : Z) :
  In k (map fst (group_insert date v groups))
  <-> k = date \/ In k (map fst groups).
Proof.
  induction groups as [| [d vs] groups IH]; cbn [group_insert].
  - cbn. intuition.
  - destruct (date =? d)%Z eqn:E.
    + apply Z.eqb_eq in E. subst d. cbn [map fst In]. intuition.
    + destruct (date <? d)%Z; cbn [map fst In].
      * intuition.
      * rewrite IH. intuition.
Qed.

Lemma sorted_group_insert (date v : Z) (groups : list (Z * list Z)) :
  StronglySorted (fun a b => (fst a < fst b)%Z) groups ->
  StronglySorted (fun a b => (fst a < fst b)%Z) (group_insert date v groups).
Proof.
  induction groups as [| [d vs] groups IH]; intro H; cbn [group_insert].
  - constructor; [constructor | constructor].
  - inversion H as [| ? ? Hs Hall]; subst.
    destruct (date =? d)%Z eqn:E.
    + constructor; [exact Hs | exact Hall].
    + apply Z.eqb_neq in E. destruct (date <? d)%Z eqn:El.
      * apply Z.ltb_lt in El. constructor; [exact H |].
        constructor; [exact El |].
        rewrite Forall_forall in *. intros x Hx. specialize (Hall x Hx).
        cbn [fst] in *. lia.
      * apply Z.ltb_ge in El. constructor; [exact (IH Hs) |].
        rewrite Forall_forall in *. intros x Hx. cbn [fst].
        assert (Hk : In (fst x) (map fst (group_insert date v groups)))
          by (apply in_map; exact Hx).
        apply keys_group_insert in Hk. destruct Hk as [Hk | Hk].
        -- lia.
        -- apply in_map_iff in Hk. destruct Hk as [y [Ey Hy]].
           specialize (Hall y Hy). cbn [fst] in Hall. lia.
Qed.

Lemma In_group_insert (date v : Z) (groups : list (Z * list Z)) :
  StronglySorted (fun a b => (fst a < fst b)%Z) groups ->
  forall d vs,
    In (d, vs) (group_insert date v groups) ->
    (d <> date /\ In (d, vs) groups)
    \/ (d = date /\
        ((exists vs0, In (date, vs0) groups /\ vs = vs0 ++ [v])
         \/ (~ In date (map fst groups) /\ vs = [v]))).
Proof.
  induction groups as [| [d0 vs0] groups IH]; intros H d vs Hin;
    cbn [group_insert] in Hin.
  - destruct Hin as [Hin | []]. inversion Hin; subst.
    right. split; [reflexivity |]. right. split; [intros [] | reflexivity].
  - inversion H as [| ? ? Hs Hall]; subst. rewrite Forall_forall in Hall.
    destruct (date =? d0)%Z eqn:E.
    + apply Z.eqb_eq in E. subst d0. destruct Hin as [Hin | Hin].
      * inversion Hin; subst. right. split; [reflexivity |]. left.
        exists vs0. split; [left; reflexivity | reflexivity].
      * left. split; [| right; exact Hin].
        specialize (Hall _ Hin). cbn [fst] in Hall. lia.
    + apply Z.eqb_neq in E. destruct (date <? d0)%Z eqn:El.
      * apply Z.ltb_lt in El. destruct Hin as [Hin | Hin].
        -- inversion Hin; subst. right. split; [reflexivity |]. right.
           split; [| reflexivity]. cbn [map fst In]. intros [Hk | Hk]; [lia |].
           apply in_map_iff in Hk. destruct Hk as [y [Ey Hy]].
           specialize (Hall y Hy). cbn [fst] in Hall. lia.
        -- left. split; [| exact Hin]. destruct Hin as [Hin | Hin].
           ++ inversion Hin; subst. lia.
           ++ specialize (Hall _ Hin). cbn [fst] in Hall. lia.
      * apply Z.ltb_ge in El. destruct Hin as [Hin | Hin].
        -- inversion Hin; subst. left. split; [lia | left; reflexivity].
        -- destruct (IH Hs d vs Hin) as [[Hd Hg] | [Hd [[vs1 [Hg Hv]] | [Hk Hv]]]].
           ++ left. split; [exact Hd | right; exact Hg].
           ++ right. split; [exact Hd |]. left. exists vs1.
              split; [right; exact Hg | exact Hv].
           ++ right. split; [exact Hd |]. right. split; [| exact Hv].
              cbn [map fst In]. intros [Hk' | Hk']; [lia | exact (Hk Hk')].
Qed.

Lemma likes_on_app (date : Z) (rows1 rows2 : list (Z * Z)) :
  likes_on date (rows1 ++ rows2) = likes_on date rows1 ++ likes_on date rows2.
Proof. unfold likes_on. rewrite filter_app, map_app. reflexivity. Qed.

Lemma likes_on_absent (date : Z) (rows : list (Z * Z)) :
  ~ In date (map fst rows) -> likes_on date rows = [].
Proof.
  unfold likes_on. induction rows as [| [d v] rows IH]; intro H; [reflexivity |].
  cbn [filter fst]. destruct (d =? date)%Z eqn:E.
  - apply Z.eqb_eq in E. subst d. exfalso. apply H. left. reflexivity.
  - apply IH. intro Hin. apply H. right. exact Hin.
Qed.

Lemma likes_on_present (date : Z) (rows : list (Z * Z)) :
  likes_on date rows <> [] -> In date (map fst rows).
Proof.
  unfold likes_on. induction rows as [| [d v] rows IH]; intro H; [contradiction |].
  cbn [filter fst] in H. destruct (d =? date)%Z eqn:E.
  - apply Z.eqb_eq in E. subst d. left. reflexivity.
  - right. exact (IH H).
Qed.

Lemma grouped_rows (rows seen : list (Z * Z)) (groups : list (Z * list Z)) :
  StronglySorted (fun a b => (fst a < fst b)%Z) groups ->
  (forall d vs, In (d, vs) groups -> vs = likes_on d seen /\ vs <> []) ->
  (forall d, In d (map fst seen) -> In d (map fst groups)) ->
  let out := fold_left (fun groups r => group_insert (fst r) (snd r) groups)
                       rows groups in
  StronglySorted (fun a b => (fst a < fst b)%Z) out /\
  (forall d vs, In (d, vs) out -> vs = likes_on d (seen ++ rows) /\ vs <> []) /\
  (forall d, In d (map fst (seen ++ rows)) -> In d (map fst out)).
Proof.
  revert seen groups. induction rows as [| [date v] rows IH];
    intros seen groups Hs Hb Hc.
  - cbn [fold_left]. rewrite app_nil_r.
    split; [exact Hs | split; [exact Hb | exact Hc]].
  - cbn [fold_left fst snd].
    replace (seen ++ (date, v) :: rows) with ((seen ++ [(date, v)]) ++ rows)
      by (rewrite <- app_assoc; reflexivity).
    apply IH.
    + apply sorted_group_insert. exact Hs.
    + intros d vs Hin. rewrite likes_on_app.
      destruct (In_group_insert date v groups Hs d vs Hin)
        as [[Hd Hg] | [Hd [[vs0 [Hg Hv]] | [Hk Hv]]]].
      * destruct (Hb d vs Hg) as [E Hne]. split; [| exact Hne].
        unfold likes_on at 2. cbn [filter fst].
        destruct (date =? d)%Z eqn:E'; [apply Z.eqb_eq in E'; lia |].
        cbn [map]. rewrite app_nil_r. exact E.
      * subst d vs. destruct (Hb date vs0 Hg) as [E _]. split.
        -- unfold likes_on at 2. cbn [filter fst]. rewrite Z.eqb_refl.
           cbn [map snd]. rewrite E. reflexivity.
        -- destruct vs0; discriminate.
      * subst d vs. split; [| discriminate].
        rewrite (likes_on_absent date seen) by (intro Hin'; apply Hk, Hc; exact Hin').
        unfold likes_on. cbn [filter fst]. rewrite Z.eqb_refl. reflexivity.
    + intros d Hin. apply keys_group_insert. rewrite map_app in Hin.
      apply in_app_or in Hin. destruct Hin as [Hin | Hin].
      * right. apply Hc. exact Hin.
      * left. destruct Hin as [Hin | []]. symmetry. exact Hin.
Qed.

Lemma sorted_by_index {A : Type} (R : A -> A -> Prop) (l : list A) :
  StronglySorted R l ->
  forall i j a b,
    (i < j)%nat -> nth_error l i = Some a -> nth_error l j = Some b -> R a b.
Proof.
  induction 1 as [| x l Hs IH Hall]; intros i j a b Hij Ha Hb.
  - destruct i; discriminate Ha.
  - destruct j as [| j]; [lia |]. cbn [nth_error] in Hb.
    destruct i as [| i].
    + cbn [nth_error] in Ha. inversion Ha; subst.
      rewrite Forall_forall in Hall. apply Hall. exact (nth_error_In l j Hb).
    + cbn [nth_error] in Ha. apply (IH i j); [lia | exact Ha | exact Hb].
Qed.

Lemma map_result_length {A B : Type} (f : A -> result B) (l : list A) (bs : list B) :
  map_result f l = Ok bs -> List.length bs = List.length l.
Proof.
  revert bs. induction l as [| a l IH]; intros bs H.
  - inversion H. reflexivity.
  - cbn [map_result] in H. destruct (f a); [| discriminate H]. cbn [bind] in H.
    destruct (map_result f l) as [bs' |]; [| discriminate H]. cbn [bind] in H.
    inversion H. cbn [List.length]. rewrite (IH bs' eq_refl). reflexivity.
Qed.

Lemma fst_combine {A B : Type} (l1 : list A) (l2 : list B) :
  List.length l1 = List.length l2 -> map fst (combine l1 l2) = l1.
Proof.
  revert l2. induction l1 as [| a l1 IH]; intros l2 H; [reflexivity |].
  destruct l2 as [| b l2]; [discriminate H |].
  cbn [combine map fst]. rewrite IH by (cbn in H; lia). reflexivity.
Qed.

(** X17.  When the analysis returns, the entry "sentiment_trend" has
    one value for every day on which a comment was published and for no
    other day; the days are in strictly increasing order; and the value of
    a day is the mean of the likes of the comments of that day (no
    sentiment score enters it). *)
Theorem sentiment_trend_is_mean_likes_by_day
  (comments_data : list Comment) (r : Results) :
  run blob_polarity blob_subjectivity sentiment_analyzer sent_tokenize
      word_tokenize pos_tag to_date re_compile_ignorecase comments_data = Ok r ->
  exists dates,
    map_result to_date (map published_at comments_data) = Ok dates /\
    days_increase (sentiment_trend r) /\
    (forall day, In day (map fst (sentiment_trend r)) <-> In day dates) /\
    (forall day m,
        In (day, m) (sentiment_trend r) ->
        likes_on day (rows_of dates comments_data) <> [] /\
        m = np_mean (to_floats (likes_on day (rows_of dates comments_data)))).
Proof.
  intro H.
  destruct (run_opened comments_data r H) as [_ [dates [Hd [_ [_ [Ht _]]]]]].
  exists dates. split; [exact Hd |]. rewrite Ht. unfold groupby_mean.
  set (rows := rows_of dates comments_data).
  destruct (grouped_rows rows [] []) as [Hs [Hb Hc]].
  { constructor. }
  { intros d vs []. }
  { intros d []. }
  cbn [app] in Hb, Hc. cbv zeta in Hs, Hb, Hc.
  set (groups := fold_left (fun groups r => group_insert (fst r) (snd r) groups)
                           rows []) in *.
  assert (Hrows : map fst rows = dates).
  { unfold rows, rows_of. apply fst_combine.
    rewrite (map_result_length _ _ _ Hd), !length_map. reflexivity. }
  split; [| split].
  - intros i j a b Hij Ha Hb'. rewrite nth_error_map in Ha, Hb'.
    destruct (nth_error groups i) as [ga |] eqn:Ea; [| discriminate Ha].
    destruct (nth_error groups j) as [gb |] eqn:Eb; [| discriminate Hb'].
    cbn [option_map] in Ha, Hb'. inversion Ha; subst a. inversion Hb'; subst b.
    cbn [fst]. exact (sorted_by_index _ groups Hs i j ga gb Hij Ea Eb).
  - intro day. rewrite map_map. cbn [fst]. rewrite <- Hrows. split.
    + intro Hin. apply in_map_iff in Hin. destruct Hin as [[d vs] [E Hin]].
      cbn [fst] in E. subst d. destruct (Hb day vs Hin) as [Ev Hne].
      apply likes_on_present. rewrite <- Ev. exact Hne.
    + apply Hc.
  - intros day m Hin. apply in_map_iff in Hin. destruct Hin as [[d vs] [E Hin]].
    cbn [fst snd] in E. inversion E; subst d m.
    destruct (Hb day vs Hin) as [Ev Hne]. rewrite <- Ev.
    split; [exact Hne | reflexivity].
Qed.

End Analysis.

Lemma comment_counts_agree_witness :
  exists r,
    run_with polarity_of link_tags [comment_with_link; comment_without_link]
    = Ok r /\
    total_comments (engagement_metrics r) = 2%Z /\
    total_likes (engagement_metrics r)
    = wrap64 (sum_of_likes [comment_with_link; comment_without_link]) /\
    total_count (sentiment_distribution (overall_sentiment r)) = 2%Z.
Proof.
  assert (H : exists r,
             run_with polarity_of link_tags
                      [comment_with_link; comment_without_link] = Ok r).
  { vm_compute. eexists. reflexivity. }
  destruct H as [r Hr]. exists r. split; [exact Hr |].
  destruct (comment_counts_agree
              polarity_of (fun _ => 0%Q) (fun _ => ("POSITIVE"%string, 1%Q))
              (fun text => [text]) (split_spaces EmptyString) (tag_from link_tags)
              (fun _ => Ok 0%Z) (fun pat => Ok (search_ci pat))
              [comment_with_link; comment_without_link] r Hr)
    as [_ [Hn [Ht [_ [Hd _]]]]].
  split; [exact Hn |]. split; [exact Ht | exact Hd].
Defined.

Lemma polarity_of_within (comments_data : list Comment) :
  polarities_within polarity_of (- (1)) 1 comments_data.
Proof.
  intros c _. unfold polarity_of.
  destruct (String.eqb (text c) "youtube.com is great");
    [split; discriminate |].
  destruct (String.eqb (text c) "youtube com is terrible"); split; discriminate.
Qed.

Lemma topic_sentiment_within_polarities_witness :
  exists r,
    run_with polarity_of link_tags [comment_with_link; comment_without_link]
    = Ok r /\
    forall topic v,
      dict_get topic (topic_sentiment (key_themes r)) = Some v ->
      (- (1) <= v <= 1)%Q.
Proof.
  assert (H : exists r,
             run_with polarity_of link_tags
                      [comment_with_link; comment_without_link] = Ok r).
  { vm_compute. eexists. reflexivity. }
  destruct H as [r Hr]. exists r. split; [exact Hr |].
  intros topic v Hg.
  exact (proj2 (proj2 (proj2 (proj2
           (topic_sentiment_within_polarities
              polarity_of (fun _ => 0%Q) (fun _ => ("POSITIVE"%string, 1%Q))
              (fun text => [text]) (split_spaces EmptyString) (tag_from link_tags)
              (fun _ => Ok 0%Z) (fun pat => Ok (search_ci pat))
              [comment_with_link; comment_without_link] r (- (1)) 1 Hr
              (polarity_of_within _)))) topic v Hg)).
Defined.

Lemma sentiment_trend_is_mean_likes_by_day_witness :
  exists r,
    run_with polarity_of link_tags [comment_with_link; comment_without_link]
    = Ok r /\
    days_increase (sentiment_trend r).
Proof.
  assert (H : exists r,
             run_with polarity_of link_tags
                      [comment_with_link; comment_without_link] = Ok r).
  { vm_compute. eexists. reflexivity. }
  destruct H as [r Hr]. exists r. split; [exact Hr |].
  destruct (sentiment_trend_is_mean_likes_by_day
              polarity_of (fun _ => 0%Q) (fun _ => ("POSITIVE"%string, 1%Q))
              (fun text => [text]) (split_spaces EmptyString) (tag_from link_tags)
              (fun _ => Ok 0%Z) (fun pat => Ok (search_ci pat))
              [comment_with_link; comment_without_link] r Hr)
    as [dates [_ [Hs _]]].
  exact Hs.
Defined.

End SentimentExtras.

(** ** channel_analyzer.py *)

Module ChannelExtras.
Import ChannelAnalyzer.
Import ChannelFacts.

(** X18.  On a non-empty collection (whose timestamps the clock accepts)
    the average number of views is a number that lies between the views
    of some record and the views of the best-performing record: the best
    video never has fewer views than the average. *)
Theorem best_video_is_at_least_average (age_seconds : string -> result Q)
  (video_stats : list VideoStats) :
  video_stats <> [] ->
  ages_defined age_seconds video_stats ->
  exists pm best least m,
    performance_metrics age_seconds video_stats = Ok pm /\
    best_performing_video pm = Some best /\
    In (video best) video_stats /\
    In least video_stats /\
    avg_views_per_video pm = Fin m /\
    (inject_Z (views least) <= m <= inject_Z (views (video best)))%Q.
Proof.
  intros Hne Hages.
  destruct (performance_metrics_nonempty age_seconds video_stats Hne Hages)
    as [df [j [Hdf [Hvideo [Hj Hpm]]]]].
  assert (Hviews : map views video_stats <> [])
    by (destruct video_stats; [contradiction | discriminate]).
  destruct (idxmax_first_maximum (map views video_stats) Hviews)
    as [j' [hi [Hj' [Hhi [Hall _]]]]].
  rewrite Hj in Hj'. injection Hj' as Hj'. subst j'.
  rewrite nth_error_map in Hhi.
  destruct (nth_error video_stats j) as [v |] eqn:Ev; [| discriminate].
  cbn [option_map] in Hhi. injection Hhi as Hhi.
  assert (Hrow : exists best, nth_error df j = Some best /\ video best = v).
  { rewrite <- Hvideo in Ev. rewrite nth_error_map in Ev.
    destruct (nth_error df j) as [best |]; [| discriminate].
    exists best. split; [reflexivity |]. cbn [option_map] in Ev. congruence. }
  destruct Hrow as [best [Hbest Hv]].
  destruct (map views video_stats) as [| x rest] eqn:Evs; [contradiction |].
  destruct (TrendExtras.fold_min_spec rest x) as [Hlo_in Hlo].
  rewrite <- Evs in *.
  set (lo := fold_left Z.min rest x) in *.
  apply in_map_iff in Hlo_in. destruct Hlo_in as [least [Hleast Hleast_in]].
  assert (Hb : forall z, In z (map views video_stats) -> (lo <= z <= hi)%Z).
  { intros z Hz. split; [apply Hlo; exact Hz |].
    apply In_nth_error in Hz. destruct Hz as [k Hk]. exact (Hall k z Hk). }
  destruct (TrendExtras.mean_within (map views video_stats) lo hi Hviews Hb)
    as [m [Hm Hmb]].
  eexists. exists best, least, m. split; [exact Hpm |].
  cbn [best_performing_video avg_views_per_video].
  split; [exact Hbest |]. rewrite Hv.
  split; [exact (nth_error_In _ _ Ev) |].
  split; [exact Hleast_in |]. split; [exact Hm |].
  rewrite Hleast, Hhi. exact Hmb.
Qed.

Lemma every_age_is_one_day (video_stats : list VideoStats) :
  ages_defined one_day_old video_stats.
Proof. intros v _. exists 86400%Q. reflexivity. Qed.

Lemma best_video_is_at_least_average_witness :
  exists pm best m,
    performance_metrics one_day_old [video_of 3 0 0; video_of 10 1 0] = Ok pm /\
    best_performing_video pm = Some best /\
    avg_views_per_video pm = Fin m /\
    (m <= inject_Z (views (video best)))%Q.
Proof.
  destruct (best_video_is_at_least_average one_day_old
              [video_of 3 0 0; video_of 10 1 0]
              ltac:(discriminate) (every_age_is_one_day _))
    as [pm [best [least [m [Hpm [Hbest [_ [_ [Hm [_ Hle]]]]]]]]]].
  exists pm, best, m. repeat split; assumption.
Defined.

Lemma with_metrics_per_day (age_seconds : string -> result Q)
  (video_stats : list VideoStats) (df : list Row) :
  with_metrics age_seconds video_stats = Ok df ->
  forall r, In r df ->
    In (video r) video_stats /\
    avg_views_per_day_of age_seconds (video r) = Ok (avg_views_per_day r).
Proof.
  revert df. induction video_stats as [| v rest IH]; intros df H r Hin.
  - inversion H; subst df. destruct Hin.
  - cbn [with_metrics] in H.
    destruct (avg_views_per_day_of age_seconds v) as [per_day | e] eqn:Ep;
      [| discriminate H].
    cbn [bind] in H.
    destruct (with_metrics age_seconds rest) as [rows | e] eqn:Er;
      [| discriminate H].
    cbn [bind] in H. inversion H; subst df. destruct Hin as [Hin | Hin].
    + subst r. cbn [video avg_views_per_day]. split; [left; reflexivity | exact Ep].
    + destruct (IH rows eq_refl r Hin) as [H1 H2].
      split; [right; exact H1 | exact H2].
Qed.

(** X19.  For every record of "recent_videos", "avg_views_per_day" is the
    number of views divided by the age of the video in days, rounded to
    2 decimals, whenever that age is not 0: the float of a number of
    hundredths within 0.005 of the quotient, up to the rounding of the
    float operations (a relative [2 ^ -49]).  For an age of exactly 0 it
    is [inf] when the video has views and [nan] when it has none. *)
Theorem views_per_day_by_age (age_seconds : string -> result Q)
  (video_stats : list VideoStats) (pm : PerformanceMetrics) :
  performance_metrics age_seconds video_stats = Ok pm ->
  forall r,
    In r (recent_videos pm) ->
    exists age,
      age_seconds (published_at (video r)) = Ok age /\
      (~ (age == 0)%Q ->
       rounded_to_2_decimals (avg_views_per_day r)
                             (views_per_day (video r) age)) /\
      ((age == 0)%Q -> (0 < views (video r))%Z -> avg_views_per_day r = PInf) /\
      ((age == 0)%Q -> views (video r) = 0%Z -> avg_views_per_day r = NaN).
Proof.
  intros H r Hin. unfold performance_metrics in H.
  destruct (with_metrics age_seconds video_stats) as [df | e] eqn:Edf;
    [| discriminate H].
  cbn [bind] in H.
  assert (Hrows : recent_videos pm = df).
  { destruct df as [| row rows] eqn:E.
    - inversion H. reflexivity.
    - destruct (idxmax (map (fun r0 => views (video r0)) (row :: rows)));
        [| discriminate H].
      cbn [bind] in H. inversion H. reflexivity. }
  rewrite Hrows in Hin.
  destruct (with_metrics_per_day age_seconds video_stats df Edf r Hin) as [_ Hp].
  unfold avg_views_per_day_of in Hp.
  destruct (age_seconds (published_at (video r))) as [age | e] eqn:Ea;
    [| discriminate Hp].
  cbn [bind] in Hp. inversion Hp as [Hv]. clear Hp.
  exists age. split; [reflexivity |].
  assert (Hz : (age / 86400 == 0)%Q <-> (age == 0)%Q).
  { split; intro E.
    - assert (E' : (age == age / 86400 * 86400)%Q) by (field; discriminate).
      rewrite E', E. reflexivity.
    - rewrite E. reflexivity. }
  unfold of_int64, of_int, fdiv. cbn [f64 npdiv].
  change (Qeq_bool 86400 0) with false. cbv iota. cbn [f64 npdiv].
  split; [| split].
  - intro Hne.
    assert (Hd : ~ (age / 86400 == 0)%Q) by (intro E; apply Hne, Hz; exact E).
    assert (E : Qeq_bool (float64 (age / 86400)) 0 = false)
      by (apply Qeq_bool_false, Float64Facts.float64_nonzero; exact Hd).
    rewrite E. cbn [f64].
    apply (Float64Facts.round2_within (6 # 2 ^ 53));
      [| split; discriminate | discriminate].
    unfold views_per_day.
    pose proof (Float64Facts.within_div _ _ _ _ _ _
                  (Float64Facts.float64_within (inject_Z (views (video r))))
                  (Float64Facts.float64_within (age / 86400))
                  ltac:(discriminate) ltac:(split; discriminate) Hd) as H1.
    pose proof (Float64Facts.within_float64 _ _ _ H1 ltac:(split; discriminate))
      as H2.
    eapply Float64Facts.within_weaken; [exact H2 | discriminate].
  - intros H0 Hpos.
    rewrite (Float64Facts.float64_0 (age / 86400)) by (apply Hz; exact H0).
    change (Qeq_bool 0 0) with true. cbv iota.
    rewrite Float64Facts.float64_int_eq_bool, Float64Facts.float64_int_pos_bool.
    assert (E1 : (views (video r) =? 0)%Z = false) by (apply Z.eqb_neq; lia).
    assert (E2 : (0 <? views (video r))%Z = true) by (apply Z.ltb_lt; exact Hpos).
    rewrite E1, E2. reflexivity.
  - intros H0 Hzero.
    rewrite (Float64Facts.float64_0 (age / 86400)) by (apply Hz; exact H0).
    change (Qeq_bool 0 0) with true. cbv iota.
    rewrite Float64Facts.float64_int_eq_bool, Hzero. reflexivity.
Qed.

Lemma views_per_day_by_age_witness :
  exists pm r,
    performance_metrics one_day_old [video_of 800 1 0] = Ok pm /\
    recent_videos pm = [r] /\
    rounded_to_2_decimals (avg_views_per_day r) 800.
Proof.
  assert (H : exists pm, performance_metrics one_day_old [video_of 800 1 0] = Ok pm).
  { vm_compute. eexists. reflexivity. }
  destruct H as [pm Hpm].
  assert (Hr : exists r, recent_videos pm = [r]).
  { assert (E := Hpm). vm_compute in E. inversion E. eexists. reflexivity. }
  destruct Hr as [r Hr]. exists pm, r. split; [exact Hpm |]. split; [exact Hr |].
  destruct (views_per_day_by_age one_day_old [video_of 800 1 0] pm Hpm r
              ltac:(rewrite Hr; left; reflexivity))
    as [age [Ha [Hrate _]]].
  inversion Ha; subst age.
  assert (Ev : video r = video_of 800 1 0).
  { assert (E := Hpm). vm_compute in E. inversion E as [E']. rewrite <- E' in Hr.
    cbn [recent_videos] in Hr. inversion Hr. reflexivity. }
  specialize (Hrate ltac:(discriminate)). rewrite Ev in Hrate.
  destruct Hrate as [k [Hk Hb]]. exists k. split; [exact Hk |].
  assert (E : (views_per_day (video_of 800 1 0) 86400 == 800)%Q) by reflexivity.
  rewrite <- E. exact Hb.
Defined.

End ChannelExtras.

(** ** competitor_analyzer.py *)

Module CompetitorExtras.
Import CompetitorAnalyzer.

Lemma content_analysis_raises (df : list Row) :
  content_analysis_of df = Raises (NameError "Counter").
Proof. reflexivity. Qed.

Section Channels.

Variables Top Patterns Metrics : Type.
Variable top_performing_of : list Row -> outcome Top.
Variable upload_patterns_of : list Row -> outcome Patterns.
Variable engagement_metrics_of : list Row -> outcome Metrics.
Variable to_datetime : string -> outcome Z.
Variable channels_list : string -> outcome (list ChannelData).
Variable search_list : string -> outcome (list SearchItem).
Variable videos_list : string -> outcome (list VideoResource).
Variable min_views : Z.

(** What the [try] body of one channel leaves: nothing, or the comparison
    of the channel followed by the [NameError] of line 115. *)
Lemma try_channel_cases (channel_id : string)
  (results : Report Top Patterns Metrics) :
  (exists e, try_channel top_performing_of upload_patterns_of
                         engagement_metrics_of to_datetime channels_list
                         search_list videos_list min_views channel_id results
             = (results, e))
  \/ exists channel_data rest found video_data df comparison,
       channels_list channel_id = Returns (channel_data :: rest) /\
       search_list channel_id = Returns found /\
       collect_videos videos_list min_views found [] = Returns video_data /\
       video_data <> [] /\
       with_columns to_datetime video_data = Returns df /\
       comparison_of channel_data df = Returns comparison /\
       try_channel top_performing_of upload_patterns_of
                   engagement_metrics_of to_datetime channels_list
                   search_list videos_list min_views channel_id results
       = ({| channel_comparisons :=
               dict_set channel_id comparison (channel_comparisons results);
             content_analysis := content_analysis results;
             top_performing_content := top_performing_content results;
             upload_patterns := upload_patterns results;
             engagement_metrics := engagement_metrics results;
             errors := errors results |},
          Some (NameError "Counter")).
Proof.
  unfold try_channel.
  destruct (channels_list channel_id) as [[| channel_data rest] | e] eqn:Ec;
    [left; eexists; reflexivity | | left; eexists; reflexivity].
  destruct (search_list channel_id) as [found | e] eqn:Es;
    [| left; eexists; reflexivity].
  destruct (collect_videos videos_list min_views found []) as [video_data | e] eqn:Ev;
    [| left; eexists; reflexivity].
  unfold analyse.
  destruct video_data as [| v vs] eqn:Evd; [left; eexists; reflexivity |].
  rewrite <- Evd in *.
  destruct (with_columns to_datetime video_data) as [df | e] eqn:Ew;
    [| left; eexists; reflexivity].
  destruct (comparison_of channel_data df) as [comparison | e] eqn:Ecmp;
    [| left; eexists; reflexivity].
  right. exists channel_data, rest, found, video_data, df, comparison.
  rewrite content_analysis_raises.
  repeat split; try reflexivity; try assumption.
  rewrite Evd. discriminate.
Qed.


Lemma one_channel_cases (channel_id : string)
  (results : Report Top Patterns Metrics) :
  let after := one_channel top_performing_of upload_patterns_of
                 engagement_metrics_of to_datetime channels_list search_list
                 videos_list min_views results channel_id in
  content_analysis after = content_analysis results /\
  top_performing_content after = top_performing_content results /\
  upload_patterns after = upload_patterns results /\
  engagement_metrics after = engagement_metrics results /\
  ((channel_comparisons after = channel_comparisons results /\
    (errors after = errors results
     \/ exists text,
          errors after
          = Some (dict_set channel_id text
                    (match errors results with Some d => d | None => [] end))))
   \/ exists channel_data rest found video_data df comparison,
        channels_list channel_id = Returns (channel_data :: rest) /\
        search_list channel_id = Returns found /\
        collect_videos videos_list min_views found [] = Returns video_data /\
        video_data <> [] /\
        with_columns to_datetime video_data = Returns df /\
        comparison_of channel_data df = Returns comparison /\
        channel_comparisons after
        = dict_set channel_id comparison (channel_comparisons results) /\
        errors after
        = Some (dict_set channel_id counter_is_not_defined
                  (match errors results with Some d => d | None => [] end))).
Proof.
  cbv zeta. unfold one_channel.
  destruct (try_channel_cases channel_id results)
    as [[e He] | [cd [rest [found [vd [df [c [H1 [H2 [H3 [H4 [H5 [H6 H7]]]]]]]]]]]]].
  - rewrite He. destruct e as [e |]; cbn [except channel_comparisons content_analysis
      top_performing_content upload_patterns engagement_metrics errors];
      repeat split; left; split; try reflexivity.
    + right. eexists. reflexivity.
    + left. reflexivity.
  - rewrite H7. cbn [except channel_comparisons content_analysis
      top_performing_content upload_patterns engagement_metrics errors].
    repeat split. right. exists cd, rest, found, vd, df, c.
    repeat split; try assumption.
Qed.

(** The dictionaries that are never written. *)
Lemma run_writes_nothing_later (channels : list string) :
  forall results : Report Top Patterns Metrics,
    nothing_after_the_comparison results ->
    nothing_after_the_comparison
      (fold_left (one_channel top_performing_of upload_patterns_of
                    engagement_metrics_of to_datetime channels_list search_list
                    videos_list min_views)
                 channels results).
Proof.
  induction channels as [| channel_id rest IH]; intros results H; [exact H |].
  cbn [fold_left]. apply IH.
  destruct (one_channel_cases channel_id results) as [E1 [E2 [E3 [E4 _]]]].
  destruct H as [H1 [H2 [H3 H4]]]. unfold nothing_after_the_comparison.
  rewrite E1, E2, E3, E4. repeat split; assumption.
Qed.

Lemma error_keys_set (results after : Report Top Patterns Metrics)
  (channel_id text : string) :
  errors after
  = Some (dict_set channel_id text
            (match errors results with Some d => d | None => [] end)) ->
  forall k, In k (error_keys after) <-> k = channel_id \/ In k (error_keys results).
Proof.
  intros E k. unfold error_keys. rewrite E, TrendExtras.keys_dict_set.
  destruct (errors results) as [d |].
  - destruct (existsb (String.eqb channel_id) (dict_keys d)) eqn:Ex.
    + apply CounterFacts.existsb_eqb_In in Ex. split; [intro H; right; exact H |].
      intros [-> | H]; assumption.
    + rewrite in_app_iff. cbn [In]. intuition.
  - cbn. intuition.
Qed.

Lemma error_of_set (results after : Report Top Patterns Metrics)
  (channel_id text : string) :
  errors after
  = Some (dict_set channel_id text
            (match errors results with Some d => d | None => [] end)) ->
  forall k, error_of after k
            = if String.eqb k channel_id then Some text else error_of results k.
Proof.
  intros E k. unfold error_of. rewrite E, dict_get_set.
  destruct (String.eqb k channel_id); [reflexivity |].
  destruct (errors results); reflexivity.
Qed.

Lemma comparison_keys_set (V : Type) (d : list (string * V)) (k channel_id : string)
  (v : V) :
  In k (dict_keys (dict_set channel_id v d)) <-> k = channel_id \/ In k (dict_keys d).
Proof.
  rewrite TrendExtras.keys_dict_set.
  destruct (existsb (String.eqb channel_id) (dict_keys d)) eqn:Ex.
  - apply CounterFacts.existsb_eqb_In in Ex. split; [intro H; right; exact H |].
    intros [-> | H]; assumption.
  - rewrite in_app_iff. cbn [In]. intuition.
Qed.

(** Every channel that has a comparison has an error, and both belong to
    channels that were analysed. *)
Lemma run_records_errors (channels : list string) :
  forall (results : Report Top Patterns Metrics) (done : list string),
    (forall k, In k (dict_keys (channel_comparisons results)) ->
               In k (error_keys results)) ->
    (forall k, In k (error_keys results) -> In k done) ->
    let r := fold_left (one_channel top_performing_of upload_patterns_of
                          engagement_metrics_of to_datetime channels_list
                          search_list videos_list min_views)
                       channels results in
    (forall k, In k (dict_keys (channel_comparisons r)) -> In k (error_keys r)) /\
    (forall k, In k (error_keys r) -> In k (done ++ channels)).
Proof.
  induction channels as [| channel_id rest IH]; intros results done Hc He.
  - cbn [fold_left]. rewrite app_nil_r. split; assumption.
  - cbn [fold_left].
    replace (done ++ channel_id :: rest) with ((done ++ [channel_id]) ++ rest)
      by (rewrite <- app_assoc; reflexivity).
    apply IH.
    + intros k Hk.
      destruct (one_channel_cases channel_id results)
        as [_ [_ [_ [_ [[Ecmp [Eerr | [text Eerr]]]
                       | [cd [rs [found [vd [df [c [_ [_ [_ [_ [_ [_ [Ecmp Eerr]]]]]]]]]]]]]]]]]];
        cbv zeta in *.
      * unfold error_keys. rewrite Eerr. rewrite Ecmp in Hk. exact (Hc k Hk).
      * rewrite Ecmp in Hk. apply (error_keys_set results _ channel_id text Eerr).
        right. exact (Hc k Hk).
      * rewrite Ecmp in Hk. apply comparison_keys_set in Hk.
        apply (error_keys_set results _ channel_id _ Eerr).
        destruct Hk as [Hk | Hk]; [left; exact Hk | right; exact (Hc k Hk)].
    + intros k Hk. rewrite in_app_iff. cbn [In].
      destruct (one_channel_cases channel_id results)
        as [_ [_ [_ [_ [[Ecmp [Eerr | [text Eerr]]]
                       | [cd [rs [found [vd [df [c [_ [_ [_ [_ [_ [_ [Ecmp Eerr]]]]]]]]]]]]]]]]]];
        cbv zeta in *.
      * unfold error_keys in Hk. rewrite Eerr in Hk. left. exact (He k Hk).
      * apply (error_keys_set results _ channel_id text Eerr) in Hk.
        destruct Hk as [Hk | Hk]; [right; left; symmetry; exact Hk | left; exact (He k Hk)].
      * apply (error_keys_set results _ channel_id _ Eerr) in Hk.
        destruct Hk as [Hk | Hk]; [right; left; symmetry; exact Hk | left; exact (He k Hk)].
Qed.

(** With distinct channels the error of a compared channel is the
    [NameError]. *)
Lemma run_records_NameError (channels : list string) :
  forall (results : Report Top Patterns Metrics) (done : list string),
    NoDup (done ++ channels) ->
    (forall k, In k (dict_keys (channel_comparisons results)) ->
               In k done /\ error_of results k = Some counter_is_not_defined) ->
    let r := fold_left (one_channel top_performing_of upload_patterns_of
                          engagement_metrics_of to_datetime channels_list
                          search_list videos_list min_views)
                       channels results in
    forall k, In k (dict_keys (channel_comparisons r)) ->
              error_of r k = Some counter_is_not_defined.
Proof.
  induction channels as [| channel_id rest IH]; intros results done Hn Hc.
  - cbn [fold_left]. intros k Hk. exact (proj2 (Hc k Hk)).
  - cbn [fold_left].
    assert (Hn' : NoDup ((done ++ [channel_id]) ++ rest))
      by (rewrite <- app_assoc; exact Hn).
    assert (Hnew : ~ In channel_id done).
    { intro Hin. apply NoDup_remove_2 in Hn. apply Hn. apply in_or_app. left.
      exact Hin. }
    apply (IH _ (done ++ [channel_id]) Hn').
    intros k Hk. rewrite in_app_iff. cbn [In].
    destruct (one_channel_cases channel_id results)
      as [_ [_ [_ [_ [[Ecmp [Eerr | [text Eerr]]]
                     | [cd [rs [found [vd [df [c [_ [_ [_ [_ [_ [_ [Ecmp Eerr]]]]]]]]]]]]]]]]]];
      cbv zeta in *.
    + rewrite Ecmp in Hk. destruct (Hc k Hk) as [Hd Hv]. split; [left; exact Hd |].
      unfold error_of. rewrite Eerr. exact Hv.
    + rewrite Ecmp in Hk. destruct (Hc k Hk) as [Hd Hv]. split; [left; exact Hd |].
      rewrite (error_of_set results _ channel_id text Eerr).
      destruct (String.eqb k channel_id) eqn:E; [| exact Hv].
      apply String.eqb_eq in E. subst k. contradiction.
    + rewrite Ecmp in Hk. apply comparison_keys_set in Hk.
      rewrite (error_of_set results _ channel_id _ Eerr).
      destruct Hk as [Hk | Hk].
      * subst k. rewrite String.eqb_refl. split; [right; left; reflexivity | reflexivity].
      * destruct (Hc k Hk) as [Hd Hv]. split; [left; exact Hd |].
        destruct (String.eqb k channel_id) eqn:E; [reflexivity | exact Hv].
Qed.

(** X20.  [Counter] is not a name of the module (it is not imported), so
    the first helper of the content analysis raises [NameError] on every
    frame.  Whatever the services answer, [run] therefore returns with
    "content_analysis", "top_performing_content", "upload_patterns" and
    "engagement_metrics" all empty; every channel that got an entry in
    "channel_comparisons" is one of the analysed channels and has an entry
    in "errors"; and when the channels are distinct that entry is the
    text "name 'Counter' is not defined". *)
Theorem content_analysis_is_never_stored (competitor_channels : list string) :
  let r := run top_performing_of upload_patterns_of engagement_metrics_of
               to_datetime channels_list search_list videos_list min_views
               competitor_channels in
  (forall df, _analyze_tags df = Raises (NameError "Counter")) /\
  str (NameError "Counter") = counter_is_not_defined /\
  nothing_after_the_comparison r /\
  (forall channel_id,
      In channel_id (dict_keys (channel_comparisons r)) ->
      In channel_id (error_keys r) /\ In channel_id competitor_channels) /\
  (NoDup competitor_channels ->
   forall channel_id,
     In channel_id (dict_keys (channel_comparisons r)) ->
     error_of r channel_id = Some counter_is_not_defined).
Proof.
  cbv zeta. unfold run.
  split; [intro df; reflexivity |]. split; [reflexivity |].
  split; [apply run_writes_nothing_later; repeat split |].
  destruct (run_records_errors competitor_channels
              (empty_results Top Patterns Metrics) [])
    as [Hc He]; [intros k [] | intros k [] |].
  cbv zeta in Hc, He. cbn [app] in He.
  split.
  - intros channel_id Hk. split; [exact (Hc _ Hk) | exact (He _ (Hc _ Hk))].
  - intros Hn. apply (run_records_NameError competitor_channels
                        (empty_results Top Patterns Metrics) [] Hn).
    intros k [].
Qed.


(** *** The videos behind a comparison *)

Lemma collect_videos_views (found : list SearchItem) :
  forall video_data collected,
    collect_videos videos_list min_views found video_data = Returns collected ->
    (forall v, In v video_data -> (min_views <= views v)%Z) ->
    forall v, In v collected -> (min_views <= views v)%Z.
Proof.
  induction found as [| item rest IH]; intros video_data collected H Hacc v Hv.
  - inversion H; subst collected. exact (Hacc v Hv).
  - cbn [collect_videos] in H.
    destruct (videos_list (videoId item)) as [[| video_stats others] | e];
      cbn [and_then] in H; [exact (IH _ _ H Hacc v Hv) | | discriminate H].
    destruct (min_views <=? count_or_0 (video_viewCount video_stats))%Z eqn:E;
      [| exact (IH _ _ H Hacc v Hv)].
    apply Z.leb_le in E. apply (IH _ _ H); [| exact Hv].
    intros w Hw. apply in_app_or in Hw. destruct Hw as [Hw | [Hw | []]].
    + exact (Hacc w Hw).
    + subst w. cbn [views]. exact E.
Qed.

Lemma with_columns_rows (video_data : list Video) :
  forall df,
    with_columns to_datetime video_data = Returns df ->
    map video df = video_data /\
    map engagement_rate df = map engagement_rate_of video_data.
Proof.
  unfold with_columns. induction video_data as [| v rest IH]; intros df H.
  - inversion H. split; reflexivity.
  - cbn [map_outcome] in H.
    destruct (to_datetime (published_at v)) as [t | e]; [| discriminate H].
    cbn [and_then] in H.
    destruct (map_outcome _ rest) as [rows | e] eqn:Er; [| discriminate H].
    cbn [and_then] in H. inversion H; subst df.
    destruct (IH rows eq_refl) as [H1 H2].
    cbn [map video engagement_rate]. rewrite H1, H2. split; reflexivity.
Qed.

Lemma engagement_rate_finite (v : Video) :
  views v <> 0%Z -> exists q, engagement_rate_of v = Fin q.
Proof.
  intro H. unfold engagement_rate_of, of_int64, of_int, fdiv, fmul.
  cbn [f64 npdiv]. rewrite Float64Facts.float64_int_eq_bool.
  assert (E : (views v =? 0)%Z = false) by (apply Z.eqb_neq; exact H).
  rewrite E. cbn [f64 npmul]. rewrite Float64Facts.round2_finite.
  eexists. reflexivity.
Qed.

Lemma engagement_rates_finite (video_data : list Video) :
  (forall v, In v video_data -> views v <> 0%Z) ->
  exists qs, map engagement_rate_of video_data = map Fin qs /\
             List.length qs = List.length video_data.
Proof.
  induction video_data as [| v rest IH]; intro H.
  - exists []. split; reflexivity.
  - destruct (engagement_rate_finite v (H v (or_introl eq_refl))) as [q Hq].
    destruct (IH (fun w Hw => H w (or_intror Hw))) as [qs [Hqs Hl]].
    exists (q :: qs). cbn [map List.length]. rewrite Hq, Hqs, Hl.
    split; reflexivity.
Qed.

Lemma py_int_at_least (q : Q) (m : Z) :
  (inject_Z m <= q)%Q -> (m <= py_int q)%Z.
Proof.
  intro H. unfold py_int. apply Z.quot_le_lower_bound; [reflexivity |].
  unfold Qle, inject_Z in H. cbn [Qnum Qden] in H. lia.
Qed.

Lemma comparison_of_averages (channel_data : ChannelData) (df : list Row)
  (comparison : Comparison) :
  comparison_of channel_data df = Returns comparison ->
  int_of_float (np_mean (to_floats (map (fun r => views (video r)) df)))
  = Returns (avg_views_per_video comparison) /\
  avg_engagement_rate comparison = pd_mean (map engagement_rate df).
Proof.
  unfold comparison_of. intro H.
  destruct (required "subscriberCount" (subscriberCount channel_data));
    [| discriminate H]. cbn [and_then] in H.
  destruct (required "viewCount" (viewCount channel_data));
    [| discriminate H]. cbn [and_then] in H.
  destruct (required "videoCount" (videoCount channel_data));
    [| discriminate H]. cbn [and_then] in H.
  destruct (int_of_float _) as [avg | e]; [| discriminate H].
  cbn [and_then] in H. inversion H. split; reflexivity.
Qed.

Lemma comparison_is_finite (channel_data : ChannelData) (found : list SearchItem)
  (video_data : list Video) (df : list Row) (comparison : Comparison) :
  (0 < min_views)%Z ->
  collect_videos videos_list min_views found [] = Returns video_data ->
  video_data <> [] ->
  with_columns to_datetime video_data = Returns df ->
  comparison_of channel_data df = Returns comparison ->
  (min_views <= avg_views_per_video comparison)%Z /\
  exists m, avg_engagement_rate comparison = Fin m.
Proof.
  intros Hmin Hcollect Hne Hdf Hcmp.
  assert (Hviews : forall v, In v video_data -> (min_views <= views v)%Z).
  { apply (collect_videos_views found [] video_data Hcollect). intros v []. }
  destruct (with_columns_rows video_data df Hdf) as [Hvideo Hrates].
  destruct (comparison_of_averages channel_data df comparison Hcmp) as [Havg Heng].
  assert (Hmap : map (fun r => views (video r)) df = map views video_data)
    by (rewrite <- Hvideo, map_map; reflexivity).
  rewrite Hmap in Havg. split.
  - assert (Hnv : map views video_data <> [])
      by (destruct video_data; [contradiction | discriminate]).
    destruct (map views video_data) as [| x rest] eqn:Evs; [contradiction |].
    destruct (TrendExtras.fold_max_spec rest x) as [_ Hhi]. rewrite <- Evs in *.
    assert (Hb : forall z, In z (map views video_data) ->
                           (min_views <= z <= fold_left Z.max rest x)%Z).
    { intros z Hz. split; [| exact (Hhi z Hz)].
      apply in_map_iff in Hz. destruct Hz as [v [<- Hv]]. exact (Hviews v Hv). }
    destruct (TrendExtras.mean_within _ _ _ Hnv Hb) as [m [Hm [Hlo _]]].
    rewrite Hm in Havg. cbn [int_of_float] in Havg. inversion Havg.
    apply py_int_at_least. exact Hlo.
  - rewrite Heng, Hrates.
    destruct (engagement_rates_finite video_data) as [qs [Hqs Hl]].
    { intros v Hv. specialize (Hviews v Hv). lia. }
    rewrite Hqs.
    destruct (ChannelFacts.pd_mean_finite qs) as [m [Hm _]].
    { destruct qs; [destruct video_data; [contradiction | discriminate Hl]
                   | discriminate]. }
    exists m. exact Hm.
Qed.

Lemma run_stores_finite_averages (channels : list string) :
  (0 < min_views)%Z ->
  forall results : Report Top Patterns Metrics,
    (forall k c, dict_get k (channel_comparisons results) = Some c ->
                 (min_views <= avg_views_per_video c)%Z /\
                 exists m, avg_engagement_rate c = Fin m) ->
    forall k c,
      dict_get k (channel_comparisons
                    (fold_left (one_channel top_performing_of upload_patterns_of
                                  engagement_metrics_of to_datetime channels_list
                                  search_list videos_list min_views)
                               channels results)) = Some c ->
      (min_views <= avg_views_per_video c)%Z /\
      exists m, avg_engagement_rate c = Fin m.
Proof.
  intro Hmin. induction channels as [| channel_id rest IH]; intros results H;
    [exact H |].
  cbn [fold_left]. apply IH. intros k c Hk.
  destruct (one_channel_cases channel_id results)
    as [_ [_ [_ [_ [[Ecmp _]
                   | [cd [rs [found [vd [df [cmp [_ [_ [H3 [H4 [H5 [H6 [Ecmp _]]]]]]]]]]]]]]]]]];
    cbv zeta in *.
  - rewrite Ecmp in Hk. exact (H k c Hk).
  - rewrite Ecmp, dict_get_set in Hk. destruct (String.eqb k channel_id).
    + inversion Hk; subst c.
      exact (comparison_is_finite cd found vd df cmp Hmin H3 H4 H5 H6).
    + exact (H k c Hk).
Qed.

(** X21.  With a positive [min_views] (its default is 1000) every video
    that enters the frame has at least [min_views] views, so no rate is
    a division by zero: for every entry of "channel_comparisons" the
    average engagement rate is a number (never [inf] or [nan]) and the
    average number of views per video, cut to an integer, is at least
    [min_views]. *)
Theorem stored_averages_are_numbers (competitor_channels : list string) :
  (0 < min_views)%Z ->
  forall channel_id comparison,
    dict_get channel_id
      (channel_comparisons
         (run top_performing_of upload_patterns_of engagement_metrics_of
              to_datetime channels_list search_list videos_list min_views
              competitor_channels)) = Some comparison ->
    (min_views <= avg_views_per_video comparison)%Z /\
    exists m, avg_engagement_rate comparison = Fin m.
Proof.
  intros Hmin. unfold run. apply run_stores_finite_averages; [exact Hmin |].
  intros k c H. discriminate H.
Qed.

(** *** One channel does not disturb another *)

Lemma one_channel_frame (channel_id k : string)
  (results : Report Top Patterns Metrics) :
  k <> channel_id ->
  let after := one_channel top_performing_of upload_patterns_of
                 engagement_metrics_of to_datetime channels_list search_list
                 videos_list min_views results channel_id in
  dict_get k (channel_comparisons after) = dict_get k (channel_comparisons results) /\
  error_of after k = error_of results k.
Proof.
  intro Hk. cbv zeta. assert (E : String.eqb k channel_id = false)
    by (apply String.eqb_neq; exact Hk).
  destruct (one_channel_cases channel_id results)
    as [_ [_ [_ [_ [[Ecmp [Eerr | [text Eerr]]]
                   | [cd [rs [found [vd [df [c [_ [_ [_ [_ [_ [_ [Ecmp Eerr]]]]]]]]]]]]]]]]]];
    cbv zeta in *.
  - rewrite Ecmp. unfold error_of. rewrite Eerr. split; reflexivity.
  - rewrite Ecmp, (error_of_set results _ channel_id text Eerr), E.
    split; reflexivity.
  - rewrite Ecmp, dict_get_set, (error_of_set results _ channel_id _ Eerr), E.
    split; reflexivity.
Qed.

Lemma run_frame (channels : list string) (k : string) :
  ~ In k channels ->
  forall results : Report Top Patterns Metrics,
    let r := fold_left (one_channel top_performing_of upload_patterns_of
                          engagement_metrics_of to_datetime channels_list
                          search_list videos_list min_views)
                       channels results in
    dict_get k (channel_comparisons r) = dict_get k (channel_comparisons results) /\
    error_of r k = error_of results k.
Proof.
  induction channels as [| channel_id rest IH]; intros Hk results; cbv zeta.
  - split; reflexivity.
  - cbn [fold_left].
    destruct (IH (fun H => Hk (or_intror H))
                 (one_channel top_performing_of upload_patterns_of
                    engagement_metrics_of to_datetime channels_list search_list
                    videos_list min_views results channel_id)) as [H1 H2].
    cbv zeta in H1, H2.
    destruct (one_channel_frame channel_id k results) as [F1 F2].
    { intro E. apply Hk. left. symmetry. exact E. }
    cbv zeta in F1, F2. rewrite H1, H2, F1, F2. split; reflexivity.
Qed.

(** The turn of a channel whose body leaves [results] as they were. *)
Lemma one_channel_without_comparison (channel_id : string)
  (results : Report Top Patterns Metrics) (e : option Exception) :
  try_channel top_performing_of upload_patterns_of engagement_metrics_of
              to_datetime channels_list search_list videos_list min_views
              channel_id results = (results, e) ->
  let after := one_channel top_performing_of upload_patterns_of
                 engagement_metrics_of to_datetime channels_list search_list
                 videos_list min_views results channel_id in
  dict_get channel_id (channel_comparisons after)
  = dict_get channel_id (channel_comparisons results) /\
  error_of after channel_id
  = match e with
    | Some exc => Some (str exc)
    | None => error_of results channel_id
    end.
Proof.
  intro H. cbv zeta. unfold one_channel. rewrite H.
  destruct e as [exc |]; cbn [except channel_comparisons].
  - split; [reflexivity |]. unfold error_of at 1. cbn [errors].
    rewrite dict_get_set, String.eqb_refl. reflexivity.
  - split; reflexivity.
Qed.

Lemma run_at_channel (competitor_channels : list string) (channel_id : string)
  (e : option Exception) :
  NoDup competitor_channels ->
  In channel_id competitor_channels ->
  (forall results,
      try_channel top_performing_of upload_patterns_of engagement_metrics_of
                  to_datetime channels_list search_list videos_list min_views
                  channel_id results = (results, e)) ->
  let r := run top_performing_of upload_patterns_of engagement_metrics_of
               to_datetime channels_list search_list videos_list min_views
               competitor_channels in
  dict_get channel_id (channel_comparisons r) = None /\
  error_of r channel_id = match e with
                          | Some exc => Some (str exc)
                          | None => None
                          end.
Proof.
  intros Hn Hin Htry. cbv zeta. unfold run.
  apply in_split in Hin. destruct Hin as [before [after ->]].
  assert (Hb : ~ In channel_id before).
  { apply NoDup_remove_2 in Hn. intro H. apply Hn. apply in_or_app. left. exact H. }
  assert (Ha : ~ In channel_id after).
  { apply NoDup_remove_2 in Hn. intro H. apply Hn. apply in_or_app. right. exact H. }
  rewrite fold_left_app. cbn [fold_left].
  destruct (run_frame before channel_id Hb (empty_results Top Patterns Metrics))
    as [B1 B2]. cbv zeta in B1, B2.
  set (R1 := fold_left _ before (empty_results Top Patterns Metrics)) in *.
  destruct (one_channel_without_comparison channel_id R1 e (Htry R1)) as [S1 S2].
  cbv zeta in S1, S2.
  set (R2 := one_channel _ _ _ _ _ _ _ _ R1 channel_id) in *.
  destruct (run_frame after channel_id Ha R2) as [A1 A2]. cbv zeta in A1, A2.
  rewrite A1, A2, S1, S2, B1, B2. split; [reflexivity |].
  destruct e; reflexivity.
Qed.

(** X22.  A failure stays with its channel.  When the channels are
    distinct: a channel whose lookup or whose search raises gets the text
    of that exception in "errors" and no comparison; a channel that does
    not exist (no item) or none of whose videos reaches [min_views]
    leaves no trace, neither a comparison nor an error; and this holds
    whatever happens to the other channels. *)
Theorem failures_stay_with_their_channel (competitor_channels : list string)
  (channel_id : string) :
  NoDup competitor_channels ->
  In channel_id competitor_channels ->
  let r := run top_performing_of upload_patterns_of engagement_metrics_of
               to_datetime channels_list search_list videos_list min_views
               competitor_channels in
  (forall e,
      channels_list channel_id = Raises e ->
      dict_get channel_id (channel_comparisons r) = None /\
      error_of r channel_id = Some (str e)) /\
  (channels_list channel_id = Returns [] ->
   dict_get channel_id (channel_comparisons r) = None /\
   error_of r channel_id = None) /\
  (forall channel_data rest e,
      channels_list channel_id = Returns (channel_data :: rest) ->
      search_list channel_id = Raises e ->
      dict_get channel_id (channel_comparisons r) = None /\
      error_of r channel_id = Some (str e)) /\
  (forall channel_data rest found,
      channels_list channel_id = Returns (channel_data :: rest) ->
      search_list channel_id = Returns found ->
      collect_videos videos_list min_views found [] = Returns [] ->
      dict_get channel_id (channel_comparisons r) = None /\
      error_of r channel_id = None).
Proof.
  intros Hn Hin. cbv zeta. split; [| split; [| split]].
  - intros e He.
    apply (run_at_channel competitor_channels channel_id (Some e) Hn Hin).
    intro results. unfold try_channel. rewrite He. reflexivity.
  - intro He.
    apply (run_at_channel competitor_channels channel_id None Hn Hin).
    intro results. unfold try_channel. rewrite He. reflexivity.
  - intros channel_data rest e Hc Hs.
    apply (run_at_channel competitor_channels channel_id (Some e) Hn Hin).
    intro results. unfold try_channel. rewrite Hc, Hs. reflexivity.
  - intros channel_data rest found Hc Hs Hv.
    apply (run_at_channel competitor_channels channel_id None Hn Hin).
    intro results. unfold try_channel. rewrite Hc, Hs, Hv. reflexivity.
Qed.

End Channels.

Lemma failures_stay_with_their_channel_witness :
  error_of (run not_reached not_reached not_reached epoch only_UC1_listed
                two_videos_found statistics_of 1000 ["UC1"; "UC2"]%string)
           "UC2" = Some "quotaExceeded"%string /\
  error_of (run not_reached not_reached not_reached epoch only_UC1_listed
                two_videos_found statistics_of 1000 ["UC1"; "UC2"]%string)
           "UC1" = Some counter_is_not_defined.
Proof.
  split; [| vm_compute; reflexivity].
  assert (Hn : NoDup ["UC1"; "UC2"]%string).
  { constructor; [intros [H | []]; discriminate H |].
    constructor; [intros [] | constructor]. }
  exact (proj2 (proj1 (failures_stay_with_their_channel
                         unit unit unit not_reached not_reached not_reached epoch
                         only_UC1_listed two_videos_found statistics_of 1000
                         ["UC1"; "UC2"]%string "UC2"%string Hn
                         ltac:(right; left; reflexivity))
                      (Error "quotaExceeded") eq_refl)).
Defined.

Lemma stored_averages_are_numbers_witness :
  exists comparison,
    dict_get "UC1"
      (channel_comparisons
         (run not_reached not_reached not_reached epoch one_channel_listed
              two_videos_found statistics_of 1000 ["UC1"%string]))
    = Some comparison /\
    avg_views_per_video comparison = 5000%Z /\
    exists m, avg_engagement_rate comparison = Fin m.
Proof.
  eexists. split; [vm_compute; reflexivity |]. split; [reflexivity |].
  exact (proj2 (stored_averages_are_numbers
                  unit unit unit not_reached not_reached not_reached epoch
                  one_channel_listed two_videos_found statistics_of 1000
                  ["UC1"%string] ltac:(lia) "UC1"%string _ eq_refl)).
Defined.

End CompetitorExtras.

(** ** web_search.py *)

Module WebSearchExtras.
Import WebSearch.
Import CounterFacts.

(** *** [split] and [strip] *)

Lemma all_chars_app (p : ascii -> bool) (s1 s2 : string) :
  all_chars p (s1 ++ s2) = all_chars p s1 && all_chars p s2.
Proof.
  induction s1 as [| c s1 IH]; [reflexivity |].
  cbn [String.append all_chars]. rewrite IH, andb_assoc. reflexivity.
Qed.

Lemma In_flush (cur t : string) :
  In t (flush cur) <-> t = cur /\ cur <> EmptyString.
Proof.
  destruct cur as [| c cur]; cbn [flush In].
  - split; [intros [] | intros [_ H]; apply H; reflexivity].
  - split.
    + intros [H | []]. split; [symmetry; exact H | discriminate].
    + intros [H _]. left. symmetry. exact H.
Qed.

Lemma split_whitespace_tokens (s cur t : string) :
  all_chars is_not_space cur = true ->
  In t (split_whitespace cur s) ->
  t <> EmptyString /\ all_chars is_not_space t = true.
Proof.
  revert cur. induction s as [| c s IH]; intros cur Hcur Hin.
  - cbn [split_whitespace] in Hin. apply In_flush in Hin.
    destruct Hin as [-> Hne]. split; assumption.
  - cbn [split_whitespace] in Hin. destruct (is_space c) eqn:Ec.
    + apply in_app_or in Hin. destruct Hin as [Hin | Hin].
      * apply In_flush in Hin. destruct Hin as [-> Hne]. split; assumption.
      * exact (IH EmptyString eq_refl Hin).
    + apply (IH (cur ++ String c EmptyString)%string); [| exact Hin].
      rewrite all_chars_app, Hcur. cbn [all_chars]. unfold is_not_space.
      rewrite Ec. reflexivity.
Qed.

Lemma rstrip_no_space (t : string) :
  all_chars is_not_space t = true -> rstrip t = t.
Proof.
  induction t as [| c t IH]; [reflexivity |].
  cbn [all_chars]. intro H. apply andb_true_iff in H. destruct H as [Hc Ht].
  cbn [rstrip]. rewrite (IH Ht). unfold is_not_space in Hc.
  destruct t; [| reflexivity].
  destruct (is_space c); [discriminate Hc | reflexivity].
Qed.

Lemma strip_no_space (t : string) :
  all_chars is_not_space t = true -> strip t = t.
Proof.
  intro H. unfold strip.
  assert (El : lstrip t = t).
  { destruct t as [| c t]; [reflexivity |]. cbn [all_chars] in H.
    apply andb_true_iff in H. destruct H as [Hc _]. unfold is_not_space in Hc.
    cbn [lstrip]. destruct (is_space c); [discriminate Hc | reflexivity]. }
  rewrite El. apply rstrip_no_space. exact H.
Qed.

Lemma length_lower (s : string) : String.length (lower s) = String.length s.
Proof.
  induction s as [| c s IH]; [reflexivity |]. cbn [lower String.length].
  rewrite IH. reflexivity.
Qed.

(** The three-letter words of the set of line 68 never reach the test:
    a topic has more than 3 characters. *)
Lemma is_topic_spec (t : string) :
  is_topic t = true
  <-> (3 < String.length t)%nat /\ lower t <> "with"%string.
Proof.
  unfold is_topic, excluded_words. cbn [existsb]. rewrite orb_false_r.
  rewrite andb_true_iff, Nat.ltb_lt, negb_true_iff. split.
  - intros [Hl He]. split; [exact Hl |]. intro Hw. rewrite Hw in He.
    discriminate He.
  - intros [Hl Hw]. split; [exact Hl |].
    pose proof (length_lower t) as Hlen.
    destruct (String.eqb (lower t) "the") eqn:E1;
      [apply String.eqb_eq in E1; rewrite E1 in Hlen; cbn in Hlen; lia |].
    destruct (String.eqb (lower t) "and") eqn:E2;
      [apply String.eqb_eq in E2; rewrite E2 in Hlen; cbn in Hlen; lia |].
    destruct (String.eqb (lower t) "for") eqn:E3;
      [apply String.eqb_eq in E3; rewrite E3 in Hlen; cbn in Hlen; lia |].
    destruct (String.eqb (lower t) "with") eqn:E4;
      [apply String.eqb_eq in E4; contradiction | reflexivity].
Qed.

Lemma In_topics_of (heading t : string) :
  In t (topics_of heading)
  <-> In t (py_split heading) /\ (3 < String.length t)%nat
      /\ lower t <> "with"%string.
Proof.
  unfold topics_of. rewrite in_map_iff. split.
  - intros [w [Hs Hin]]. apply filter_In in Hin. destruct Hin as [Hin Ht].
    destruct (split_whitespace_tokens heading EmptyString w eq_refl Hin) as [_ Hw].
    rewrite (strip_no_space w Hw) in Hs. subst w.
    split; [exact Hin |]. apply is_topic_spec. exact Ht.
  - intros [Hin Ht]. exists t.
    destruct (split_whitespace_tokens heading EmptyString t eq_refl Hin) as [_ Hw].
    split; [apply strip_no_space; exact Hw |].
    apply filter_In. split; [exact Hin |]. apply is_topic_spec. exact Ht.
Qed.

(** *** The set of topics *)

Lemma In_set_add (x y : string) (s : list string) :
  In y (set_add x s) <-> y = x \/ In y s.
Proof.
  unfold set_add. destruct (existsb (String.eqb x) s) eqn:E.
  - apply existsb_eqb_In in E. split; [intro H; right; exact H |].
    intros [-> | H]; assumption.
  - rewrite in_app_iff. cbn [In]. intuition.
Qed.

Lemma NoDup_set_add (x : string) (s : list string) :
  NoDup s -> NoDup (set_add x s).
Proof.
  intro H. unfold set_add. destruct (existsb (String.eqb x) s) eqn:E; [exact H |].
  apply existsb_eqb_not_In in E.
  apply NoDup_rev in H. rewrite <- (rev_involutive (s ++ [x])).
  apply NoDup_rev. rewrite rev_app_distr. cbn [rev app].
  constructor; [| exact H]. rewrite <- In_rev. exact E.
Qed.

Lemma set_update_spec (xs s : list string) :
  (NoDup s -> NoDup (set_update s xs)) /\
  forall y, In y (set_update s xs) <-> In y s \/ In y xs.
Proof.
  unfold set_update. revert s. induction xs as [| x xs IH]; intro s.
  - cbn [fold_left In]. split; [trivial | intuition].
  - cbn [fold_left]. destruct (IH (set_add x s)) as [Hn Hi]. split.
    + intro H. apply Hn. apply NoDup_set_add. exact H.
    + intro y. rewrite Hi, In_set_add. cbn [In]. intuition.
Qed.

Lemma run_loop (include_sentiment : bool) (rs : list SearchResult) :
  forall st,
    let out := fold_left (add_result include_sentiment) rs st in
    (NoDup (trending_topics st) -> NoDup (trending_topics out)) /\
    (forall t,
        In t (trending_topics out)
        <-> In t (trending_topics st)
            \/ exists r heading, In r rs /\ title r = Some heading
                               /\ In t (topics_of heading)) /\
    List.length (top_sources out)
    = (List.length (top_sources st) + List.length rs)%nat /\
    (List.length (key_findings out)
     <= List.length (key_findings st) + List.length rs)%nat /\
    (include_sentiment = false ->
     (forall s, In s (top_sources st) -> source_sentiment s = None) ->
     forall s, In s (top_sources out) -> source_sentiment s = None) /\
    summary out = summary st.
Proof.
  induction rs as [| r rs IH]; intro st; cbv zeta.
  - cbn [fold_left List.length]. repeat split; try trivial; try lia.
    + intro H. left. exact H.
    + intros [H | [r [heading [[] _]]]]. exact H.
  - cbn [fold_left]. specialize (IH (add_result include_sentiment st r)).
    cbv zeta in IH. destruct IH as [Hn [Hi [Hl [Hk [Hs Hsum]]]]].
    assert (Ht : (NoDup (trending_topics st) ->
                  NoDup (trending_topics (add_result include_sentiment st r))) /\
                 forall t, In t (trending_topics (add_result include_sentiment st r))
                           <-> In t (trending_topics st)
                               \/ exists heading, title r = Some heading
                                                /\ In t (topics_of heading)).
    { cbn [add_result trending_topics]. destruct (title r) as [heading |].
      - destruct (set_update_spec (topics_of heading) (trending_topics st)) as [A B].
        split; [exact A |]. intro t. rewrite B. split.
        + intros [H | H]; [left; exact H | right; exists heading; split; [reflexivity | exact H]].
        + intros [H | [heading' [E H]]]; [left; exact H |].
          inversion E; subst heading'. right. exact H.
      - split; [trivial |]. intro t. split; [intro H; left; exact H |].
        intros [H | [heading [E _]]]; [exact H | discriminate E]. }
    destruct Ht as [Htn Hti].
    split; [intro H; exact (Hn (Htn H)) |].
    split; [| split; [| split; [| split]]].
    + intro t. rewrite Hi, Hti. split.
      * intros [[H | [heading [E H]]] | [r' [heading [Hr [E H]]]]].
        -- left. exact H.
        -- right. exists r, heading. split; [left; reflexivity | split; assumption].
        -- right. exists r', heading. split; [right; exact Hr | split; assumption].
      * intros [H | [r' [heading [[Hr | Hr] [E H]]]]].
        -- left. left. exact H.
        -- subst r'. left. right. exists heading. split; assumption.
        -- right. exists r', heading. split; [exact Hr | split; assumption].
    + rewrite Hl. cbn [add_result top_sources List.length].
      rewrite length_app. cbn [List.length]. lia.
    + cbn [add_result key_findings] in Hk. cbn [List.length].
      destruct (is_key_finding r); [rewrite length_app in Hk; cbn [List.length] in Hk |];
        lia.
    + intros Hf Hst s Hin. apply (Hs Hf); [| exact Hin].
      intros s' Hs'. cbn [add_result top_sources] in Hs'.
      apply in_app_or in Hs'. destruct Hs' as [Hs' | [Hs' | []]].
      * exact (Hst s' Hs').
      * subst s'. cbn [source_sentiment]. rewrite Hf. reflexivity.
    + rewrite Hsum. reflexivity.
Qed.

Lemma In_titles_of (response : Response) (heading0 : string) :
  In heading0 (titles_of response)
  <-> exists r, In r (results_of response) /\ title r = Some heading0.
Proof.
  unfold titles_of. rewrite in_flat_map. split.
  - intros [r [Hr Hin]]. exists r. split; [exact Hr |].
    destruct (title r) as [t |]; [| destruct Hin].
    destruct Hin as [Hin | []]. subst t. reflexivity.
  - intros [r [Hr E]]. exists r. split; [exact Hr |]. rewrite E. left. reflexivity.
Qed.

(** X23.  The trending topics of a response are exactly the words of the
    titles of its results (the runs of characters between whitespace)
    that have more than 3 characters and are not "with" in any casing,
    each once: the entries "the", "and" and "for" of the exclusion set
    have no effect, and so has [strip].  Besides, "top_sources" has one
    entry per result, "key_findings" at most one, every sentiment is
    [None] when [include_sentiment] is off, and a response without
    "results" gives empty lists. *)
Theorem trending_topics_are_long_title_words (include_sentiment : bool)
  (response : Response) :
  let out := run include_sentiment response in
  NoDup (trending_topics out) /\
  (forall t,
      In t (trending_topics out)
      <-> exists heading,
            In heading (titles_of response) /\ In t (py_split heading) /\
            (3 < String.length t)%nat /\ lower t <> "with"%string) /\
  (forall heading t,
      In t (py_split heading) ->
      t <> EmptyString /\ all_chars is_not_space t = true /\ strip t = t) /\
  List.length (top_sources out) = List.length (results_of response) /\
  (List.length (key_findings out) <= List.length (results_of response))%nat /\
  (include_sentiment = false ->
   forall s, In s (top_sources out) -> source_sentiment s = None).
Proof.
  cbv zeta. unfold run.
  set (st := {| summary := match answer response with
                           | Some a => a
                           | None => EmptyString
                           end;
                top_sources := []; trending_topics := []; key_findings := [] |}).
  destruct (run_loop include_sentiment (results_of response) st)
    as [Hn [Hi [Hl [Hk [Hs _]]]]].
  cbv zeta in Hn, Hi, Hl, Hk, Hs.
  split; [apply Hn; constructor |].
  split; [| split; [| split; [exact Hl | split; [exact Hk |]]]].
  - intro t. rewrite Hi. split.
    + intros [[] | [r [heading [Hr [E Ht]]]]]. exists heading.
      split; [apply In_titles_of; exists r; split; assumption |].
      apply In_topics_of. exact Ht.
    + intros [heading [Hin Ht]]. right. apply In_titles_of in Hin.
      destruct Hin as [r [Hr E]]. exists r, heading.
      split; [exact Hr | split; [exact E |]]. apply In_topics_of. exact Ht.
  - intros heading t Hin.
    destruct (split_whitespace_tokens heading EmptyString t eq_refl Hin) as [H1 H2].
    split; [exact H1 | split; [exact H2 | apply strip_no_space; exact H2]].
  - intros Hf s Hin. apply (Hs Hf); [intros s' [] | exact Hin].
Qed.

End WebSearchExtras.

(** ** script_editor.py *)

Module ScriptExtras.
Import ScriptEditor.

Lemma count_chars_app (p : ascii -> bool) (s1 s2 : string) :
  count_chars p (s1 ++ s2) = (count_chars p s1 + count_chars p s2)%nat.
Proof.
  induction s1 as [| c s1 IH]; [reflexivity |].
  cbn [String.append count_chars]. rewrite IH. lia.
Qed.

Lemma replace_spaces_no_blank (title : string) :
  count_chars is_blank (replace_spaces title) = 0%nat.
Proof.
  induction title as [| c title IH]; [reflexivity |].
  cbn [replace_spaces count_chars]. rewrite IH. unfold is_blank.
  destruct (Ascii.eqb c " ") eqn:E; [reflexivity |]. rewrite E. reflexivity.
Qed.

Lemma replace_spaces_slashes (title : string) :
  count_chars is_slash (replace_spaces title) = count_chars is_slash title.
Proof.
  induction title as [| c title IH]; [reflexivity |].
  cbn [replace_spaces count_chars]. rewrite IH. unfold is_slash.
  destruct (Ascii.eqb c " ") eqn:E; [| reflexivity].
  apply Ascii.eqb_eq in E. subst c. reflexivity.
Qed.

Lemma replace_spaces_length (title : string) :
  String.length (replace_spaces title) = String.length title.
Proof.
  induction title as [| c title IH]; [reflexivity |].
  cbn [replace_spaces String.length]. rewrite IH. reflexivity.
Qed.

Lemma replace_spaces_without_blank (title : string) :
  count_chars is_blank title = 0%nat -> replace_spaces title = title.
Proof.
  induction title as [| c title IH]; [reflexivity |].
  cbn [replace_spaces count_chars]. unfold is_blank at 1.
  destruct (Ascii.eqb c " "); [discriminate |]. intro H. rewrite (IH H).
  reflexivity.
Qed.

Lemma append_cancel_l (p s t : string) : (p ++ s = p ++ t)%string -> s = t.
Proof.
  induction p as [| c p IH]; [trivial |]. cbn [String.append]. intro H.
  inversion H. apply IH. assumption.
Qed.

Lemma length_append (s t : string) :
  String.length (s ++ t) = (String.length s + String.length t)%nat.
Proof.
  induction s as [| c s IH]; [reflexivity |]. cbn [String.append String.length].
  rewrite IH. reflexivity.
Qed.

Lemma append_cancel_r (s t e : string) : (s ++ e = t ++ e)%string -> s = t.
Proof.
  intro H.
  assert (Hl : String.length s = String.length t).
  { apply (f_equal String.length) in H. rewrite !length_append in H. lia. }
  revert t H Hl. induction s as [| c s IH]; intros t H Hl.
  - destruct t; [reflexivity | discriminate Hl].
  - destruct t as [| d t]; [discriminate Hl |]. cbn [String.append] in H.
    inversion H. f_equal. apply IH; [assumption | cbn in Hl; lia].
Qed.

(** X24.  The file of a script is scripts/<timestamp>_<title>.md with
    every space of the title replaced by an underscore: the replaced
    title has the length of the title and no space (so the name has none
    when the timestamp has none), a title without spaces is kept as it
    is, and every "/" of the title stays in the name (the file is then
    not directly in the scripts directory).  At one timestamp two titles
    get the same file exactly when they are equal after the replacement:
    "a b" and "a_b" are written to the same file. *)
Theorem file_name_of_a_script (timestamp title : string) :
  String.length (replace_spaces title) = String.length title /\
  count_chars is_blank (replace_spaces title) = 0%nat /\
  (count_chars is_blank title = 0%nat -> replace_spaces title = title) /\
  count_chars is_blank (filename timestamp title)
  = count_chars is_blank timestamp /\
  count_chars is_slash (filename timestamp title)
  = (1 + count_chars is_slash timestamp + count_chars is_slash title)%nat /\
  (forall other,
      filename timestamp title = filename timestamp other
      <-> replace_spaces title = replace_spaces other) /\
  filename timestamp "a b" = filename timestamp "a_b" /\
  saved_message timestamp title
  = ("Script saved to " ++ filename timestamp title)%string.
Proof.
  split; [apply replace_spaces_length |].
  split; [apply replace_spaces_no_blank |].
  split; [apply replace_spaces_without_blank |].
  unfold filename, scripts_dir.
  split; [| split; [| split; [| split; reflexivity]]].
  - rewrite !count_chars_app, replace_spaces_no_blank. cbn [count_chars is_blank Ascii.eqb].
    cbn. lia.
  - rewrite !count_chars_app, replace_spaces_slashes. cbn. lia.
  - intro other. split.
    + intro H. apply append_cancel_l in H. apply append_cancel_l in H.
      apply append_cancel_l in H. apply append_cancel_l in H.
      apply append_cancel_r in H. exact H.
    + intro H. rewrite H. reflexivity.
Qed.

End ScriptExtras.

(** ** keyword_extractor.py *)

Module KeywordExtras.
Import KeywordExtractor.
Import CounterFacts.




Section Models.

Variable word_tokenize : string -> list string.
Variable sent_tokenize : string -> list string.
Variable stopwords_english : list string.
Variable pos_tag : list string -> list (string * string).
Variable ne_chunk : list (string * string) -> list Node.
Variable extract_keywords : string -> Z -> list (string * Q).
Variable nlp : string -> Doc.
Variable blob_sentiment : string -> Q * Q.
Variable min_keyword_length : Z.
Variable max_keywords : Z.


End Models.

End KeywordExtras.
